(** * Scenario execution engine of the web-automation extension

    A shallow embedding of the content script's run loop
    ([AutomationContentScript] in [popup.js]), of the timing helpers of
    [ActionExecutor], of [ElementFinder] ([element-finder.js]) and of
    [ConfigManager.processAction], followed by the properties of the
    specification stated over these definitions.

    JavaScript numbers are IEEE-754 doubles and are modelled by Rocq's
    primitive [float]; the numbers of a JSON configuration document are
    finite decimal literals and are modelled by the rationals they denote
    (comparison, minimum and maximum are exact on them).  Strings are
    [string]; objects used as dictionaries are [gmap]s, and association
    lists where the iteration order of [Object.entries] matters. *)

From Stdlib Require Import ZArith QArith Qminmax Lqa Floats String Ascii List Bool Lia.
From Stdlib Require Import DecimalString.
From stdpp Require Import gmap strings fin_maps.
Import ListNotations.

#[local] Set Warnings "-inexact-float".

Local Open Scope string_scope.
Local Open Scope list_scope.

(* ===================================================================== *)
(** * JavaScript primitives used by the sources *)
(* ===================================================================== *)

Module JS.

(** ** Strings *)

(** [s.startsWith(p)] *)
Fixpoint startsWith (s p : string) : bool :=
  match p, s with
  | EmptyString, _ => true
  | String a p', String b s' => if Ascii.eqb a b then startsWith s' p' else false
  | String _ _, EmptyString => false
  end.

(** [s.includes(sub)] *)
Fixpoint includes (s sub : string) : bool :=
  startsWith s sub ||
  match s with
  | EmptyString => false
  | String _ s' => includes s' sub
  end.

(** [s.split(sep)] for a one-character separator; never the empty list. *)
Fixpoint split (sep : ascii) (s : string) : list string :=
  match s with
  | EmptyString => [EmptyString]
  | String c s' =>
      if Ascii.eqb c sep then EmptyString :: split sep s'
      else match split sep s' with
           | h :: t => String c h :: t
           | [] => [String c EmptyString]
           end
  end.

Definition lowerChar (c : ascii) : ascii :=
  let n := nat_of_ascii c in
  if ((65 <=? n) && (n <=? 90))%nat then ascii_of_nat (n + 32) else c.

(** [a < b] on two strings: the order of their character codes, a proper
    prefix coming first. *)
Fixpoint lessThan (a b : string) : bool :=
  match a, b with
  | _, EmptyString => false
  | EmptyString, String _ _ => true
  | String x a', String y b' =>
      if (nat_of_ascii x <? nat_of_ascii y)%nat then true
      else if (nat_of_ascii y <? nat_of_ascii x)%nat then false
      else lessThan a' b'
  end.

(** [s.toLowerCase()], on the ASCII letters. *)
Fixpoint toLowerCase (s : string) : string :=
  match s with
  | EmptyString => EmptyString
  | String c s' => String (lowerChar c) (toLowerCase s')
  end.

(** White space of the ASCII range: TAB, LF, VT, FF, CR and SPACE. *)
Definition isSpace (c : ascii) : bool :=
  let n := nat_of_ascii c in
  (((9 <=? n) && (n <=? 13)) || (n =? 32))%nat.

Fixpoint trimStart (s : string) : string :=
  match s with
  | EmptyString => EmptyString
  | String c s' => if isSpace c then trimStart s' else s
  end.

Fixpoint trimEnd (s : string) : string :=
  match s with
  | EmptyString => EmptyString
  | String c s' =>
      match trimEnd s' with
      | EmptyString => if isSpace c then EmptyString else String c EmptyString
      | t => String c t
      end
  end.

(** [s.trim()] *)
Definition trim (s : string) : string := trimEnd (trimStart s).

(** [s.substring(1)] *)
Definition substring1 (s : string) : string :=
  match s with
  | EmptyString => EmptyString
  | String _ r => r
  end.

(** A non-empty string is truthy. *)
Definition truthyStr (s : string) : bool :=
  match s with EmptyString => false | String _ _ => true end.

Definition isDigit (c : ascii) : bool :=
  let n := nat_of_ascii c in ((48 <=? n) && (n <=? 57))%nat.

(** The longest prefix of characters satisfying [p], and the rest. *)
Fixpoint spanChars (p : ascii -> bool) (s : string) : string * string :=
  match s with
  | EmptyString => (EmptyString, EmptyString)
  | String c s' =>
      if p c then let (run, rest) := spanChars p s' in (String c run, rest)
      else (EmptyString, s)
  end.

(** The rest of [s] after the prefix [p], when [s] starts with [p]. *)
Fixpoint stripPrefix (p s : string) : option string :=
  match p, s with
  | EmptyString, _ => Some s
  | String a p', String b s' => if Ascii.eqb a b then stripPrefix p' s' else None
  | String _ _, EmptyString => None
  end.

(** The value of a string of decimal digits. *)
Fixpoint digitsValueAcc (acc : Z) (s : string) : Z :=
  match s with
  | EmptyString => acc
  | String c s' => digitsValueAcc (10 * acc + (Z.of_nat (nat_of_ascii c) - 48)) s'
  end.

Definition digitsValue (s : string) : Z := digitsValueAcc 0 s.

(** ** Numbers *)

(** The double nearest to a non-negative integer. *)
Definition floatOfZ (z : Z) : float :=
  SF2Prim (binary_normalize prec emax z 0 false).

(** Truthiness of a number: neither zero nor NaN. *)
Definition truthy (x : float) : bool :=
  negb (PrimFloat.eqb x 0%float) && negb (is_nan x).

(** [x || d] on numbers. *)
Definition orElse (x d : float) : float := if truthy x then x else d.

(** [Math.floor] as an integer, for finite arguments. *)
Definition floorZ (x : float) : option Z :=
  match Prim2SF x with
  | S754_zero _ => Some 0%Z
  | S754_finite s m e =>
      let n := if s then Z.neg m else Z.pos m in
      Some (if (0 <=? e)%Z then n * 2 ^ e else n / 2 ^ (- e))%Z
  | _ => None
  end.

(** [parseInt(s)] on a string of decimal digits (the only use in the sources). *)
Definition parseIntDigits (s : string) : float := floatOfZ (digitsValue s).

(** [parseFloat(s)]: leading white space, an optional sign, then the longest
    prefix [digits [. digits]] or [. digits]; NaN when there is none.  An
    exponent part and the literal [Infinity] are not modelled; the division
    by the power of ten is the correctly rounded quotient of two doubles. *)
Definition parseFloat (s : string) : float :=
  let s0 := trimStart s in
  let '(neg, s1) :=
    match s0 with
    | String "-" r => (true, r)
    | String "+" r => (false, r)
    | _ => (false, s0)
    end in
  let '(ip, r1) := spanChars isDigit s1 in
  let fp :=
    match r1 with
    | String "." r2 => fst (spanChars isDigit r2)
    | _ => EmptyString
    end in
  match ip, fp with
  | EmptyString, EmptyString => nan
  | _, _ =>
      let m := floatOfZ (digitsValue (ip +:+ fp)) in
      let v :=
        match fp with
        | EmptyString => m
        | _ => PrimFloat.div m (floatOfZ (10 ^ Z.of_nat (String.length fp)))
        end in
      if neg then PrimFloat.opp v else v
  end.

End JS.

(* ===================================================================== *)
(** * Timing model: [ActionExecutor.parseDuration] and [parseTimeValue] *)
(* ===================================================================== *)

Module Timing.

(** [parseTimeValue(timeStr)]: the number in milliseconds. *)
Definition parseTimeValue (timeStr : string) : float :=
  let value := JS.parseFloat timeStr in
  if JS.includes timeStr "ms" then value
  else if JS.includes timeStr "s" then PrimFloat.mul value 1000%float
  else value.

(** [parseDuration(durationStr)]; [rnd] is the value of [Math.random()],
    drawn only for the range format. *)
Definition parseDuration (rnd : float) (durationStr : string) : float :=
  if JS.includes durationStr "-" then
    match JS.split "-" durationStr with
    | minStr :: maxStr :: _ =>
        let min := parseTimeValue minStr in
        let max := parseTimeValue maxStr in
        (rnd * (max - min) + min)%float
    | _ => nan
    end
  else parseTimeValue durationStr.

End Timing.

(* ===================================================================== *)
(** * Data model *)
(* ===================================================================== *)

(** ** Page elements *)

Record Rect := mkRect {
  rectLeft : float;
  rectTop : float;
  rectWidth : float;
  rectHeight : float
}.

(** What the finder reads of a live element: its identity, text content,
    attributes, bounding box, computed style and offset size. *)
Record Element := mkElement {
  nodeId : nat;
  textContent : option string;
  attributes : list (string * string);
  boundingRect : Rect;
  styleDisplay : string;
  styleVisibility : string;
  styleOpacity : string;
  offsetWidth : float;
  offsetHeight : float
}.

(** A resolved target: a page element, or the virtual back-navigation
    object returned by [selectBrowserBack]. *)
Inductive Node :=
| DomElement (e : Element)
| BrowserBack.

Record Window := mkWindow {
  innerHeight : float;
  innerWidth : float;
  clientHeight : float;
  clientWidth : float
}.

(** The document as the finder queries it.  [querySelectorAll] answers
    [None] where the browser throws (a selector that is not valid CSS). *)
Record Document := mkDocument {
  querySelectorAll : string -> option (list Element);
  contains : Element -> bool;
  window : Window
}.

(** ** Scenario description *)

Inductive Duration :=
| DurNum (ms : float)
| DurStr (s : string).

(** A micro-action object, by its [type] field. *)
Inductive MicroAction :=
| MWait (duration : option Duration)
| MMove (target : string) (pattern speed : option string)
| MHover (target : string) (duration : option Duration)
| MClick (target : string) (button : option string) (count : option float)
| MScroll (distance : option float) (to : option string) (speed : option string)
| MType (target : string) (text : string) (speed : option string) (clearFirst : bool)
| MVerify (target : string) (shouldExist : option bool)
| MScreenshot (filename : option string)
| MLog (msg : option string)
| MOther (type : string).

Record Conditions := mkConditions {
  minTimeOnPage : option float;
  maxTimeOnPage : option float;
  elementExists : option string;
  elementNotExists : option string;
  goalProgress : option (list (string * float))
}.

Record Action := mkAction {
  name : string;
  probability : float;
  conditions : option Conditions;
  impact : option (list (string * float));
  microSequence : option (list MicroAction);
  targetPage : option string
}.

Record StayDuration := mkStay {
  stayMin : float;
  stayMax : float
}.

Record PageActions := mkPageActions {
  nonNavigation : option (list Action);
  navigation : option (list Action)
}.

Record PageConfig := mkPageConfig {
  stayDuration : option StayDuration;
  entryActions : option (list MicroAction);
  actions : option PageActions
}.

Record SessionDuration := mkSessionDuration {
  durationMin : float;
  durationMax : float;
  durationUnit : string
}.

Record Goals := mkGoals {
  required_metrics : list (string * float);
  optional_metrics : list (string * float);
  session_duration : option SessionDuration
}.

Record Scenario := mkScenario {
  goals : Goals;
  pages : gmap string PageConfig
}.

Record SelectorSet := mkSelectorSet {
  global : option (gmap string string)
}.

(** The page object of the page detector; only its [type] is read. *)
Record Page := mkPage {
  pageType : string
}.

(** ** Errors, messages and commands *)

(** A thrown value; [message] is absent for a value that is not an [Error]. *)
Record Error := mkError {
  message : option string
}.

Inductive Result (A : Type) :=
| Ok (a : A)
| Throw (e : Error).
Arguments Ok {A} a.
Arguments Throw {A} e.

(** Messages sent to the background page. *)
Inductive Message :=
| LogAction (actionType : string)
| LogError (errorType : string) (msg : option string)
| CaptureScreenshot (filename : option string).

(** Commands that are handled while the run loop awaits.  The handlers of
    pause and stop run to their end without a tick; the handlers of start
    and resume run a tick of their own, which would interleave with the
    tick that awaits, and are modelled between ticks only, as calls of
    [resumeAutomation] on a state. *)
Inductive Command :=
| PauseCmd
| StopCmd.

(** The calls of the run loop into [ActionExecutor]. *)
Inductive ExecutorCall :=
| ExWait (duration : option Duration)
| ExMove (el : Node) (pattern speed : option string)
| ExHover (el : Node) (duration : option Duration)
| ExClick (el : Node) (button : option string) (count : option float)
| ExScroll (distance : option float) (to : option Node) (speed : option string)
| ExType (el : Node) (text : string) (speed : option string) (clearFirst : bool).

(** ** The browser and the collaborators outside the sources

    [W] is the state of everything outside the content script: the page,
    the clock, the random source, the history and the pending input.  An
    awaited call returns the next world, the error it rejects with (if any)
    and the commands whose handlers ran while it was awaited. *)

Record Outcome (W : Type) := mkOutcome {
  nextWorld : W;
  raised : option Error;
  arrived : list Command
}.
Arguments mkOutcome {W}.
Arguments nextWorld {W}.
Arguments raised {W}.
Arguments arrived {W}.

Class Platform (W : Type) := {
  (** [Date.now()] *)
  clock : W -> float;
  (** [Math.random()] *)
  nextRandom : W -> float * W;
  (** the live document *)
  document : W -> Document;
  (** [window.history.length] and [window.history.back()] *)
  historyLength : W -> nat;
  historyBack : W -> W;
  (** a timer-based wait of the given number of milliseconds *)
  sleep : float -> W -> W * list Command;
  (** an awaited [ActionExecutor] call *)
  perform : ExecutorCall -> W -> Outcome W;
  (** [pageDetector.detectPage(url, selectors)]; [None] where it throws *)
  detectPage : W -> option SelectorSet -> option (option Page);
  (** the [max] bound of a session duration, in milliseconds *)
  boundMs : SessionDuration -> float;
  (** [String.prototype.toLowerCase], the engine's, on any string *)
  lowerCase : string -> string
}.

(** ** State of the content script *)

Record Finder := mkFinder {
  selectorCache : gmap string Node;
  lastFound : option Node
}.

Record Tracker := mkTracker {
  trackerGoals : option Goals;
  metrics : gmap string float;
  sessionStart : float;
  trackedPage : option string;
  pageArrival : float
}.

(** The fields of [AutomationContentScript], the state of its finder and
    tracker, the timers it has pending in the browser, the messages it has
    sent, and the world. *)
Record State (W : Type) := mkState {
  isRunning : bool;
  isPaused : bool;
  currentSession : option string;
  currentScenario : option Scenario;
  currentPage : option Page;
  selectors : option SelectorSet;
  executionTimer : option nat;
  finder : Finder;
  tracker : Tracker;
  pendingTimers : list (nat * float);
  timerSeq : nat;
  outbox : list Message;
  world : W
}.
Arguments mkState {W}.
Arguments isRunning {W}.
Arguments isPaused {W}.
Arguments currentSession {W}.
Arguments currentScenario {W}.
Arguments currentPage {W}.
Arguments selectors {W}.
Arguments executionTimer {W}.
Arguments finder {W}.
Arguments tracker {W}.
Arguments pendingTimers {W}.
Arguments timerSeq {W}.
Arguments outbox {W}.
Arguments world {W}.

Section StateUpdates.
Context {W : Type}.

Definition setFlags (r p : bool) (s : State W) : State W :=
  mkState r p (currentSession s) (currentScenario s) (currentPage s)
    (selectors s) (executionTimer s) (finder s) (tracker s)
    (pendingTimers s) (timerSeq s) (outbox s) (world s).

Definition setSession (cs : option string) (sc : option Scenario) (s : State W) : State W :=
  mkState (isRunning s) (isPaused s) cs sc (currentPage s)
    (selectors s) (executionTimer s) (finder s) (tracker s)
    (pendingTimers s) (timerSeq s) (outbox s) (world s).

Definition setCurrentPage (p : option Page) (s : State W) : State W :=
  mkState (isRunning s) (isPaused s) (currentSession s) (currentScenario s) p
    (selectors s) (executionTimer s) (finder s) (tracker s)
    (pendingTimers s) (timerSeq s) (outbox s) (world s).

Definition setTimers (h : option nat) (pend : list (nat * float)) (seq : nat)
    (s : State W) : State W :=
  mkState (isRunning s) (isPaused s) (currentSession s) (currentScenario s)
    (currentPage s) (selectors s) h (finder s) (tracker s)
    pend seq (outbox s) (world s).

Definition setFinder (f : Finder) (s : State W) : State W :=
  mkState (isRunning s) (isPaused s) (currentSession s) (currentScenario s)
    (currentPage s) (selectors s) (executionTimer s) f (tracker s)
    (pendingTimers s) (timerSeq s) (outbox s) (world s).

Definition setTracker (t : Tracker) (s : State W) : State W :=
  mkState (isRunning s) (isPaused s) (currentSession s) (currentScenario s)
    (currentPage s) (selectors s) (executionTimer s) (finder s) t
    (pendingTimers s) (timerSeq s) (outbox s) (world s).

Definition send (m : Message) (s : State W) : State W :=
  mkState (isRunning s) (isPaused s) (currentSession s) (currentScenario s)
    (currentPage s) (selectors s) (executionTimer s) (finder s) (tracker s)
    (pendingTimers s) (timerSeq s) (outbox s ++ [m]) (world s).

Definition setWorld (w : W) (s : State W) : State W :=
  mkState (isRunning s) (isPaused s) (currentSession s) (currentScenario s)
    (currentPage s) (selectors s) (executionTimer s) (finder s) (tracker s)
    (pendingTimers s) (timerSeq s) (outbox s) w.

End StateUpdates.

(** ** Computations of the content script: state passing with exceptions *)

Definition M (W A : Type) : Type := State W -> State W * Result A.

Definition ret {W A} (a : A) : M W A := fun s => (s, Ok a).

Definition throw {W A} (e : Error) : M W A := fun s => (s, Throw e).

Definition bind {W A B} (m : M W A) (k : A -> M W B) : M W B :=
  fun s =>
    match m s with
    | (s', Ok a) => k a s'
    | (s', Throw e) => (s', Throw e)
    end.

(** [try { m } catch (error) { h error }] *)
Definition tryCatch {W A} (m : M W A) (h : Error -> M W A) : M W A :=
  fun s =>
    match m s with
    | (s', Ok a) => (s', Ok a)
    | (s', Throw e) => h e s'
    end.

Definition get {W} : M W (State W) := fun s => (s, Ok s).

Definition modify {W} (f : State W -> State W) : M W unit :=
  fun s => (f s, Ok tt).

Declare Scope js_scope.
Delimit Scope js_scope with js.
Notation "'let*' x ':=' m 'in' k" := (bind m (fun x => k))
  (at level 10, x pattern, m at level 200, k at level 200) : js_scope.

Section Primitives.
Context {W : Type} `{Platform W}.

(** [Math.random()] *)
Definition random : M W float :=
  fun s => let (r, w) := nextRandom (world s) in (setWorld w s, Ok r).

(** [document.querySelectorAll(selector)], as an array. *)
Definition queryAll (selector : string) : M W (list Element) :=
  fun s =>
    match querySelectorAll (document (world s)) selector with
    | Some l => (s, Ok l)
    | None => (s, Throw (mkError (Some ("not a valid selector: " +:+ selector))))
    end.

(** [document.querySelector(selector)]: the first match or [null]. *)
Definition queryFirst (selector : string) : M W (option Element) :=
  (let* l := queryAll selector in ret (head l))%js.

Definition theWindow : M W Window :=
  fun s => (s, Ok (window (document (world s)))).

(** [chrome.runtime.sendMessage] inside [logAction], [logError] and
    [takeScreenshot], which catch whatever it throws. *)
Definition sendMessage (m : Message) : M W unit := modify (send m).

End Primitives.

(* ===================================================================== *)
(** * Element resolver: [ElementFinder] *)
(* ===================================================================== *)

Module ElementFinder.

Definition dquote : ascii := ascii_of_nat 34.
Definition notChar (c x : ascii) : bool := negb (Ascii.eqb x c).

(** The leftmost match of a pattern that is tried at every position. *)
Fixpoint search {A : Type} (m : string -> option A) (s : string) : option A :=
  match m s with
  | Some a => Some a
  | None =>
      match s with
      | EmptyString => None
      | String _ s' => search m s'
      end
  end.

(** [/nth\((\d+)\)/] at the start of [s]: the digits. *)
Definition matchNthAt (s : string) : option string :=
  match JS.stripPrefix "nth(" s with
  | Some r =>
      let (ds, r') := JS.spanChars JS.isDigit r in
      if JS.truthyStr ds && JS.startsWith r' ")" then Some ds else None
  | None => None
  end.

(** The pattern [text:], a double quote, one or more characters other than
    a double quote, and a double quote, at the start of [s]: the content. *)
Definition matchTextAt (s : string) : option string :=
  match JS.stripPrefix ("text:" +:+ String dquote EmptyString) s with
  | Some r =>
      let (body, r') := JS.spanChars (notChar dquote) r in
      if JS.truthyStr body && JS.startsWith r' (String dquote EmptyString)
      then Some body else None
  | None => None
  end.

(** The attribute pattern at the start of [s]: an opening bracket, one or
    more characters other than an equals sign (the attribute), an optional
    star, an equals sign, a quoted non-empty value and a closing bracket.
    The first group is greedy and a star is not an equals sign, so the
    group takes a trailing star with it and the optional star matches
    nothing. *)
Definition matchAttrAt (s : string) : option (string * string) :=
  match JS.stripPrefix "[" s with
  | Some r =>
      let (attr, r1) := JS.spanChars (notChar "="%char) r in
      match JS.stripPrefix ("=" +:+ String dquote EmptyString) r1 with
      | Some r2 =>
          let (value, r3) := JS.spanChars (notChar dquote) r2 in
          if JS.truthyStr attr && JS.truthyStr value
             && JS.startsWith r3 (String dquote "]")
          then Some (attr, value) else None
      | None => None
      end
  | None => None
  end.

(** [/position\((\d+),(\d+)(?:,(\d+))?\)/] at the start of [s]. *)
Definition matchPositionAt (s : string) : option (string * string * option string) :=
  match JS.stripPrefix "position(" s with
  | Some r =>
      let (x, r1) := JS.spanChars JS.isDigit r in
      match JS.stripPrefix "," r1 with
      | Some r2 =>
          let (y, r3) := JS.spanChars JS.isDigit r2 in
          if JS.truthyStr x && JS.truthyStr y then
            match JS.stripPrefix "," r3 with
            | Some r4 =>
                let (t, r5) := JS.spanChars JS.isDigit r4 in
                if JS.truthyStr t && JS.startsWith r5 ")" then Some (x, y, Some t)
                else None
            | None => if JS.startsWith r3 ")" then Some (x, y, None) else None
            end
          else None
      | None => None
      end
  | None => None
  end.

(** [elements[i]] for a number [i]: [None] outside the array. *)
Definition at_ {A : Type} (l : list A) (i : Z) : option A :=
  if (0 <=? i)%Z then nth_error l (Z.to_nat i) else None.

(** [isElementVisible(element)] *)
Definition isElementVisible (e : Element) : bool :=
  negb (String.eqb (styleDisplay e) "none")
  && negb (String.eqb (styleVisibility e) "hidden")
  && negb (String.eqb (styleOpacity e) "0")
  && PrimFloat.ltb 0 (offsetWidth e)
  && PrimFloat.ltb 0 (offsetHeight e).

(** [isElementInViewport(element)] *)
Definition isElementInViewport (w : Window) (e : Element) : bool :=
  let r := boundingRect e in
  PrimFloat.leb 0 (rectTop r)
  && PrimFloat.leb 0 (rectLeft r)
  && PrimFloat.leb (rectTop r + rectHeight r) (JS.orElse (innerHeight w) (clientHeight w))
  && PrimFloat.leb (rectLeft r + rectWidth r) (JS.orElse (innerWidth w) (clientWidth w)).

(** [selectVisible(elements)] *)
Definition selectVisible (elements : list Element) : option Node :=
  option_map DomElement (find isElementVisible elements).

(** [selectInViewport(elements)] *)
Definition selectInViewport (w : Window) (elements : list Element) : option Node :=
  option_map DomElement (find (isElementInViewport w) elements).

(** [selectNth(elements, n)], 1-based. *)
Definition selectNth (elements : list Element) (n : Z) : option Node :=
  option_map DomElement (at_ elements (n - 1)).

(** [selectFirst(elements)] *)
Definition selectFirst (elements : list Element) : option Node :=
  option_map DomElement (head elements).

(** [selectLast(elements)] *)
Definition selectLast (elements : list Element) : option Node :=
  option_map DomElement (last elements).

(** The own keys of the [selectorAliases] table. *)
Inductive Alias :=
| AliasRandom | AliasVisible | AliasInViewport | AliasNth
| AliasFirst | AliasLast | AliasCurrent | AliasBrowserBack.

Definition selectorAliases (selector : string) : option Alias :=
  if String.eqb selector ":random" then Some AliasRandom
  else if String.eqb selector ":visible" then Some AliasVisible
  else if String.eqb selector ":inviewport" then Some AliasInViewport
  else if String.eqb selector ":nth" then Some AliasNth
  else if String.eqb selector ":first" then Some AliasFirst
  else if String.eqb selector ":last" then Some AliasLast
  else if String.eqb selector "current" then Some AliasCurrent
  else if String.eqb selector "browser_back" then Some AliasBrowserBack
  else None.

Section Finder.
Context {W : Type} `{Platform W}.
Local Open Scope js_scope.

(** [selectRandom(elements)] *)
Definition selectRandom (elements : list Element) : M W (option Node) :=
  match elements with
  | [] => ret None
  | _ =>
      let* r := random in
      let randomIndex := JS.floorZ (r * JS.floatOfZ (Z.of_nat (length elements))) in
      ret (match randomIndex with
           | Some i => option_map DomElement (at_ elements i)
           | None => None
           end)
  end.

(** [selectCurrent()] *)
Definition selectCurrent : M W (option Node) :=
  fun s => (s, Ok (lastFound (finder s))).

(** An alias of the table called as the finder calls it, without arguments. *)
Definition callAlias (a : Alias) : M W (option Node) :=
  match a with
  | AliasRandom => selectRandom []
  | AliasVisible => ret (selectVisible [])
  | AliasInViewport => let* w := theWindow in ret (selectInViewport w [])
  | AliasNth => ret (selectNth [] 1)
  | AliasFirst => ret (selectFirst [])
  | AliasLast => ret (selectLast [])
  | AliasCurrent => selectCurrent
  | AliasBrowserBack => ret (Some BrowserBack)
  end.

(** [handleSpecialSelectors(selector)] *)
Definition handleSpecialSelectors (selector : string) : M W (option Node) :=
  match JS.split ":" selector with
  | [] => ret None
  | baseSelector :: parts =>
      let* elements := queryAll baseSelector in
      match elements, parts with
      | [], _ => ret None
      | _, [] =>
          throw (mkError (Some "Cannot read properties of undefined (reading 'startsWith')"))
      | _, modifier :: _ =>
          if String.eqb modifier "random" then selectRandom elements
          else if String.eqb modifier "visible" then ret (selectVisible elements)
          else if String.eqb modifier "inviewport" then
            let* w := theWindow in ret (selectInViewport w elements)
          else if String.eqb modifier "first" then
            ret (option_map DomElement (head elements))
          else if String.eqb modifier "last" then
            ret (option_map DomElement (last elements))
          else
            match (if JS.startsWith modifier "nth(" then search matchNthAt modifier
                   else None) with
            | Some digits =>
                let index := (JS.digitsValue digits - 1)%Z in
                ret (option_map DomElement (at_ elements index))
            | None => ret (option_map DomElement (head elements))
            end
      end
  end.

(** [findByDirectSelector(selector)] *)
Definition findByDirectSelector (selector : string) : M W (option Node) :=
  match selectorAliases selector with
  | Some a => callAlias a
  | None =>
      if JS.includes selector ":" then handleSpecialSelectors selector
      else
        let* elements := queryAll selector in
        ret (option_map DomElement (head elements))
  end.

(** The loop of [findByFallbackSelectors] over the trimmed sub-selectors. *)
Fixpoint firstOfSelectors (selectors : list string) : M W (option Node) :=
  match selectors with
  | [] => ret None
  | fallbackSelector :: rest =>
      let* element := queryFirst fallbackSelector in
      match element with
      | Some e => ret (Some (DomElement e))
      | None => firstOfSelectors rest
      end
  end.

(** [findByFallbackSelectors(selector)] *)
Definition findByFallbackSelectors (selector : string) : M W (option Node) :=
  if JS.includes selector "," then
    firstOfSelectors (map JS.trim (JS.split "," selector))
  else ret None.

(** The lower-cased text of an element when it is truthy and includes the
    searched text. *)
Definition textIncludes (searchText : string) (e : Element) : option string :=
  match textContent e with
  | Some t =>
      let t' := JS.toLowerCase t in
      if JS.truthyStr t' && JS.includes t' searchText then Some t' else None
  | None => None
  end.

Definition textExact (searchText : string) (e : Element) : bool :=
  match textIncludes searchText e with
  | Some t' => String.eqb (JS.trim t') searchText
  | None => false
  end.

Definition textPartial (searchText : string) (e : Element) : bool :=
  match textIncludes searchText e with
  | Some _ => true
  | None => false
  end.

(** [findByTextContent(selector)] *)
Definition findByTextContent (selector : string) : M W (option Node) :=
  match search matchTextAt selector with
  | None => ret None
  | Some content =>
      let searchText := JS.toLowerCase content in
      let* allElements := queryAll "*" in
      match find (textExact searchText) allElements with
      | Some e => ret (Some (DomElement e))
      | None => ret (option_map DomElement (find (textPartial searchText) allElements))
      end
  end.

(** [element.getAttribute(name)] *)
Fixpoint getAttribute (attrs : list (string * string)) (attr : string) : option string :=
  match attrs with
  | [] => None
  | (k, v) :: rest => if String.eqb k attr then Some v else getAttribute rest attr
  end.

Definition attributeMatches (isPartialMatch : bool) (attr value : string)
    (e : Element) : bool :=
  match getAttribute (attributes e) attr with
  | Some attrValue =>
      JS.truthyStr attrValue &&
      (if isPartialMatch then JS.includes attrValue value
       else String.eqb attrValue value)
  | None => false
  end.

(** [findByAttributes(selector)] *)
Definition findByAttributes (selector : string) : M W (option Node) :=
  match search matchAttrAt selector with
  | None => ret None
  | Some (attribute, value) =>
      let isPartialMatch := JS.includes selector "*=" in
      let* elements := queryAll "*" in
      ret (option_map DomElement
             (find (attributeMatches isPartialMatch attribute value) elements))
  end.

Definition centerWithin (x y tolerance : float) (e : Element) : bool :=
  let r := boundingRect e in
  let centerX := (rectLeft r + rectWidth r / 2)%float in
  let centerY := (rectTop r + rectHeight r / 2)%float in
  PrimFloat.leb (PrimFloat.abs (centerX - x)) tolerance
  && PrimFloat.leb (PrimFloat.abs (centerY - y)) tolerance.

(** [findByPosition(selector)] *)
Definition findByPosition (selector : string) : M W (option Node) :=
  match search matchPositionAt selector with
  | None => ret None
  | Some (xs, ys, ts) =>
      let x := JS.parseIntDigits xs in
      let y := JS.parseIntDigits ys in
      let tolerance :=
        JS.orElse (match ts with Some t => JS.parseIntDigits t | None => nan end) 10 in
      let* elements := queryAll "*" in
      ret (option_map DomElement (find (centerWithin x y tolerance) elements))
  end.

(** One turn of the loop over the strategies: an element ends the loop, a
    miss or a thrown error moves on to the next strategy. *)
Definition orNext (strategy next : M W (option Node)) : M W (option Node) :=
  fun s =>
    match strategy s with
    | (s', Ok (Some element)) => (s', Ok (Some element))
    | (s', _) => next s'
    end.

Definition strategies (selector : string) : list (M W (option Node)) :=
  [ findByDirectSelector selector;
    findByFallbackSelectors selector;
    findByTextContent selector;
    findByAttributes selector;
    findByPosition selector ].

(** [findElementBySelector(selector)] *)
Definition findElementBySelector (selector : string) : M W (option Node) :=
  fold_right orNext (ret None) (strategies selector).

(** [processSelector(selector, globalSelectors)] *)
Definition processSelector (selector : string) (globalSelectors : option SelectorSet)
    : M W string :=
  if JS.startsWith selector "@" then
    let selectorName := JS.substring1 selector in
    let found :=
      match globalSelectors with
      | Some gs =>
          match global gs with
          | Some g =>
              match g !! selectorName with
              | Some v => if JS.truthyStr v then Some v else None
              | None => None
              end
          | None => None
          end
      | None => None
      end in
    match found with
    | Some v => ret v
    | None => throw (mkError (Some ("Global selector not found: " +:+ selectorName)))
    end
  else ret selector.

(** [isElementValid(element)]; [document.contains] rejects an argument
    that is not a node. *)
Definition isElementValid (n : Node) : M W bool :=
  match n with
  | DomElement e => fun s => (s, Ok (contains (document (world s)) e))
  | BrowserBack => throw (mkError (Some "parameter 1 is not of type 'Node'"))
  end.

Definition cacheSet (k : string) (n : Node) (s : State W) : State W :=
  setFinder (mkFinder (<[k := n]> (selectorCache (finder s))) (lastFound (finder s))) s.

Definition cacheDelete (k : string) (s : State W) : State W :=
  setFinder (mkFinder (delete k (selectorCache (finder s))) (lastFound (finder s))) s.

Definition setLastFound (n : Node) (s : State W) : State W :=
  setFinder (mkFinder (selectorCache (finder s)) (Some n)) s.

(** The cached element for a selector, when it is still attached. *)
Definition cachedElement (processedSelector : string) : M W (option Node) :=
  let* s := get in
  match selectorCache (finder s) !! processedSelector with
  | Some cached =>
      let* valid := isElementValid cached in
      if valid then ret (Some cached)
      else let* _ := modify (cacheDelete processedSelector) in ret None
  | None => ret None
  end.

(** [findElement(selector, globalSelectors, options)]; its [catch] rethrows. *)
Definition findElement (selector : string) (globalSelectors : option SelectorSet)
    (useCache : bool) : M W Node :=
  let* processedSelector := processSelector selector globalSelectors in
  let* cached := (if useCache then cachedElement processedSelector else ret None) in
  match cached with
  | Some element => ret element
  | None =>
      let* found := findElementBySelector processedSelector in
      match found with
      | None => throw (mkError (Some ("Element not found: " +:+ selector)))
      | Some element =>
          let* _ := (if useCache then modify (cacheSet processedSelector element)
                     else ret tt) in
          let* _ := modify (setLastFound element) in
          ret element
      end
  end.

End Finder.
End ElementFinder.

(* ===================================================================== *)
(** * Goal and progress tracker *)
(* ===================================================================== *)

Module ProgressTracker.

(** Modelled from the spec: the module [progress-tracker.js] is not among
    the sources.  A metric that has no accumulator yet counts as zero. *)
Definition getMetric (metric : string) (t : Tracker) : float :=
  default 0%float (metrics t !! metric).

(** Modelled from the spec: [updateMetrics(deltas)] adds each delta to its
    accumulator; a key that is not there is created on first use. *)
Definition addDelta (m : gmap string float) (kv : string * float) : gmap string float :=
  <[kv.1 := (default 0 (m !! kv.1) + kv.2)%float]> m.

Definition updateMetrics (deltas : list (string * float)) (t : Tracker) : Tracker :=
  mkTracker (trackerGoals t) (fold_left addDelta deltas (metrics t))
    (sessionStart t) (trackedPage t) (pageArrival t).

(** Modelled from the spec: [updateCurrentPage(type)] records the arrival
    time on the page. *)
Definition updateCurrentPage (type : string) (now : float) (t : Tracker) : Tracker :=
  mkTracker (trackerGoals t) (metrics t) (sessionStart t) (Some type) now.

(** Modelled from the spec: [areGoalsMet()] is true iff every threshold of
    [required_metrics] is reached; optional metrics never block. *)
Definition areGoalsMet (t : Tracker) : bool :=
  match trackerGoals t with
  | Some g =>
      forallb (fun kv : string * float => PrimFloat.leb kv.2 (getMetric kv.1 t))
        (required_metrics g)
  | None => false
  end.

(** Modelled from the spec: [getSessionDuration()] and
    [getTimeOnCurrentPage()], in milliseconds. *)
Definition getSessionDuration (now : float) (t : Tracker) : float :=
  (now - sessionStart t)%float.

Definition getTimeOnCurrentPage (now : float) (t : Tracker) : float :=
  (now - pageArrival t)%float.

(** Modelled from the spec: [isSessionTimedOut()] is true iff
    [goals.session_duration] is set and the time since the session start
    exceeds its [max] bound; [maxMs] is that bound in milliseconds. *)
Definition isSessionTimedOut (maxMs : SessionDuration -> float) (now : float)
    (t : Tracker) : bool :=
  match trackerGoals t with
  | Some g =>
      match session_duration g with
      | Some d => PrimFloat.ltb (maxMs d) (getSessionDuration now t)
      | None => false
      end
  | None => false
  end.

End ProgressTracker.

(* ===================================================================== *)
(** * Session state machine: [AutomationContentScript] *)
(* ===================================================================== *)

Module ContentScript.
Section Script.
Context {W : Type} `{Platform W}.
Local Open Scope js_scope.

(** ** Logging *)

(** [logAction(actionType, data)]; never throws. *)
Definition logAction (actionType : string) : M W unit :=
  sendMessage (LogAction actionType).

(** [logError(errorType, error, additionalData)]; never throws. *)
Definition logError (errorType : string) (error : Error) : M W unit :=
  sendMessage (LogError errorType (message error)).

(** [takeScreenshot(filename)]; never throws. *)
Definition takeScreenshot (filename : option string) : M W unit :=
  sendMessage (CaptureScreenshot filename).

(** ** Timers *)

(** [clearTimeout(id)] *)
Definition clearTimeout (id : nat) (pend : list (nat * float)) : list (nat * float) :=
  List.filter (fun t : nat * float => negb (Nat.eqb t.1 id)) pend.

(** [if (this.executionTimer) { clearTimeout(...); this.executionTimer = null }] *)
Definition clearExecutionTimer (s : State W) : State W :=
  match executionTimer s with
  | Some id => setTimers None (clearTimeout id (pendingTimers s)) (timerSeq s) s
  | None => s
  end.

(** [this.executionTimer = setTimeout(() => this.executeScenario(), delay)] *)
Definition setExecutionTimer (delay : float) (s : State W) : State W :=
  let id := S (timerSeq s) in
  setTimers (Some id) (pendingTimers s ++ [(id, delay)]) id s.

(** ** Commands *)

(** [stopAutomation()]; the answer is [success]. *)
Definition stopAutomation : M W bool :=
  let* _ := modify (setFlags false false) in
  let* _ := modify (setSession None None) in
  let* _ := modify clearExecutionTimer in
  let* _ := logAction "session_ended" in
  ret true.

(** [pauseAutomation()] *)
Definition pauseAutomation : M W bool :=
  let* _ := modify (fun s => setFlags (isRunning s) true s) in
  let* _ := modify clearExecutionTimer in
  let* _ := logAction "session_paused" in
  ret true.

(** The handler of [handleMessage] for a command. *)
Definition handleCommand (c : Command) : M W bool :=
  match c with
  | PauseCmd => pauseAutomation
  | StopCmd => stopAutomation
  end.

(** The handlers of the commands that arrive during an await, in order. *)
Definition deliver (cmds : list Command) (s : State W) : State W :=
  fold_left (fun st c => fst (handleCommand c st)) cmds s.

(** An awaited call of the action executor. *)
Definition await (call : ExecutorCall) : M W unit :=
  fun s =>
    let o := perform call (world s) in
    let s' := deliver (arrived o) (setWorld (nextWorld o) s) in
    match raised o with
    | Some e => (s', Throw e)
    | None => (s', Ok tt)
    end.

(** [wait(ms)]: a promise on a timer. *)
Definition wait (ms : float) : M W unit :=
  fun s =>
    let (w, cmds) := sleep ms (world s) in
    (deliver cmds (setWorld w s), Ok tt).

(** ** Finding elements *)

(** [findElement(selector)] *)
Definition findElement (selector : string) : M W Node :=
  tryCatch
    (let* s := get in ElementFinder.findElement selector (selectors s) false)
    (fun _ => throw (mkError (Some ("Element not found: " +:+ selector)))).

(** [verifyElement(selector, shouldExist)] *)
Definition verifyElement (selector : string) (shouldExist : bool) : M W unit :=
  tryCatch
    (let* _ := findElement selector in
     if negb shouldExist
     then throw (mkError (Some ("Element should not exist: " +:+ selector)))
     else ret tt)
    (fun _ =>
       if shouldExist
       then throw (mkError (Some ("Element verification failed: " +:+ selector)))
       else ret tt).

(** ** Micro-actions *)

(** [executeMicroAction(microAction)] *)
Definition executeMicroAction (microAction : MicroAction) : M W unit :=
  match microAction with
  | MWait duration => await (ExWait duration)
  | MMove target pattern speed =>
      let* el := findElement target in await (ExMove el pattern speed)
  | MHover target duration =>
      let* el := findElement target in await (ExHover el duration)
  | MClick target button count =>
      let* el := findElement target in await (ExClick el button count)
  | MScroll distance to speed =>
      let* el :=
        match to with
        | Some sel =>
            if JS.truthyStr sel then (let* n := findElement sel in ret (Some n))
            else ret None
        | None => ret None
        end in
      await (ExScroll distance el speed)
  | MType target text speed clearFirst =>
      let* el := findElement target in await (ExType el text speed clearFirst)
  | MVerify target shouldExist => verifyElement target (default true shouldExist)
  | MScreenshot filename => takeScreenshot filename
  | MLog _ => logAction "custom_log"
  | MOther _ => ret tt
  end.

Definition fatalErrors : list string :=
  ["network_error"; "page_crash"; "extension_error"].

(** [shouldAbortOnError(error)] *)
Definition shouldAbortOnError (error : Error) : bool :=
  existsb
    (fun fatalError =>
       match message error with
       | Some m => JS.includes (lowerCase m) fatalError
       | None => false
       end)
    fatalErrors.

(** [executeActionSequence(sequence)] *)
Fixpoint executeActionSequence (sequence : list MicroAction) : M W unit :=
  match sequence with
  | [] => ret tt
  | microAction :: rest =>
      let* s := get in
      if negb (isRunning s) || isPaused s then ret tt
      else
        let* _ :=
          tryCatch (executeMicroAction microAction)
            (fun error =>
               if shouldAbortOnError error then throw error
               else logError "micro_action_failed" error) in
        executeActionSequence rest
  end.

(** ** Page detection *)

(** [detectCurrentPage()] *)
Definition detectCurrentPage : M W (option Page) :=
  fun s =>
    match detectPage (world s) (selectors s) with
    | Some p =>
        let s1 := setCurrentPage p s in
        let s2 :=
          match p with
          | Some pg =>
              setTracker
                (ProgressTracker.updateCurrentPage (pageType pg)
                   (clock (world s1)) (tracker s1)) s1
          | None => s1
          end in
        (s2, Ok p)
    | None => (s, Ok None)
    end.

(** [getPageConfiguration()] *)
Definition getPageConfiguration (s : State W) : option PageConfig :=
  match currentScenario s, currentPage s with
  | Some scenario, Some page => pages scenario !! pageType page
  | _, _ => None
  end.

(** [getAvailableActions(pageConfig)] *)
Definition getAvailableActions (pageConfig : PageConfig) : list Action :=
  match actions pageConfig with
  | None => []
  | Some acts =>
      let allActions :=
        default [] (nonNavigation acts) ++ default [] (navigation acts) in
      List.filter (fun action => PrimFloat.ltb 0 (probability action)) allActions
  end.

(** ** Conditions *)

Definition getTimeOnCurrentPage : M W float :=
  fun s => (s, Ok (ProgressTracker.getTimeOnCurrentPage (clock (world s)) (tracker s))).

Definition getMetric (metric : string) : M W float :=
  fun s => (s, Ok (ProgressTracker.getMetric metric (tracker s))).

(** The loop of [checkActionConditions] over [Object.entries(goalProgress)]. *)
Fixpoint checkGoalProgress (entries : list (string * float)) : M W bool :=
  match entries with
  | [] => ret true
  | (metric, threshold) :: rest =>
      let* v := getMetric metric in
      if PrimFloat.ltb v threshold then ret false else checkGoalProgress rest
  end.

(** [checkActionConditions(conditions)] *)
Definition checkActionConditions (conditions : Conditions) : M W bool :=
  tryCatch
    (let* tooEarly :=
       match minTimeOnPage conditions with
       | Some min =>
           if JS.truthy min then
             let* t := getTimeOnCurrentPage in
             ret (PrimFloat.ltb t (min * 1000))
           else ret false
       | None => ret false
       end in
     if tooEarly then ret false else
     let* tooLate :=
       match maxTimeOnPage conditions with
       | Some max =>
           if JS.truthy max then
             let* t := getTimeOnCurrentPage in
             ret (PrimFloat.ltb (max * 1000) t)
           else ret false
       | None => ret false
       end in
     if tooLate then ret false else
     let* missing :=
       match elementExists conditions with
       | Some selector =>
           if JS.truthyStr selector then
             tryCatch (let* _ := findElement selector in ret false)
               (fun _ => ret true)
           else ret false
       | None => ret false
       end in
     if missing then ret false else
     let* present :=
       match elementNotExists conditions with
       | Some selector =>
           if JS.truthyStr selector then
             tryCatch (let* _ := findElement selector in ret true)
               (fun _ => ret false)
           else ret false
       | None => ret false
       end in
     if present then ret false else
     match goalProgress conditions with
     | Some entries => checkGoalProgress entries
     | None => ret true
     end)
    (fun _ => ret false).

(** ** Action selection *)

(** The first loop of [selectAction]: the actions whose conditions hold. *)
Fixpoint validActionsOf (availableActions : list Action) : M W (list Action) :=
  match availableActions with
  | [] => ret []
  | action :: rest =>
      let* ok :=
        match conditions action with
        | None => ret true
        | Some c => checkActionConditions c
        end in
      let* valid := validActionsOf rest in
      ret (if ok then action :: valid else valid)
  end.

(** [validActions.reduce((sum, action) => sum + action.probability, 0)] *)
Definition totalWeight (validActions : list Action) : float :=
  fold_left (fun sum action => (sum + probability action)%float) validActions 0%float.

(** The second loop of [selectAction]: the walk that subtracts each weight. *)
Fixpoint weightedWalk (random : float) (validActions : list Action) : option Action :=
  match validActions with
  | [] => None
  | action :: rest =>
      let random' := (random - probability action)%float in
      if PrimFloat.leb random' 0 then Some action else weightedWalk random' rest
  end.

(** The weighted choice of [selectAction] among a non-empty list, for the
    value [rnd] of [Math.random()]. *)
Definition weightedChoice (rnd : float) (validActions : list Action) : option Action :=
  match validActions with
  | [] => None
  | first :: _ =>
      match weightedWalk (rnd * totalWeight validActions) validActions with
      | Some action => Some action
      | None => Some first
      end
  end.

(** [selectAction(availableActions)] *)
Definition selectAction (availableActions : list Action) : M W (option Action) :=
  let* validActions := validActionsOf availableActions in
  match validActions with
  | [] => ret None
  | _ => let* rnd := random in ret (weightedChoice rnd validActions)
  end.

(** ** Executing an action *)

(** The loop of [handlePageTransition]: every turn waits 500 ms of the
    10 s it may last, so it takes twenty turns at most. *)
Fixpoint pollPage (turns : nat) (startTime : float) (targetPageType : string)
    : M W unit :=
  match turns with
  | O => ret tt
  | S turns' =>
      let* s := get in
      if PrimFloat.ltb (clock (world s) - startTime) 10000 then
        let* _ := wait 500 in
        let* newPage := detectCurrentPage in
        match newPage with
        | Some p =>
            if String.eqb (pageType p) targetPageType then ret tt
            else pollPage turns' startTime targetPageType
        | None => pollPage turns' startTime targetPageType
        end
      else ret tt
  end.

(** [handlePageTransition(targetPageType)] *)
Definition handlePageTransition (targetPageType : string) : M W unit :=
  let* s := get in
  pollPage 20 (clock (world s)) targetPageType.

Definition updateMetrics (deltas : list (string * float)) : M W unit :=
  modify (fun s => setTracker (ProgressTracker.updateMetrics deltas (tracker s)) s).

(** Whether [action.targetPage && action.targetPage !== this.currentPage?.type]. *)
Definition expectsTransition (action : Action) (s : State W) : option string :=
  match targetPage action with
  | Some target =>
      if JS.truthyStr target
         && negb (match currentPage s with
                  | Some p => String.eqb (pageType p) target
                  | None => false
                  end)
      then Some target else None
  | None => None
  end.

(** [executeSelectedAction(action)] *)
Definition executeSelectedAction (action : Action) : M W unit :=
  tryCatch
    (let* _ := logAction "action_started" in
     let* met :=
       match conditions action with
       | Some c => checkActionConditions c
       | None => ret true
       end in
     if negb met then ret tt else
     let* _ :=
       match microSequence action with
       | Some (m :: l) => executeActionSequence (m :: l)
       | _ => ret tt
       end in
     let* _ :=
       match impact action with
       | Some deltas => updateMetrics deltas
       | None => ret tt
       end in
     let* s := get in
     let* _ :=
       match expectsTransition action s with
       | Some target => handlePageTransition target
       | None => ret tt
       end in
     logAction "action_completed")
    (fun error =>
       let* _ := logError "action_execution_failed" error in
       throw error).

(** ** The run loop *)

(** [scheduleNextExecution(pageConfig)] *)
Definition scheduleNextExecution (pageConfig : option PageConfig) : M W unit :=
  let* s := get in
  if negb (isRunning s) || isPaused s then ret tt
  else
    match pageConfig with
    | None =>
        throw (mkError (Some "Cannot read properties of null (reading 'stayDuration')"))
    | Some cfg =>
        let minDelay :=
          JS.orElse (match stayDuration cfg with Some d => stayMin d | None => nan end) 2 in
        let maxDelay :=
          JS.orElse (match stayDuration cfg with Some d => stayMax d | None => nan end) 5 in
        let* rnd := random in
        let delay := ((rnd * (maxDelay - minDelay) + minDelay) * 1000)%float in
        modify (setExecutionTimer delay)
    end.

(** [completeSession()] *)
Definition completeSession : M W unit :=
  let* _ := logAction "session_completed" in
  let* _ := stopAutomation in
  ret tt.

(** [timeoutSession()] *)
Definition timeoutSession : M W unit :=
  let* _ := logAction "session_timeout" in
  let* _ := stopAutomation in
  ret tt.

(** [handleStuckScenario()] *)
Definition handleStuckScenario : M W unit :=
  let* s := get in
  if (1 <? historyLength (world s))%nat then
    let* _ := modify (fun st => setWorld (historyBack (world st)) st) in
    let* _ := wait 2000 in
    let* _ := detectCurrentPage in
    ret tt
  else completeSession.

(** [handleNoActionsAvailable()] *)
Definition handleNoActionsAvailable : M W unit :=
  let* _ := logAction "no_actions_available" in
  handleStuckScenario.

(** [handlePageConfigError()] *)
Definition handlePageConfigError : M W unit :=
  let* _ := logError "page_config_error"
              (mkError (Some "No page configuration found")) in
  handleStuckScenario.

(** [handleExecutionError(error)] *)
Definition handleExecutionError (error : Error) : M W unit :=
  let* _ := logError "execution_error" error in
  if shouldAbortOnError error then
    let* _ := stopAutomation in ret tt
  else
    let* s := get in
    scheduleNextExecution (getPageConfiguration s).

(** [executePageActions(pageConfig)]; its [catch] rethrows. *)
Definition executePageActions (pageConfig : PageConfig) : M W unit :=
  let* _ :=
    match entryActions pageConfig with
    | Some sequence => executeActionSequence sequence
    | None => ret tt
    end in
  match getAvailableActions pageConfig with
  | [] => handleNoActionsAvailable
  | availableActions =>
      let* selectedAction := selectAction availableActions in
      let* _ :=
        match selectedAction with
        | Some action => executeSelectedAction action
        | None => ret tt
        end in
      scheduleNextExecution (Some pageConfig)
  end.

(** The [try] block of [executeScenario]. *)
Definition executeScenarioBody : M W unit :=
  let* s := get in
  if ProgressTracker.areGoalsMet (tracker s) then completeSession
  else if ProgressTracker.isSessionTimedOut boundMs (clock (world s)) (tracker s)
  then timeoutSession
  else
    match getPageConfiguration s with
    | None => handlePageConfigError
    | Some pageConfig => executePageActions pageConfig
    end.

(** [executeScenario()]: one tick of the run loop. *)
Definition executeScenario : M W unit :=
  let* s := get in
  if negb (isRunning s) || isPaused s then ret tt
  else tryCatch executeScenarioBody handleExecutionError.


(** The callback of a pending timer: the timer leaves the browser's list
    and [executeScenario] runs.  A timer that is not pending never fires. *)
Definition timerFires (id : nat) : M W unit :=
  let* s := get in
  if existsb (fun t : nat * float => Nat.eqb t.1 id) (pendingTimers s) then
    let* _ := modify (fun st =>
                setTimers (executionTimer st) (clearTimeout id (pendingTimers st))
                  (timerSeq st) st) in
    executeScenario
  else ret tt.

End Script.
End ContentScript.

(* ===================================================================== *)
(** * Configuration processing: [ConfigManager] *)
(* ===================================================================== *)

Module ConfigManager.

(** A JSON value carried through unchanged. *)
#[local] Unset Elimination Schemes.
Inductive Json :=
| JNull
| JBool (b : bool)
| JNum (q : Q)
| JStr (s : string)
| JArr (items : list Json)
| JObj (fields : list (string * Json)).
#[local] Set Elimination Schemes.

Definition truthyJson (v : Json) : bool :=
  match v with
  | JNull => false
  | JBool b => b
  | JNum q => negb (Qeq_bool q 0)
  | JStr s => JS.truthyStr s
  | JArr _ | JObj _ => true
  end.

(** A micro-action of a configuration document: the keys that
    [processMicroAction] reads, each absent or present. *)
Record MicroConfig := mkMicroConfig {
  microType : option string;
  microDuration : option Json;
  microSpeed : option string;
  microPattern : option string
}.

(** The value of a number of the engine: a finite one, [NaN], or an
    infinity. *)
Inductive Number :=
| NaN
| Finite (q : Q)
| Infinity (negative : bool).

(** A JSON value that is not an array or an object, as it stands where the
    code compares it with a number.  A string comes with the number that
    the engine's conversion [Number(s)] makes of it, [NaN] for a string
    that is no numeric literal: the conversion is the engine's and is not
    modelled, so a statement about a string holds whatever the engine makes
    of it.  Arrays and objects, which the engine converts by way of their
    string form, are left out. *)
Inductive Scalar :=
| SNull
| SBool (b : bool)
| SNum (q : Q)
| SStr (s : string) (asNumber : Number).

(** [Number(v)] *)
Definition toNumber (v : Scalar) : Number :=
  match v with
  | SNull => Finite 0
  | SBool b => Finite (if b then 1 else 0)
  | SNum q => Finite q
  | SStr _ n => n
  end.

(** [!v] *)
Definition falsy (v : Scalar) : bool :=
  match v with
  | SNull => true
  | SBool b => negb b
  | SNum q => Qeq_bool q 0
  | SStr s _ => negb (JS.truthyStr s)
  end.

(** An action of a configuration document.  The [probability] is any
    scalar: a stored configuration is processed whether or not it has been
    validated. *)
Record ActionConfig := mkActionConfig {
  actionName : option string;
  cfgProbability : option Scalar;
  cfgImpact : option Json;
  cfgConditions : option Json;
  micro_sequence : option (list MicroConfig)
}.

Record ActionsConfig := mkActionsConfig {
  non_navigation : option (list ActionConfig);
  navigation : option (list ActionConfig)
}.

Record PageConfigDoc := mkPageConfigDoc {
  stay_duration : option Json;
  cfgActions : option ActionsConfig
}.

Record ScenarioConfig := mkScenarioConfig {
  scenarioId : option string;
  enabled : option bool;
  cfgGoals : option Json;
  cfgPages : option (gmap string PageConfigDoc);
  decision_rules : option Json
}.

Definition truthyOpt (o : option string) : bool :=
  match o with Some s => JS.truthyStr s | None => false end.

(** [processMicroAction(microAction)] *)
Definition processMicroAction (microAction : MicroConfig) : MicroConfig :=
  let isType t :=
    match microType microAction with Some s => String.eqb s t | None => false end in
  let duration :=
    if isType "wait"
       && negb (match microDuration microAction with
                | Some d => truthyJson d | None => false end)
    then Some (JStr "1-2s") else microDuration microAction in
  let speed :=
    if (isType "move" || isType "scroll") && negb (truthyOpt (microSpeed microAction))
    then Some "normal" else microSpeed microAction in
  let pattern :=
    if isType "move" && negb (truthyOpt (microPattern microAction))
    then Some "natural" else microPattern microAction in
  mkMicroConfig (microType microAction) duration speed pattern.

(** [Math.max(0, Math.min(1, p))] *)
Definition clamp01 (p : Q) : Q := Qmax 0 (Qmin 1 p).

(** [x < y] on the numbers of a document. *)
Definition Qltb (x y : Q) : bool := negb (Qle_bool y x).

(** [x < y] on two numbers; a comparison with [NaN] is false. *)
Definition numberLess (x y : Number) : bool :=
  match x, y with
  | NaN, _ | _, NaN => false
  | Finite a, Finite b => Qltb a b
  | Finite _, Infinity negative => negb negative
  | Infinity negative, Finite _ => negative
  | Infinity a, Infinity b => a && negb b
  end.

(** The probability after the default and the validation of
    [processAction]: the spread puts 0.5 where the action has no
    probability; a value that compares below 0 or above 1 is replaced by
    [Math.max(0, Math.min(1, value))], a number, and any other value stays
    as it is. *)
Definition processProbability (given : option Scalar) : Scalar :=
  let probability := default (SNum (1 # 2)) given in
  let n := toNumber probability in
  if numberLess n (Finite 0) || numberLess (Finite 1) n then
    match n with
    | Finite q => SNum (clamp01 q)
    | Infinity negative => SNum (if negative then 0 else 1)
    | NaN => probability (* does not arise: no comparison with [NaN] holds *)
    end
  else probability.

(** [processAction(action)] *)
Definition processAction (action : ActionConfig) : ActionConfig :=
  mkActionConfig
    (actionName action)
    (Some (processProbability (cfgProbability action)))
    (Some (default (JObj []) (cfgImpact action)))
    (Some (default (JObj []) (cfgConditions action)))
    (Some (map processMicroAction (default [] (micro_sequence action)))).

(** [processPageConfig(pageConfig)] *)
Definition processPageConfig (pageConfig : PageConfigDoc) : PageConfigDoc :=
  let stay :=
    match stay_duration pageConfig with
    | Some d => if truthyJson d then d
                else JObj [("min", JNum 2); ("max", JNum 5); ("unit", JStr "seconds")]
    | None => JObj [("min", JNum 2); ("max", JNum 5); ("unit", JStr "seconds")]
    end in
  let acts := default (mkActionsConfig (Some []) (Some [])) (cfgActions pageConfig) in
  mkPageConfigDoc (Some stay)
    (Some (mkActionsConfig
             (option_map (map processAction) (non_navigation acts))
             (option_map (map processAction) (navigation acts)))).

(** [processScenario(scenario, scenarioId)] *)
Definition processScenario (scenario : ScenarioConfig) (id : string) : ScenarioConfig :=
  mkScenarioConfig
    (Some (default id (scenarioId scenario)))
    (Some (default true (enabled scenario)))
    (Some (match cfgGoals scenario with
           | Some g =>
               if truthyJson g then g
               else JObj [("session_duration",
                           JObj [("min", JNum 5); ("max", JNum 15); ("unit", JStr "minutes")])]
           | None =>
               JObj [("session_duration",
                      JObj [("min", JNum 5); ("max", JNum 15); ("unit", JStr "minutes")])]
           end))
    (Some (processPageConfig <$> default ∅ (cfgPages scenario)))
    (Some (match decision_rules scenario with
           | Some r =>
               if truthyJson r then r
               else JObj [("action_selection", JObj [("method", JStr "weighted_random")])]
           | None => JObj [("action_selection", JObj [("method", JStr "weighted_random")])]
           end)).

(** [processScenarios(scenarios)] *)
Definition processScenarios (scenarios : gmap string ScenarioConfig)
    : gmap string ScenarioConfig :=
  map_imap (fun id scenario => Some (processScenario scenario id)) scenarios.

(** The actions of a page, of both lists. *)
Definition actionsOfPage (p : PageConfigDoc) : list ActionConfig :=
  match cfgActions p with
  | Some a => default [] (non_navigation a) ++ default [] (navigation a)
  | None => []
  end.

End ConfigManager.

(* ===================================================================== *)
(** * A scripted browser, to run the engine on concrete inputs *)
(* ===================================================================== *)

Module Scripted.

(** A world given by tables: the clock, the coming random draws, the
    elements each selector matches, the outcomes of the coming executor
    calls, the page the detector reports and the history length.  Its
    strings are ASCII text, which [JS.toLowerCase] puts in lower case as
    the engine does. *)
Record World := mkWorld {
  time : float;
  draws : list float;
  matches : list (string * list Element);
  outcomes : list (option Error * list Command);
  detected : option Page;
  history : nat
}.

Fixpoint lookupMatches (t : list (string * list Element)) (selector : string)
    : list Element :=
  match t with
  | [] => []
  | (k, v) :: rest => if String.eqb k selector then v else lookupMatches rest selector
  end.

Definition viewport : Window := mkWindow 768 1024 768 1024.

#[global] Instance platform : Platform World := {|
  clock w := time w;
  nextRandom w :=
    match draws w with
    | r :: rest =>
        (r, mkWorld (time w) rest (matches w) (outcomes w) (detected w) (history w))
    | [] => (0%float, w)
    end;
  document w :=
    mkDocument (fun selector => Some (lookupMatches (matches w) selector))
      (fun _ => true) viewport;
  historyLength w := history w;
  historyBack w :=
    mkWorld (time w) (draws w) (matches w) (outcomes w) (detected w) (pred (history w));
  sleep ms w :=
    (mkWorld (time w + ms) (draws w) (matches w) (outcomes w) (detected w) (history w), []);
  perform _ w :=
    match outcomes w with
    | (e, cmds) :: rest =>
        mkOutcome (mkWorld (time w) (draws w) (matches w) rest (detected w) (history w))
          e cmds
    | [] => mkOutcome w None []
    end;
  detectPage w _ := Some (detected w);
  boundMs d := (durationMax d * 60000)%float;
  lowerCase := JS.toLowerCase
|}.

Definition emptyTracker : Tracker :=
  mkTracker None ∅ 0%float None 0%float.

(** A running session on a scenario, with nothing scheduled or sent. *)
Definition running (scenario : Scenario) (page : option Page) (w : World) : State World :=
  mkState true false (Some "session-1") (Some scenario) page None None
    (mkFinder ∅ None) emptyTracker [] 0 [] w.

Definition plainElement (id : nat) (text : string) : Element :=
  mkElement id (Some text) [] (mkRect 0 0 10 10) "block" "visible" "1" 10 10.

Definition weighted (n : string) (p : float) : Action :=
  mkAction n p None None None None.

Definition noGoals : Scenario := mkScenario (mkGoals [] [] None) ∅.

(** A page with an SVG [text] element and a button labelled Login, and
    the selector [text:] followed by the quoted word Login. *)
Definition svgText : Element := plainElement 1 "caption".
Definition loginButton : Element := plainElement 2 "Login".

Definition loginPage : World :=
  mkWorld 0 [] [("text", [svgText]); ("*", [svgText; loginButton])] [] None 0.

Definition loginSelector : string :=
  "text:" +:+ String ElementFinder.dquote ("Login" +:+ String ElementFinder.dquote EmptyString).

(** A session that has been on its page for three seconds. *)
Definition threeSecondsIn : State World :=
  running noGoals None (mkWorld 3000 [] [] [] None 0).

Definition afterFiveSeconds : Conditions :=
  mkConditions (Some 5%float) None None None None.

(** A paused session whose next tick is still in the browser's list. *)
Definition pausedWithTimer : State World :=
  mkState true true (Some "session-1") (Some noGoals) None None (Some 1)
    (mkFinder ∅ None) emptyTracker [(1, 3000%float)] 1 [] (mkWorld 0 [] [] [] None 0).

(** A scenario with one page and one action that waits twice and counts
    a visit; the goal is one visit. *)
Definition visit : Action :=
  mkAction "visit" 1 None (Some [("visits", 1%float)])
    (Some [MWait (Some (DurStr "1-2s")); MWait (Some (DurStr "1-2s"))]) None.

Definition onePage (a : Action) : Scenario :=
  mkScenario (mkGoals [("visits", 1%float)] [] None)
    {[ "home" := mkPageConfig None None (Some (mkPageActions (Some [a]) None)) ]}.

Definition started (a : Action) (w : World) : State World :=
  mkState true false (Some "session-1") (Some (onePage a)) (Some (mkPage "home"))
    None None (mkFinder ∅ None)
    (mkTracker (Some (goals (onePage a))) ∅ 0%float (Some "home") 0%float)
    [] 0 [] w.

(** The pause command arrives while the first wait is awaited. *)
Definition pausedMidway : World :=
  mkWorld 0 [0.5%float; 0.5%float] [] [(None, [PauseCmd]); (None, [])] None 0.

(** No command arrives and no call fails. *)
Definition quiet : World :=
  mkWorld 0 [0.5%float; 0.5%float] [] [] None 0.

(** The first wait is rejected with a fatal error. *)
Definition offline : World :=
  mkWorld 0 [0.5%float; 0.5%float] []
    [(Some (mkError (Some "Network_Error: offline")), [])] None 0.

(** The first wait is rejected with an error that names the three
    failures in words. *)
Definition offlineInWords : World :=
  mkWorld 0 [0.5%float; 0.5%float] []
    [(Some (mkError
              (Some "Network error: the page crash handler reported an extension error")),
      [])]
    None 0.


(** An action whose only step clicks an element that is not on the page. *)
Definition clickMissing : Action :=
  mkAction "click" 1 None (Some [("visits", 1%float)])
    (Some [MClick "#missing" None None]) None.

(** A page with a single list item. *)
Definition listItem : Element := plainElement 7 "first item".

Definition listPage : World :=
  mkWorld 0 [] [("li", [listItem])] [] None 0.

End Scripted.

(* ===================================================================== *)
(** * The statements of the specification, in its own words *)
(* ===================================================================== *)

Module Stated.

(** The weight left after the walk has passed the actions of [l]. *)
Definition remaining (r : float) (l : list Action) : float :=
  fold_left (fun x a => (x - probability a)%float) l r.

(** The walk passes every action of [l] without the weight reaching zero. *)
Fixpoint stillPositive (r : float) (l : list Action) : bool :=
  match l with
  | [] => true
  | a :: l' =>
      negb (PrimFloat.leb (r - probability a) 0)
      && stillPositive (r - probability a)%float l'
  end.

(** Weighted selection as the specification words it: the first action at
    which the weight becomes at most zero, and the last element of the
    list when the walk ends without that. *)
Definition choiceWithLastFallback (rnd : float) (validActions : list Action)
    : option Action :=
  match ContentScript.weightedWalk
          (rnd * ContentScript.totalWeight validActions) validActions with
  | Some a => Some a
  | None => last validActions
  end.


(** A modifier that the specification lists for special selectors: one of
    the five words, or [nth(n)] for a number [n]. *)
Definition isNthLiteral (modifier : string) : bool :=
  match JS.stripPrefix "nth(" modifier with
  | Some r =>
      let (ds, r') := JS.spanChars JS.isDigit r in
      JS.truthyStr ds && String.eqb r' ")"
  | None => false
  end.

Definition isKeyword (modifier : string) : bool :=
  String.eqb modifier "random" || String.eqb modifier "visible"
  || String.eqb modifier "inviewport" || String.eqb modifier "first"
  || String.eqb modifier "last".

Definition listedModifier (modifier : string) : bool :=
  isKeyword modifier || isNthLiteral modifier.

(** The test of [handleSpecialSelectors] for the [nth] pattern: the
    modifier starts with [nth(] and holds [nth(digits)] somewhere. *)
Definition nthPattern (modifier : string) : option string :=
  if JS.startsWith modifier "nth(" then
    ElementFinder.search ElementFinder.matchNthAt modifier
  else None.

Section Strategies.
Context {W : Type} `{Platform W}.

(** Every strategy of the list returns without an element, one after the
    other, from the first state to the second. *)
Inductive misses : list (M W (option Node)) -> State W -> State W -> Prop :=
| misses_nil (s : State W) : misses [] s s
| misses_cons (st : M W (option Node)) (rest : list (M W (option Node)))
    (s s1 s2 : State W) (r : Result (option Node)) :
    st s = (s1, r) ->
    (forall e, r <> Ok (Some e)) ->
    misses rest s1 s2 ->
    misses (st :: rest) s s2.

End Strategies.

(** The checks of a condition set, one constructor per kind. *)
Inductive Check :=
| AtLeastOnPage (min : float)
| AtMostOnPage (max : float)
| ElementPresent (selector : string)
| ElementAbsent (selector : string)
| MetricReached (metric : string) (threshold : float).

Definition timeChecks (c : Conditions) : list Check :=
  match minTimeOnPage c with
  | Some min => if JS.truthy min then [AtLeastOnPage min] else []
  | None => []
  end
  ++
  match maxTimeOnPage c with
  | Some max => if JS.truthy max then [AtMostOnPage max] else []
  | None => []
  end.

Definition laterChecks (c : Conditions) : list Check :=
  match elementExists c with
  | Some selector => if JS.truthyStr selector then [ElementPresent selector] else []
  | None => []
  end
  ++
  match elementNotExists c with
  | Some selector => if JS.truthyStr selector then [ElementAbsent selector] else []
  | None => []
  end
  ++
  match goalProgress c with
  | Some entries => map (fun kv : string * float => MetricReached kv.1 kv.2) entries
  | None => []
  end.

(** The order the specification gives: the time-on-page bounds, the
    required element, the element that must be absent, then the
    goal-progress thresholds in the order of their entries. *)
Definition checksInOrder (c : Conditions) : list Check :=
  timeChecks c ++ laterChecks c.

(** The conditions without their time-on-page bounds. *)
Definition withoutTimeBounds (c : Conditions) : Conditions :=
  mkConditions None None (elementExists c) (elementNotExists c) (goalProgress c).

(** The time-on-page test with the bounds taken as seconds, against a time
    in milliseconds; a bound that is absent or zero is not tested. *)
Definition outsideSeconds (c : Conditions) (t : float) : bool :=
  match minTimeOnPage c with
  | Some min => JS.truthy min && PrimFloat.ltb t (min * 1000)
  | None => false
  end
  ||
  match maxTimeOnPage c with
  | Some max => JS.truthy max && PrimFloat.ltb (max * 1000) t
  | None => false
  end.

(** The time-on-page test with the bounds taken as milliseconds. *)
Definition outsideMillis (c : Conditions) (t : float) : bool :=
  match minTimeOnPage c with
  | Some min => PrimFloat.ltb t min
  | None => false
  end
  ||
  match maxTimeOnPage c with
  | Some max => PrimFloat.ltb max t
  | None => false
  end.

Section Checks.
Context {W : Type} `{Platform W}.
Local Open Scope js_scope.

Definition timeOnPage (s : State W) : float :=
  ProgressTracker.getTimeOnCurrentPage (clock (world s)) (tracker s).

(** Whether one check holds. *)
Definition passes (k : Check) : M W bool :=
  match k with
  | AtLeastOnPage min =>
      let* t := ContentScript.getTimeOnCurrentPage in
      ret (negb (PrimFloat.ltb t (min * 1000)))
  | AtMostOnPage max =>
      let* t := ContentScript.getTimeOnCurrentPage in
      ret (negb (PrimFloat.ltb (max * 1000) t))
  | ElementPresent selector =>
      tryCatch (let* _ := ContentScript.findElement selector in ret true)
        (fun _ => ret false)
  | ElementAbsent selector =>
      tryCatch (let* _ := ContentScript.findElement selector in ret false)
        (fun _ => ret true)
  | MetricReached metric threshold =>
      let* v := ContentScript.getMetric metric in
      ret (negb (PrimFloat.ltb v threshold))
  end.

(** The checks one after the other; the first that fails ends the
    evaluation with [false], and the later ones are not run. *)
Fixpoint allPass (checks : list Check) : M W bool :=
  match checks with
  | [] => ret true
  | k :: rest =>
      let* ok := passes k in
      if ok then allPass rest else ret false
  end.

(** The three stages of [executeSelectedAction] before the impact: the
    re-check of the conditions, the run of the micro-sequence, and the
    deltas to apply. *)
Definition conditionsMet (action : Action) : M W bool :=
  match conditions action with
  | Some c => ContentScript.checkActionConditions c
  | None => ret true
  end.

Definition microSequenceRun (action : Action) : M W unit :=
  match microSequence action with
  | Some (m :: l) => ContentScript.executeActionSequence (m :: l)
  | _ => ret tt
  end.

Definition impactOf (action : Action) : list (string * float) :=
  default [] (impact action).

(** The first stage of [executePageActions]: the entry actions of the
    page, when it has any. *)
Definition entryRun (pageConfig : PageConfig) : M W unit :=
  match entryActions pageConfig with
  | Some sequence => ContentScript.executeActionSequence sequence
  | None => ret tt
  end.

End Checks.

End Stated.

(* ===================================================================== *)
(** * Properties of the state across a computation *)
(* ===================================================================== *)

Module Invariant.
Section Invariants.
Context {W : Type} `{Platform W}.

(** The guard at the entry of [executeScenario] and of
    [scheduleNextExecution]: the session is not running, or is paused. *)
Definition blocked (s : State W) : bool := negb (isRunning s) || isPaused s.

(** A computation that takes a state with the property [P] to a state
    with the property [P], whether it returns or throws. *)
Definition preserves (P : State W -> Prop) {A : Type} (m : M W A) : Prop :=
  forall s s' r, P s -> m s = (s', r) -> P s'.

(** A property of the state that the engine's state updates keep, apart
    from the update of the metrics and the setting of a timer. *)
Class Robust (P : State W -> Prop) : Prop := {
  robust_world : forall w s, P s -> P (setWorld w s);
  robust_finder : forall f s, P s -> P (setFinder f s);
  robust_send : forall m s, P s -> P (send m s);
  robust_flags : forall r p s, P s -> P (setFlags r p s);
  robust_session : forall cs sc s, P s -> P (setSession cs sc s);
  robust_clear : forall s, P s -> P (ContentScript.clearExecutionTimer s);
  robust_page : forall p s, P s -> P (setCurrentPage p s);
  robust_arrival :
    forall type now s,
      P s -> P (setTracker (ProgressTracker.updateCurrentPage type now (tracker s)) s)
}.

(** The accumulated metrics are the given map. *)
Definition metricsAre (mt : gmap string float) (s : State W) : Prop :=
  metrics (tracker s) = mt.

(** No timer is pending. *)
Definition noTimers (s : State W) : Prop := pendingTimers s = [].

(** Every pending timer is the one the session holds in [executionTimer]. *)
Definition holdsItsTimers (s : State W) : Prop :=
  forall t, In t (pendingTimers s) -> executionTimer s = Some t.1.

(** What a tick started without pending timers leaves: where it returns,
    the session holds every pending timer; where it throws, before it has
    scheduled anything, no timer is pending. *)
Definition afterTick {A : Type} (r : Result A) (s : State W) : Prop :=
  match r with
  | Ok _ => holdsItsTimers s
  | Throw _ => noTimers s
  end.

(** A computation that never changes the accumulated metrics. *)
Definition keeps {A : Type} (m : M W A) : Prop :=
  forall s s' r, m s = (s', r) -> metrics (tracker s') = metrics (tracker s).

End Invariants.
End Invariant.

(* ===================================================================== *)
(** * What a tick schedules *)
(* ===================================================================== *)

Module Ticks.
Section Scheduling.
Context {W : Type}.

(** Between the two states [setTimeout] has not been called: the counter
    of the timers has not moved, and every timer that is pending at the end
    was pending at the start. *)
Definition nothingScheduled (before after : State W) : Prop :=
  timerSeq after = timerSeq before
  /\ incl (pendingTimers after) (pendingTimers before).

(** The page configuration a tick would read lists no action with a
    positive probability, or there is none. *)
Definition withoutActions (s : State W) : Prop :=
  match ContentScript.getPageConfiguration s with
  | Some cfg => ContentScript.getAvailableActions cfg = []
  | None => True
  end.

End Scheduling.

Section Reaching.
Context {W : Type} `{Platform W}.

(** The tick that starts in [s] gets as far as the actions of the page:
    the session runs and is not paused, its goals are not met, it has not
    timed out, and the current page has the configuration [pageConfig]. *)
Definition reachesPage (s : State W) (pageConfig : PageConfig) : Prop :=
  isRunning s = true
  /\ isPaused s = false
  /\ ProgressTracker.areGoalsMet (tracker s) = false
  /\ ProgressTracker.isSessionTimedOut boundMs (clock (world s)) (tracker s) = false
  /\ ContentScript.getPageConfiguration s = Some pageConfig.

(** The tick ends with the session stopped on the error [e] that reached
    its handler in the state [s]: it returns, the flags, the session, the
    scenario and the timer are cleared, the error and the end of the
    session are reported, no timer has been set, and the tracker and the
    current page are as they were in [s]. *)
Definition stoppedAfter (e : Error) (s : State W) (tick : State W * Result unit)
    : Prop :=
  snd tick = Ok tt
  /\ isRunning (fst tick) = false
  /\ isPaused (fst tick) = false
  /\ currentSession (fst tick) = None
  /\ currentScenario (fst tick) = None
  /\ executionTimer (fst tick) = None
  /\ timerSeq (fst tick) = timerSeq s
  /\ incl (pendingTimers (fst tick)) (pendingTimers s)
  /\ tracker (fst tick) = tracker s
  /\ currentPage (fst tick) = currentPage s
  /\ outbox (fst tick)
     = outbox s ++ [LogError "execution_error" (message e); LogAction "session_ended"].

End Reaching.
End Ticks.

(* ===================================================================== *)
(** * Queries of the element finder: [ElementFinder.findElements] *)
(* ===================================================================== *)

Module ElementQueries.

(** The [options] that [findElements] reads; [limit] is an integer. *)
Record FindOptions := mkFindOptions {
  visibleOnly : bool;
  inViewportOnly : bool;
  limit : option Z
}.

(** [array.slice(0, end)] for an integer [end]: a negative [end] counts
    from the end of the array. *)
Definition sliceTo {A : Type} (stop : Z) (l : list A) : list A :=
  if (stop <? 0)%Z then firstn (Z.to_nat (Z.of_nat (length l) + stop)) l
  else firstn (Z.to_nat stop) l.

(** The three filters of [findElements], in its order. *)
Definition applyFilters (w : Window) (options : FindOptions) (elements : list Element)
    : list Element :=
  let visible :=
    if visibleOnly options then List.filter ElementFinder.isElementVisible elements
    else elements in
  let inViewport :=
    if inViewportOnly options
    then List.filter (ElementFinder.isElementInViewport w) visible
    else visible in
  match limit options with
  | Some n => if (n =? 0)%Z then inViewport else sliceTo n inViewport
  | None => inViewport
  end.

Section Queries.
Context {W : Type} `{Platform W}.
Local Open Scope js_scope.

(** [findElements(selector, globalSelectors, options)]; its [catch]
    answers the empty array. *)
Definition findElements (selector : string) (globalSelectors : option SelectorSet)
    (options : FindOptions) : M W (list Element) :=
  tryCatch
    (let* processedSelector := ElementFinder.processSelector selector globalSelectors in
     let* elements := queryAll processedSelector in
     let* w := theWindow in
     ret (applyFilters w options elements))
    (fun _ => ret []).

End Queries.
End ElementQueries.

(* ===================================================================== *)
(** * Extension storage: [StorageManager] *)
(* ===================================================================== *)

Module StorageManager.

Abbreviation Json := ConfigManager.Json.
Abbreviation Object := (gmap string ConfigManager.Json).

(** ** Plain objects

    An object that holds JSON data is modelled by its own enumerable
    properties, which is what [chrome.storage] keeps of it and what the
    spread syntax copies.  A freshly read object inherits from
    [Object.prototype]; reading a key that is no own property of it answers
    the inherited member instead of [undefined] when the prototype has one
    of that name. *)

Definition objectPrototype : list string :=
  [ "constructor"; "__defineGetter__"; "__defineSetter__"; "hasOwnProperty";
    "__lookupGetter__"; "__lookupSetter__"; "isPrototypeOf";
    "propertyIsEnumerable"; "toString"; "valueOf"; "__proto__"; "toLocaleString" ].

(** The value of [o[key] || null] for a freshly read object [o] whose own
    properties are objects: an own property, a member of the prototype
    (a function, or the prototype itself: never falsy), or [null]. *)
Inductive Answer (A : Type) :=
| Own (a : A)
| Inherited (key : string)
| Null.
Arguments Own {A} a.
Arguments Inherited {A} key.
Arguments Null {A}.

Definition orNull {A : Type} (o : gmap string A) (key : string) : Answer A :=
  match o !! key with
  | Some a => Own a
  | None => if existsb (String.eqb key) objectPrototype then Inherited key else Null
  end.

(** [o[key] = value] on a plain object: the assignment to [__proto__]
    reaches the setter of the prototype and creates no own property,
    unless the object has an own property of that name already. *)
Definition assign {A : Type} (key : string) (value : A) (o : gmap string A)
    : gmap string A :=
  if String.eqb key "__proto__" && negb (bool_decide (is_Some (o !! key))) then o
  else <[key := value]> o.

(** An object is truthy. *)
Definition truthyObject {A : Type} (o : A) : bool := true.

(** ** What the storage areas hold *)

(** A stored session: [lastUpdated] is absent or a number of milliseconds
    (as [saveSession] writes it), the other fields are carried along. *)
Record Session := mkSession {
  sessionFields : Object;
  lastUpdated : option Z
}.

(** The browser as the manager sees it, and the manager's own
    [DEFAULT_SETTINGS] object.  The four storage keys are typed by what
    this code writes under them: an object of settings in the [sync] area,
    an object of website configurations and an object of sessions in the
    [local] area, an object of websites by tab id in the [session] area;
    [None] is a key that is not set.  [failures] lists the outcomes of the
    coming [chrome.storage] calls ([Some e]: the call rejects with [e] and
    has no effect), [clockAt] the values of the successive clock readings,
    and [toISOString] is the text of an instant. *)
Record Store := mkStore {
  wa_settings : option Object;
  wa_websites : option (gmap string Object);
  wa_sessions : option (gmap string Session);
  wa_current_website : option (gmap Z Object);
  DEFAULT_SETTINGS : Object;
  failures : list (option Error);
  clockAt : nat -> Z;
  clockReads : nat;
  toISOString : Z -> string
}.

Definition setSettings (v : option Object) (m : Store) : Store :=
  mkStore v (wa_websites m) (wa_sessions m) (wa_current_website m)
    (DEFAULT_SETTINGS m) (failures m) (clockAt m) (clockReads m) (toISOString m).

Definition setWebsites (v : option (gmap string Object)) (m : Store) : Store :=
  mkStore (wa_settings m) v (wa_sessions m) (wa_current_website m)
    (DEFAULT_SETTINGS m) (failures m) (clockAt m) (clockReads m) (toISOString m).

Definition setSessions (v : option (gmap string Session)) (m : Store) : Store :=
  mkStore (wa_settings m) (wa_websites m) v (wa_current_website m)
    (DEFAULT_SETTINGS m) (failures m) (clockAt m) (clockReads m) (toISOString m).

Definition setCurrent (v : option (gmap Z Object)) (m : Store) : Store :=
  mkStore (wa_settings m) (wa_websites m) (wa_sessions m) v
    (DEFAULT_SETTINGS m) (failures m) (clockAt m) (clockReads m) (toISOString m).

Definition setDefaults (d : Object) (m : Store) : Store :=
  mkStore (wa_settings m) (wa_websites m) (wa_sessions m) (wa_current_website m)
    d (failures m) (clockAt m) (clockReads m) (toISOString m).

Definition setFailures (f : list (option Error)) (m : Store) : Store :=
  mkStore (wa_settings m) (wa_websites m) (wa_sessions m) (wa_current_website m)
    (DEFAULT_SETTINGS m) f (clockAt m) (clockReads m) (toISOString m).

Definition tick (m : Store) : Store :=
  mkStore (wa_settings m) (wa_websites m) (wa_sessions m) (wa_current_website m)
    (DEFAULT_SETTINGS m) (failures m) (clockAt m) (S (clockReads m)) (toISOString m).

(** ** Computations of the manager *)

Definition Op (A : Type) : Type := Store -> Store * Result A.

Definition ret {A : Type} (a : A) : Op A := fun m => (m, Ok a).

Definition throw {A : Type} (e : Error) : Op A := fun m => (m, Throw e).

Definition bind {A B : Type} (op : Op A) (k : A -> Op B) : Op B :=
  fun m =>
    match op m with
    | (m', Ok a) => k a m'
    | (m', Throw e) => (m', Throw e)
    end.

Definition tryCatch {A : Type} (op : Op A) (h : Error -> Op A) : Op A :=
  fun m =>
    match op m with
    | (m', Ok a) => (m', Ok a)
    | (m', Throw e) => h e m'
    end.

Definition get : Op Store := fun m => (m, Ok m).

Definition modify (f : Store -> Store) : Op unit := fun m => (f m, Ok tt).

Declare Scope store_scope.
Delimit Scope store_scope with store.
Notation "'let*' x ':=' op 'in' k" := (bind op (fun x => k))
  (at level 10, x pattern, op at level 200, k at level 200) : store_scope.
Local Open Scope store_scope.

(** An awaited call of [chrome.storage]: the next scripted outcome. *)
Definition chromeCall : Op unit :=
  fun m =>
    match failures m with
    | Some e :: rest => (setFailures rest m, Throw e)
    | None :: rest => (setFailures rest m, Ok tt)
    | [] => (m, Ok tt)
    end.

(** [Date.now()] *)
Definition dateNow : Op Z :=
  fun m => (tick m, Ok (clockAt m (clockReads m))).

(** [new Date().toISOString()] *)
Definition dateISOString : Op string :=
  let* now := dateNow in
  let* m := get in
  ret (toISOString m now).

(** ** Settings *)

(** The object that [getSettings] answers: a fresh copy of the stored
    settings, or the manager's [DEFAULT_SETTINGS] object itself. *)
Inductive SettingsObject :=
| Stored (o : Object)
| Defaults.

(** The own properties of such an object, in a state. *)
Definition contentOf (settings : SettingsObject) (m : Store) : Object :=
  match settings with
  | Stored o => o
  | Defaults => DEFAULT_SETTINGS m
  end.

(** [getSettings()] *)
Definition getSettings : Op SettingsObject :=
  tryCatch
    (let* _ := chromeCall in
     let* m := get in
     ret (match wa_settings m with
          | Some o => Stored o
          | None => Defaults
          end))
    (fun _ => ret Defaults).

(** [setDefaultSettings()] *)
Definition setDefaultSettings : Op unit :=
  tryCatch
    (let* existing := getSettings in
     if negb (truthyObject existing) then
       let* m := get in
       let* _ := chromeCall in
       modify (setSettings (Some (DEFAULT_SETTINGS m)))
     else ret tt)
    (fun _ => ret tt).

(** [settings[key] = value] on the object that [getSettings] answered: on
    [DEFAULT_SETTINGS] it changes the manager's object. *)
Definition assignSetting (settings : SettingsObject) (key : string) (value : Json)
    : Op SettingsObject :=
  match settings with
  | Stored o => ret (Stored (assign key value o))
  | Defaults =>
      let* _ := modify (fun m => setDefaults (assign key value (DEFAULT_SETTINGS m)) m) in
      ret Defaults
  end.

(** [updateSetting(key, value)] *)
Definition updateSetting (key : string) (value : Json) : Op bool :=
  tryCatch
    (let* settings := getSettings in
     let* settings := assignSetting settings key value in
     let* _ := chromeCall in
     let* _ := modify (fun m => setSettings (Some (contentOf settings m)) m) in
     ret true)
    (fun _ => ret false).

(** [saveSettings(newSettings)] *)
Definition saveSettings (newSettings : Object) : Op bool :=
  tryCatch
    (let* currentSettings := getSettings in
     let* m := get in
     let mergedSettings := newSettings ∪ contentOf currentSettings m in
     let* _ := chromeCall in
     let* _ := modify (setSettings (Some mergedSettings)) in
     ret true)
    (fun _ => ret false).

(** ** Website configurations *)

(** [getWebsiteConfigs()] *)
Definition getWebsiteConfigs : Op (gmap string Object) :=
  tryCatch
    (let* _ := chromeCall in
     let* m := get in
     ret (default ∅ (wa_websites m)))
    (fun _ => ret ∅).

(** [getWebsiteConfig(domain)] *)
Definition getWebsiteConfig (domain : string) : Op (Answer Object) :=
  tryCatch
    (let* configs := getWebsiteConfigs in
     ret (orNull configs domain))
    (fun _ => ret Null).

(** [config.version || '1.0.0'] *)
Definition versionOf (config : Object) : Json :=
  match config !! "version" with
  | Some v => if ConfigManager.truthyJson v then v else ConfigManager.JStr "1.0.0"
  | None => ConfigManager.JStr "1.0.0"
  end.

(** [saveWebsiteConfig(domain, config)] *)
Definition saveWebsiteConfig (domain : string) (config : Object) : Op bool :=
  tryCatch
    (let* configs := getWebsiteConfigs in
     let* now := dateISOString in
     let entry :=
       <["version" := versionOf config]>
         (<["lastUpdated" := ConfigManager.JStr now]> config) in
     let* _ := chromeCall in
     let* _ := modify (setWebsites (Some (assign domain entry configs))) in
     ret true)
    (fun _ => ret false).

(** [deleteWebsiteConfig(domain)] *)
Definition deleteWebsiteConfig (domain : string) : Op bool :=
  tryCatch
    (let* configs := getWebsiteConfigs in
     let* _ := chromeCall in
     let* _ := modify (setWebsites (Some (delete domain configs))) in
     ret true)
    (fun _ => ret false).

(** ** The website of a tab *)

(** [getCurrentWebsites()] *)
Definition getCurrentWebsites : Op (gmap Z Object) :=
  tryCatch
    (let* _ := chromeCall in
     let* m := get in
     ret (default ∅ (wa_current_website m)))
    (fun _ => ret ∅).

(** [getCurrentWebsite(tabId)]; the key of a tab is a number. *)
Definition getCurrentWebsite (tabId : Z) : Op (option Object) :=
  tryCatch
    (let* currentWebsites := getCurrentWebsites in
     ret (currentWebsites !! tabId))
    (fun _ => ret None).

(** [setCurrentWebsite(tabId, websiteInfo)] *)
Definition setCurrentWebsite (tabId : Z) (websiteInfo : Object) : Op bool :=
  tryCatch
    (let* currentWebsites := getCurrentWebsites in
     let* now := dateNow in
     let entry := <["detectedAt" := ConfigManager.JNum (inject_Z now)]> websiteInfo in
     let* _ := chromeCall in
     let* _ := modify (setCurrent (Some (<[tabId := entry]> currentWebsites))) in
     ret true)
    (fun _ => ret false).

(** ** Sessions *)

(** [getSessions()] *)
Definition getSessions : Op (gmap string Session) :=
  tryCatch
    (let* _ := chromeCall in
     let* m := get in
     ret (default ∅ (wa_sessions m)))
    (fun _ => ret ∅).

(** [getSession(sessionId)] *)
Definition getSession (sessionId : string) : Op (Answer Session) :=
  tryCatch
    (let* sessions := getSessions in
     ret (orNull sessions sessionId))
    (fun _ => ret Null).

(** [saveSession(sessionId, sessionData)] *)
Definition saveSession (sessionId : string) (sessionData : Session) : Op bool :=
  tryCatch
    (let* sessions := getSessions in
     let* now := dateNow in
     let entry := mkSession (sessionFields sessionData) (Some now) in
     let* _ := chromeCall in
     let* _ := modify (setSessions (Some (assign sessionId entry sessions))) in
     ret true)
    (fun _ => ret false).

(** [deleteSession(sessionId)] *)
Definition deleteSession (sessionId : string) : Op bool :=
  tryCatch
    (let* sessions := getSessions in
     let* _ := chromeCall in
     let* _ := modify (setSessions (Some (delete sessionId sessions))) in
     ret true)
    (fun _ => ret false).

(** [24 * 60 * 60 * 1000] *)
Definition maxAge : Z := 24 * 60 * 60 * 1000.

(** [now - session.lastUpdated > maxAge]; the difference is not a number
    for a session without [lastUpdated], and the comparison is false. *)
Definition isOld (now : Z) (session : Session) : bool :=
  match lastUpdated session with
  | Some t => (maxAge <? now - t)%Z
  | None => false
  end.

(** [cleanupOldSessions()] *)
Definition cleanupOldSessions : Op nat :=
  tryCatch
    (let* sessions := getSessions in
     let* now := dateNow in
     let old := fun kv : string * Session => isOld now kv.2 = true in
     let kept := filter (fun kv => ~ old kv) sessions in
     let cleanedCount := size (filter old sessions) in
     let* _ :=
       if (0 <? cleanedCount)%nat then
         let* _ := chromeCall in modify (setSessions (Some kept))
       else ret tt in
     ret cleanedCount)
    (fun _ => ret 0%nat).

(** ** Export and import *)

Record Payload := mkPayload {
  settings : option Object;
  websites : option (gmap string Object);
  sessions : option (gmap string Session)
}.

(** The argument of [importAllData]: absent, or an object whose [data] is
    absent or a payload. *)
Record ImportData := mkImportData {
  data : option Payload
}.

Record ExportData := mkExportData {
  version : string;
  exportDate : string;
  exported : Payload
}.

(** [7 * 24 * 60 * 60 * 1000] *)
Definition week : Z := 7 * 24 * 60 * 60 * 1000.

(** The filter of [exportAllData] over the entries of the sessions; the
    clock is read for every entry. *)
Fixpoint recentEntries (entries : list (string * Session))
    : Op (list (string * Session)) :=
  match entries with
  | [] => ret []
  | (id, session) :: rest =>
      let* now := dateNow in
      let weekAgo := (now - week)%Z in
      let recent :=
        match lastUpdated session with
        | Some t => (weekAgo <? t)%Z
        | None => false
        end in
      let* others := recentEntries rest in
      ret (if recent then (id, session) :: others else others)
  end.

(** [exportAllData()]; its [catch] rethrows. *)
Definition exportAllData : Op ExportData :=
  let* settings := getSettings in
  let* websites := getWebsiteConfigs in
  let* sessions := getSessions in
  let* date := dateISOString in
  let* m := get in
  let* recent := recentEntries (map_to_list sessions) in
  ret (mkExportData "2.1.0" date
         (mkPayload (Some (contentOf settings m)) (Some websites)
            (Some (list_to_map recent)))).

(** [importAllData(importData)]; its [catch] rethrows. *)
Definition importAllData (importData : option ImportData) : Op bool :=
  match importData with
  | None => throw (mkError (Some "Invalid import data format"))
  | Some d =>
      match data d with
      | None => throw (mkError (Some "Invalid import data format"))
      | Some payload =>
          let* _ :=
            match settings payload with
            | Some imported => let* _ := saveSettings imported in ret tt
            | None => ret tt
            end in
          let* _ :=
            match websites payload with
            | Some imported =>
                let* _ := chromeCall in modify (setWebsites (Some imported))
            | None => ret tt
            end in
          let* _ :=
            match sessions payload with
            | Some imported =>
                let* currentSessions := getSessions in
                let mergedSessions := imported ∪ currentSessions in
                let* _ := chromeCall in
                modify (setSessions (Some mergedSessions))
            | None => ret tt
            end in
          ret true
      end
  end.

(** The export data handed back as import data. *)
Definition asImport (e : ExportData) : option ImportData :=
  Some (mkImportData (Some (exported e))).

(** [clearAllData()] *)
Definition clearAllData : Op bool :=
  tryCatch
    (let* _ := chromeCall in
     let* _ := modify (fun m => setSessions None (setWebsites None m)) in
     let* _ := chromeCall in
     let* _ := modify (setSettings None) in
     let* _ := chromeCall in
     let* _ := modify (setCurrent None) in
     let* _ := setDefaultSettings in
     ret true)
    (fun _ => ret false).

(** ** What a caller sees *)

(** The own properties of the object that [getSettings()] answers in a
    state. *)
Definition settingsSeen (m : Store) : Object :=
  match getSettings m with
  | (m', Ok settings) => contentOf settings m'
  | (_, Throw _) => ∅
  end.

(** The objects that [getWebsiteConfigs()] and [getSessions()] answer. *)
Definition websitesSeen (m : Store) : gmap string Object :=
  match getWebsiteConfigs m with
  | (_, Ok configs) => configs
  | (_, Throw _) => ∅
  end.

Definition sessionsSeen (m : Store) : gmap string Session :=
  match getSessions m with
  | (_, Ok sessions) => sessions
  | (_, Throw _) => ∅
  end.

(** The settings of a fresh manager. *)
Definition defaultSettings : Object :=
  list_to_map
    [ ("debugMode", ConfigManager.JBool false);
      ("slowMode", ConfigManager.JBool false);
      ("screenshotMode", ConfigManager.JBool true);
      ("notificationMode", ConfigManager.JBool true);
      ("sessionTimeout", ConfigManager.JNum 45);
      ("retryLimit", ConfigManager.JNum 3);
      ("autoStart", ConfigManager.JBool false);
      ("theme", ConfigManager.JStr "system") ].

(** A fresh manager on empty storage areas, with the given outcomes of
    the coming storage calls; the clock reads 1000, 2000, ... *)
Definition fresh (outcomes : list (option Error)) : Store :=
  mkStore None None None None defaultSettings outcomes
    (fun n => (1000 * (Z.of_nat n + 1))%Z) 0 (fun _ => "2025-01-01T00:00:00.000Z").

End StorageManager.

(* ===================================================================== *)
(** * Regular expressions, as far as the sources test with them *)
(* ===================================================================== *)

Module Regex.

(** A pattern over the characters of a string: the empty pattern, one
    character of a class, sequence, choice and repetition; [Never] matches
    nothing. *)
Inductive Re :=
| Never
| Empty
| Class (p : ascii -> bool)
| Seq (r1 r2 : Re)
| Or (r1 r2 : Re)
| Star (r : Re).

(** [r?] *)
Definition optional (r : Re) : Re := Or Empty r.

(** [r{0,n}] *)
Fixpoint upTo (n : nat) (r : Re) : Re :=
  match n with
  | O => Empty
  | S k => optional (Seq r (upTo k r))
  end.

(** [r{2,}] *)
Definition twoOrMore (r : Re) : Re := Seq r (Seq r (Star r)).

(** Whether the pattern matches the empty string. *)
Fixpoint nullable (r : Re) : bool :=
  match r with
  | Never => false
  | Empty => true
  | Class _ => false
  | Seq r1 r2 => nullable r1 && nullable r2
  | Or r1 r2 => nullable r1 || nullable r2
  | Star _ => true
  end.

(** The pattern of what may follow the character [c]. *)
Fixpoint after (c : ascii) (r : Re) : Re :=
  match r with
  | Never => Never
  | Empty => Never
  | Class p => if p c then Empty else Never
  | Seq r1 r2 =>
      if nullable r1 then Or (Seq (after c r1) r2) (after c r2)
      else Seq (after c r1) r2
  | Or r1 r2 => Or (after c r1) (after c r2)
  | Star r1 => Seq (after c r1) (Star r1)
  end.

(** [/^r$/.test(s)]: the pattern matches the whole string. *)
Fixpoint test (r : Re) (s : string) : bool :=
  match s with
  | EmptyString => nullable r
  | String c s' => test (after c r) s'
  end.

(** The strings of a pattern. *)
Inductive matches : Re -> string -> Prop :=
| matches_empty : matches Empty EmptyString
| matches_class (p : ascii -> bool) (c : ascii) :
    p c = true -> matches (Class p) (String c EmptyString)
| matches_seq (r1 r2 : Re) (s1 s2 : string) :
    matches r1 s1 -> matches r2 s2 -> matches (Seq r1 r2) (s1 +:+ s2)
| matches_or_l (r1 r2 : Re) (s : string) : matches r1 s -> matches (Or r1 r2) s
| matches_or_r (r1 r2 : Re) (s : string) : matches r2 s -> matches (Or r1 r2) s
| matches_star_nil (r : Re) : matches (Star r) EmptyString
| matches_star_more (r : Re) (s1 s2 : string) :
    matches r s1 -> matches (Star r) s2 -> matches (Star r) (s1 +:+ s2).

(** Every character of the string is of the class. *)
Fixpoint allChars (p : ascii -> bool) (s : string) : bool :=
  match s with
  | EmptyString => true
  | String c s' => p c && allChars p s'
  end.

(** [a-zA-Z0-9], [a-zA-Z0-9-] and [a-zA-Z] *)
Definition isLetter (c : ascii) : bool :=
  let n := nat_of_ascii c in
  (((65 <=? n) && (n <=? 90)) || ((97 <=? n) && (n <=? 122)))%nat.

Definition isAlnum (c : ascii) : bool := isLetter c || JS.isDigit c.

Definition isAlnumOrHyphen (c : ascii) : bool := isAlnum c || Ascii.eqb c "-".

Definition isDot (c : ascii) : bool := Ascii.eqb c ".".

End Regex.

(* ===================================================================== *)
(** * Validation of a configuration: [ConfigManager.validateConfig] *)
(* ===================================================================== *)

Module ConfigValidation.

(** ** Documents as the validation reads them

    The keys that the validation reads, each absent or present; the pages
    of a scenario and the scenarios of a configuration in the order of
    their entries.  An action and a page are the documents that the
    processing takes. *)

Record WebsiteDoc := mkWebsiteDoc {
  websiteName : option string;
  websiteDomain : option string;
  websiteType : option string
}.

(** [session_duration]: the bounds are any scalars, the validation does
    not ask for numbers. *)
Record DurationDoc := mkDurationDoc {
  durationMin : option ConfigManager.Scalar;
  durationMax : option ConfigManager.Scalar;
  durationUnit : option string
}.

Record GoalsDoc := mkGoalsDoc {
  session_duration : option DurationDoc
}.

Record ScenarioDoc := mkScenarioDoc {
  scenarioName : option string;
  scenarioPages : option (list (string * ConfigManager.PageConfigDoc));
  scenarioGoals : option GoalsDoc
}.

(** [selectors]: only whether it has [pages] is looked at. *)
Record SelectorsDoc := mkSelectorsDoc {
  hasPages : bool
}.

Record ConfigDoc := mkConfigDoc {
  website : option WebsiteDoc;
  selectors : option SelectorsDoc;
  scenarios : option (list (string * ScenarioDoc))
}.

Record Validation := mkValidation {
  isValid : bool;
  errors : list string
}.

(** The decimal text of an array index. *)
Definition indexText (n : nat) : string := NilZero.string_of_uint (Nat.to_uint n).

(** [!x] for a key that may be absent. *)
Definition falsyKey (x : option ConfigManager.Scalar) : bool :=
  match x with
  | Some v => ConfigManager.falsy v
  | None => true
  end.

(** [x >= y] on two keys that may be absent.  Two strings are compared as
    strings; otherwise both sides are converted to numbers, an absent key
    to [NaN], and a comparison with [NaN] is false.  [x >= y] holds when
    [x < y] is false and neither side is [NaN]. *)
Definition greaterOrEqual (x y : option ConfigManager.Scalar) : bool :=
  match x, y with
  | Some (ConfigManager.SStr a _), Some (ConfigManager.SStr b _) =>
      negb (JS.lessThan a b)
  | _, _ =>
      let number key :=
        match key with
        | Some v => ConfigManager.toNumber v
        | None => ConfigManager.NaN
        end in
      match number x, number y with
      | ConfigManager.NaN, _ | _, ConfigManager.NaN => false
      | nx, ny => negb (ConfigManager.numberLess nx ny)
      end
  end.

(** The elements of an array with their indices, from [start]. *)
Fixpoint indexed {A : Type} (start : nat) (l : list A) : list (nat * A) :=
  match l with
  | [] => []
  | x :: rest => (start, x) :: indexed (S start) rest
  end.

(** [validateAction(action, scenarioId, pageName, actionType, index)]; a
    probability that is not a number fails the test of its type. *)
Definition validateAction (action : ConfigManager.ActionConfig)
    (scenarioId pageName actionType : string) (index : nat) : list string :=
  let place :=
    "Scenario " +:+ scenarioId +:+ ", Page " +:+ pageName +:+ ", " +:+ actionType
    +:+ "[" +:+ indexText index +:+ "]" in
  (if negb (ConfigManager.truthyOpt (ConfigManager.actionName action))
   then [place +:+ ": Missing action name"] else [])
  ++ match ConfigManager.cfgProbability action with
     | Some (ConfigManager.SNum p) =>
         if ConfigManager.Qltb p 0 || ConfigManager.Qltb 1 p
         then [place +:+ ": Invalid probability"] else []
     | Some _ => [place +:+ ": Invalid probability"]
     | None => []
     end
  ++ match ConfigManager.micro_sequence action with
     | Some sequence =>
         flat_map
           (fun im : nat * ConfigManager.MicroConfig =>
              if negb (ConfigManager.truthyOpt (ConfigManager.microType im.2))
              then [place +:+ ", micro[" +:+ indexText im.1 +:+ "]: Missing type"]
              else [])
           (indexed 0 sequence)
     | None => []
     end.

(** The actions of one of the two lists of a page, validated in order. *)
Definition validateActions (actions : option (list ConfigManager.ActionConfig))
    (scenarioId pageName actionType : string) : list string :=
  match actions with
  | Some l =>
      flat_map
        (fun ia : nat * ConfigManager.ActionConfig =>
           validateAction ia.2 scenarioId pageName actionType ia.1)
        (indexed 0 l)
  | None => []
  end.

(** [validatePageConfig(pageConfig, scenarioId, pageName)] *)
Definition validatePageConfig (pageConfig : ConfigManager.PageConfigDoc)
    (scenarioId pageName : string) : list string :=
  match ConfigManager.cfgActions pageConfig with
  | Some actions =>
      validateActions (ConfigManager.non_navigation actions) scenarioId pageName
        "non_navigation"
      ++ validateActions (ConfigManager.navigation actions) scenarioId pageName
           "navigation"
  | None => []
  end.

(** [validateGoals(goals, scenarioId)] *)
Definition validateGoals (goals : GoalsDoc) (scenarioId : string) : list string :=
  match session_duration goals with
  | Some duration =>
      (if falsyKey (durationMin duration) || falsyKey (durationMax duration)
          || negb (ConfigManager.truthyOpt (durationUnit duration))
       then ["Scenario " +:+ scenarioId +:+ ": Invalid session_duration format"]
       else [])
      ++ (if greaterOrEqual (durationMin duration) (durationMax duration)
          then ["Scenario " +:+ scenarioId
                +:+ ": session_duration min must be less than max"]
          else [])
  | None => []
  end.

(** [validateScenario(scenario, scenarioId)] *)
Definition validateScenario (scenario : ScenarioDoc) (scenarioId : string)
    : list string :=
  (if negb (ConfigManager.truthyOpt (scenarioName scenario))
   then ["Scenario " +:+ scenarioId +:+ ": Missing name"] else [])
  ++ match scenarioPages scenario with
     | None => ["Scenario " +:+ scenarioId +:+ ": Missing pages"]
     | Some pages =>
         flat_map
           (fun entry : string * ConfigManager.PageConfigDoc =>
              validatePageConfig entry.2 scenarioId entry.1)
           pages
     end
  ++ match scenarioGoals scenario with
     | Some goals => validateGoals goals scenarioId
     | None => []
     end.

(** The pattern of a domain: a letter or digit, up to 61 letters, digits
    or hyphens, an optional letter or digit, a dot, two or more letters. *)
Definition domainRegex : Regex.Re :=
  Regex.Seq (Regex.Class Regex.isAlnum)
    (Regex.Seq (Regex.upTo 61 (Regex.Class Regex.isAlnumOrHyphen))
       (Regex.Seq (Regex.optional (Regex.Class Regex.isAlnum))
          (Regex.Seq (Regex.Class Regex.isDot)
             (Regex.twoOrMore (Regex.Class Regex.isLetter))))).

(** [validateConfig(config)] *)
Definition validateConfig (config : ConfigDoc) : Validation :=
  let errors :=
    match website config with
    | None => ["Missing website information"]
    | Some w =>
        (if negb (ConfigManager.truthyOpt (websiteName w))
         then ["Missing website name"] else [])
        ++ (if negb (ConfigManager.truthyOpt (websiteDomain w))
            then ["Missing website domain"] else [])
        ++ (if negb (ConfigManager.truthyOpt (websiteType w))
            then ["Missing website type"] else [])
    end
    ++ match website config with
       | Some w =>
           match websiteDomain w with
           | Some domain =>
               if JS.truthyStr domain && negb (Regex.test domainRegex domain)
               then ["Invalid domain format"] else []
           | None => []
           end
       | None => []
       end
    ++ match selectors config with
       | None => ["Missing selectors"]
       | Some sel => if hasPages sel then [] else ["Missing page selectors"]
       end
    ++ match scenarios config with
       | None => ["Missing scenarios"]
       | Some entries =>
           (if (length entries =? 0)%nat then ["No scenarios defined"] else [])
           ++ flat_map
                (fun entry : string * ScenarioDoc => validateScenario entry.2 entry.1)
                entries
       end in
  mkValidation (match errors with [] => true | _ => false end) errors.

(** The actions of a configuration: of both lists of every page of every
    scenario. *)
Definition actionsOf (config : ConfigDoc) : list ConfigManager.ActionConfig :=
  flat_map
    (fun entry : string * ScenarioDoc =>
       flat_map
         (fun page : string * ConfigManager.PageConfigDoc =>
            ConfigManager.actionsOfPage page.2)
         (default [] (scenarioPages entry.2)))
    (default [] (scenarios config)).

(** A small configuration: one scenario with one page and one action. *)
Definition exampleConfig (domain : string) (probability : option ConfigManager.Scalar)
    : ConfigDoc :=
  mkConfigDoc
    (Some (mkWebsiteDoc (Some "Example") (Some domain) (Some "other")))
    (Some (mkSelectorsDoc true))
    (Some [("browse",
            mkScenarioDoc (Some "Browse")
              (Some [("home",
                      ConfigManager.mkPageConfigDoc None
                        (Some (ConfigManager.mkActionsConfig
                                 (Some [ConfigManager.mkActionConfig (Some "look")
                                          probability None None None])
                                 None)))])
              None)]).

(** ** What the validation asks for

    An action, a duration goal and a scenario for which the validation
    reports nothing. *)

Definition acceptedAction (action : ConfigManager.ActionConfig) : Prop :=
  ConfigManager.truthyOpt (ConfigManager.actionName action) = true
  /\ ConfigManager.cfgProbability (ConfigManager.processAction action)
     = Some (default (ConfigManager.SNum (1 # 2)) (ConfigManager.cfgProbability action))
  /\ Forall (fun micro => ConfigManager.truthyOpt (ConfigManager.microType micro) = true)
       (default [] (ConfigManager.micro_sequence action)).

Definition acceptedGoals (goals : GoalsDoc) : Prop :=
  match session_duration goals with
  | Some duration =>
      exists min max,
        durationMin duration = Some min /\ durationMax duration = Some max
        /\ ConfigManager.falsy min = false /\ ConfigManager.falsy max = false
        /\ ConfigManager.truthyOpt (durationUnit duration) = true
        /\ greaterOrEqual (Some min) (Some max) = false
        /\ (forall qmin qmax,
              min = ConfigManager.SNum qmin -> max = ConfigManager.SNum qmax ->
              ~ (qmin == 0)%Q /\ ~ (qmax == 0)%Q /\ (qmin < qmax)%Q)
  | None => True
  end.

Definition acceptedScenario (scenario : ScenarioDoc) : Prop :=
  ConfigManager.truthyOpt (scenarioName scenario) = true
  /\ (exists pages,
        scenarioPages scenario = Some pages
        /\ Forall (fun page : string * ConfigManager.PageConfigDoc =>
                     Forall acceptedAction (ConfigManager.actionsOfPage page.2)) pages)
  /\ match scenarioGoals scenario with
     | Some goals => acceptedGoals goals
     | None => True
     end.

(** A configuration of one scenario with a session duration. *)
Definition timedConfig (min max : option ConfigManager.Scalar) : ConfigDoc :=
  mkConfigDoc
    (Some (mkWebsiteDoc (Some "Example") (Some "example.com") (Some "other")))
    (Some (mkSelectorsDoc true))
    (Some [("browse",
            mkScenarioDoc (Some "Browse") (Some [])
              (Some (mkGoalsDoc (Some (mkDurationDoc min max (Some "minutes"))))))]).

End ConfigValidation.

(* ===================================================================== *)
(** * The detector of websites: [WebsiteDetector] *)
(* ===================================================================== *)

Module WebsiteDetector.

(** [parts.join(sep)] *)
Fixpoint join (sep : string) (parts : list string) : string :=
  match parts with
  | [] => EmptyString
  | [part] => part
  | part :: rest => part +:+ sep +:+ join sep rest
  end.

(** [parts.slice(-n)] for a positive [n]: the last [n] elements, all of
    them when there are fewer. *)
Definition sliceLast {A : Type} (n : nat) (parts : list A) : list A :=
  skipn (length parts - n) parts.

(** [list.includes(x)] on strings *)
Definition includesString (l : list string) (x : string) : bool :=
  existsb (String.eqb x) l.

(** [hostname.replace(/^www\./, '')] *)
Definition withoutWww (hostname : string) : string :=
  default hostname (JS.stripPrefix "www." hostname).

Definition commonTLDs : list string :=
  ["com"; "org"; "net"; "edu"; "gov"; "mil"; "int"].

(** [extractDomain(hostname)] *)
Definition extractDomain (hostname : string) : string :=
  let domain := withoutWww hostname in
  let parts := JS.split "." domain in
  if (length parts <=? 2)%nat then domain
  else
    let lastPart := nth (length parts - 1) parts EmptyString in
    if includesString commonTLDs lastPart then join "." (sliceLast 2 parts)
    else
      let byCountry :=
        if (3 <=? length parts)%nat then
          let secondLastPart := nth (length parts - 2) parts EmptyString in
          includesString ["co"; "com"; "org"; "net"; "edu"; "gov"] secondLastPart
        else false in
      if byCountry then join "." (sliceLast 3 parts)
      else join "." (sliceLast 2 parts).

(** The labels of a name: its parts between the dots. *)
Definition labels (name : string) : list string := JS.split "." name.

(** A part of a name that holds no dot. *)
Definition dotFree (part : string) : Prop :=
  Regex.allChars (fun c => negb (Ascii.eqb c ".")) part = true.

(** [validateWebsiteConfig(config)], on the documents of the validation of
    [ConfigManager]. *)
Definition validateWebsiteConfig (config : ConfigValidation.ConfigDoc)
    : ConfigValidation.Validation :=
  let errors :=
    match ConfigValidation.website config with
    | None => ["Missing website information"]
    | Some w =>
        (if negb (ConfigManager.truthyOpt (ConfigValidation.websiteName w))
         then ["Missing website name"] else [])
        ++ (if negb (ConfigManager.truthyOpt (ConfigValidation.websiteDomain w))
            then ["Missing website domain"] else [])
        ++ (if negb (ConfigManager.truthyOpt (ConfigValidation.websiteType w))
            then ["Missing website type"] else [])
    end
    ++ match ConfigValidation.selectors config with
       | None => ["Missing selectors"]
       | Some sel =>
           if ConfigValidation.hasPages sel then [] else ["Missing page selectors"]
       end
    ++ match ConfigValidation.scenarios config with
       | None => ["No scenarios defined"]
       | Some entries =>
           if (length entries =? 0)%nat then ["No scenarios defined"] else []
       end
    ++ match ConfigValidation.scenarios config with
       | Some entries =>
           flat_map
             (fun entry : string * ConfigValidation.ScenarioDoc =>
                (if negb (ConfigManager.truthyOpt
                            (ConfigValidation.scenarioName entry.2))
                 then ["Scenario " +:+ entry.1 +:+ " missing name"] else [])
                ++ match ConfigValidation.scenarioPages entry.2 with
                   | None => ["Scenario " +:+ entry.1 +:+ " missing pages"]
                   | Some _ => []
                   end)
             entries
       | None => []
       end in
  ConfigValidation.mkValidation (match errors with [] => true | _ => false end) errors.

End WebsiteDetector.

(* ===================================================================== *)
(** * Typing into a field: [ActionExecutor.typeText] *)
(* ===================================================================== *)

Module Typing.

(** The element that is typed into: its [value], absent on an element that
    is not a form field, its [textContent], and the events dispatched on
    it, in order.  The listeners of the page are not part of the program:
    dispatching an event records it and leaves the element as it is. *)
Record Field := mkField {
  value : option string;
  textContent : string;
  dispatched : list string
}.

Definition dispatchEvent (type : string) (element : Field) : Field :=
  mkField (value element) (textContent element) (dispatched element ++ [type]).

(** [element.value += char], or [element.textContent += char] where the
    element has no value. *)
Definition appendChar (char : ascii) (element : Field) : Field :=
  match value element with
  | Some v =>
      mkField (Some (v +:+ String char EmptyString)) (textContent element)
        (dispatched element)
  | None =>
      mkField None (textContent element +:+ String char EmptyString)
        (dispatched element)
  end.

(** [typeCharacter(element, char)] *)
Definition typeCharacter (char : ascii) (element : Field) : Field :=
  dispatchEvent "keyup"
    (dispatchEvent "input"
       (appendChar char
          (dispatchEvent "keypress" (dispatchEvent "keydown" element)))).

(** [s.slice(0, -1)] *)
Fixpoint withoutLast (s : string) : string :=
  match s with
  | EmptyString => EmptyString
  | String c EmptyString => EmptyString
  | String c rest => String c (withoutLast rest)
  end.

(** [pressKey(element, key)] *)
Definition pressKey (key : string) (element : Field) : Field :=
  let element := dispatchEvent "keydown" element in
  let element :=
    match value element with
    | Some v =>
        if String.eqb key "Backspace"
        then dispatchEvent "input"
               (mkField (Some (withoutLast v)) (textContent element)
                  (dispatched element))
        else element
    | None => element
    end in
  dispatchEvent "keyup" element.

(** [typoMap[correctChar.toLowerCase()] || 'x'] *)
Definition typoChar (correctChar : ascii) : ascii :=
  let c := JS.lowerChar correctChar in
  if Ascii.eqb c "a" then "s"
  else if Ascii.eqb c "s" then "a"
  else if Ascii.eqb c "d" then "s"
  else if Ascii.eqb c "f" then "d"
  else if Ascii.eqb c "q" then "w"
  else if Ascii.eqb c "w" then "q"
  else if Ascii.eqb c "e" then "w"
  else if Ascii.eqb c "r" then "e"
  else "x".

(** [simulateTypo(element, correctChar)]; the waits between the keys
    change nothing of the element. *)
Definition simulateTypo (correctChar : ascii) (element : Field) : Field :=
  typeCharacter correctChar
    (pressKey "Backspace" (typeCharacter (typoChar correctChar) element)).

(** The loop of [typeText(element, text, speed, clearFirst)] over the
    characters of the text from the index [i].  [typoDrawn i] is the
    outcome of the test [Math.random() < 0.03] of the iteration [i]; the
    delays and pauses of an iteration change nothing of the element. *)
Fixpoint typeLoop (typoDrawn : nat -> bool) (i : nat) (text : string)
    (element : Field) : Field :=
  match text with
  | EmptyString => element
  | String char rest =>
      let element := typeCharacter char element in
      let element :=
        if typoDrawn i && (0 <? i)%nat then simulateTypo char element
        else element in
      typeLoop typoDrawn (S i) rest element
  end.

(** The number of typos simulated while typing [text] from the index [i]. *)
Fixpoint typos (typoDrawn : nat -> bool) (i : nat) (text : string) : nat :=
  match text with
  | EmptyString => 0
  | String _ rest =>
      (if typoDrawn i && (0 <? i)%nat then 1 else 0) + typos typoDrawn (S i) rest
  end.

End Typing.

(* ===================================================================== *)
(** * Properties *)
(* ===================================================================== *)

(** ** Timing model *)

Example parseTimeValue_ms : Timing.parseTimeValue "500ms" = 500%float.
Proof. vm_compute. reflexivity. Qed.

Example parseTimeValue_s : Timing.parseTimeValue "1.5s" = 1500%float.
Proof. vm_compute. reflexivity. Qed.

Example parseTimeValue_bare : Timing.parseTimeValue "2" = 2%float.
Proof. vm_compute. reflexivity. Qed.

(** C3, evaluated on the code.  The claim asks [a*1000 <= v <= b*1000] for
    the range string [a-bs].  [parseDuration] splits the string at the
    dash and hands the two halves to [parseTimeValue]; the first half
    carries no unit and is read as milliseconds.  For the range [2-3s] the
    sampled value is [rnd * 2998 + 2], and with the draw 0 it is 2 ms,
    below the 2000 ms the claim requires. *)
Theorem parseDuration_range_minimum_in_ms :
  (forall rnd, Timing.parseDuration rnd "2-3s" = (rnd * 2998 + 2)%float)
  /\ Timing.parseDuration 0 "2-3s" = 2%float
  /\ PrimFloat.ltb (Timing.parseDuration 0 "2-3s") (2 * 1000) = true.
Proof.
  split; [| split].
  - intros rnd. vm_compute. reflexivity.
  - vm_compute. reflexivity.
  - vm_compute. reflexivity.
Qed.

(** ** Action selector *)

Lemma weightedWalk_app (pre l : list Action) (r : float) :
  Stated.stillPositive r pre = true ->
  ContentScript.weightedWalk r (pre ++ l)
  = ContentScript.weightedWalk (Stated.remaining r pre) l.
Proof.
  revert r. induction pre as [| a pre IH]; intros r Hpos; simpl in *.
  - reflexivity.
  - apply andb_true_iff in Hpos as [Ha Hrest].
    apply negb_true_iff in Ha. rewrite Ha. now apply IH.
Qed.

Lemma weightedWalk_exhausted (l : list Action) (r : float) :
  Stated.stillPositive r l = true -> ContentScript.weightedWalk r l = None.
Proof.
  intros Hpos. rewrite <- (app_nil_r l).
  rewrite (weightedWalk_app l [] r Hpos). reflexivity.
Qed.

Lemma weightedChoice_found (rnd : float) (l : list Action) (a : Action) :
  ContentScript.weightedWalk (rnd * ContentScript.totalWeight l) l = Some a ->
  ContentScript.weightedChoice rnd l = Some a.
Proof.
  intros Hw. unfold ContentScript.weightedChoice.
  destruct l as [| b l']; [discriminate |]. now rewrite Hw.
Qed.

(** [selectAction] answers null when no action is eligible, and otherwise
    draws one random number and makes the weighted choice among the
    eligible actions. *)
Lemma selectAction_weightedChoice {W : Type} `{Platform W}
    (availableActions validActions : list Action) (s s1 : State W) :
  ContentScript.validActionsOf availableActions s = (s1, Ok validActions) ->
  ContentScript.selectAction availableActions s
  = match validActions with
    | [] => (s1, Ok None)
    | _ =>
        let (rnd, w) := nextRandom (world s1) in
        (setWorld w s1, Ok (ContentScript.weightedChoice rnd validActions))
    end.
Proof.
  intros Hvalid. unfold ContentScript.selectAction, bind. rewrite Hvalid.
  destruct validActions as [| a l]; [reflexivity |].
  unfold random. now destruct (nextRandom (world s1)).
Qed.

(** C2, amended.  For a non-empty list of eligible actions and any draw,
    with [r = draw * sumOfWeights]: the selection returns the first action
    at which the walk brings [r] to zero or below; when the walk passes
    every action without that, it returns the first element of the list
    (not the last); it never returns null. *)
Theorem selectAction_weighted_walk (rnd : float) (validActions : list Action) :
  validActions <> [] ->
  let r := (rnd * ContentScript.totalWeight validActions)%float in
  (forall pre a post,
      validActions = pre ++ a :: post ->
      Stated.stillPositive r pre = true ->
      PrimFloat.leb (Stated.remaining r pre - probability a) 0 = true ->
      ContentScript.weightedChoice rnd validActions = Some a)
  /\ (Stated.stillPositive r validActions = true ->
      ContentScript.weightedChoice rnd validActions = head validActions)
  /\ ContentScript.weightedChoice rnd validActions <> None.
Proof.
  intros Hne r. split; [| split].
  - intros pre a post Hsplit Hpos Hhit.
    apply weightedChoice_found.
    change (ContentScript.weightedWalk r validActions = Some a).
    rewrite Hsplit. rewrite (weightedWalk_app pre (a :: post) r Hpos).
    simpl. now rewrite Hhit.
  - intros Hpos. unfold ContentScript.weightedChoice.
    destruct validActions as [| b l']; [congruence |].
    fold r. now rewrite (weightedWalk_exhausted (b :: l') r Hpos).
  - unfold ContentScript.weightedChoice.
    destruct validActions as [| b l']; [congruence |].
    destruct (ContentScript.weightedWalk _ _); discriminate.
Qed.

Lemma selectAction_weighted_walk_witness :
  ContentScript.weightedChoice 0.25
    [Scripted.weighted "read" 0.5; Scripted.weighted "scroll" 0.5]
  = Some (Scripted.weighted "read" 0.5).
Proof.
  refine (proj1 (selectAction_weighted_walk 0.25
                   [Scripted.weighted "read" 0.5; Scripted.weighted "scroll" 0.5] _)
            [] (Scripted.weighted "read" 0.5) [Scripted.weighted "scroll" 0.5] _ _ _).
  - discriminate.
  - reflexivity.
  - reflexivity.
  - vm_compute. reflexivity.
Defined.

(** C2 as stated fails.  Three eligible actions of weights 0.2, 0.4 and
    0.15 and the draw [1 - 2^-53]: the product with the sum of the weights
    rounds to 0.75, the three subtractions leave a positive remainder, and
    the code returns the first action, where the claim names the last. *)
Lemma selectAction_fallback_is_first :
  let validActions :=
    [Scripted.weighted "a" 0.2; Scripted.weighted "b" 0.4; Scripted.weighted "c" 0.15] in
  let rnd := 0x1.fffffffffffffp-1%float in
  PrimFloat.leb 0 rnd = true /\ PrimFloat.ltb rnd 1 = true
  /\ forallb (fun a => PrimFloat.ltb 0 (probability a)) validActions = true
  /\ ContentScript.weightedWalk (rnd * ContentScript.totalWeight validActions) validActions
     = None
  /\ ContentScript.weightedChoice rnd validActions = Some (Scripted.weighted "a" 0.2)
  /\ Stated.choiceWithLastFallback rnd validActions = Some (Scripted.weighted "c" 0.15)
  /\ ContentScript.weightedChoice rnd validActions
     <> Stated.choiceWithLastFallback rnd validActions.
Proof.
  vm_compute. repeat split; try reflexivity. discriminate.
Qed.

(** ** Configuration processing *)


Lemma clamp01_bounds (p : Q) :
  (0 <= ConfigManager.clamp01 p)%Q /\ (ConfigManager.clamp01 p <= 1)%Q.
Proof.
  unfold ConfigManager.clamp01. split.
  - apply Q.le_max_l.
  - apply Q.max_lub; [discriminate | apply Q.le_min_l].
Qed.











Lemma processProbability_default :
  ConfigManager.processProbability None = ConfigManager.SNum (1 # 2).
Proof. reflexivity. Qed.

Example processAction_clamps_high :
  exists p,
    ConfigManager.processProbability (Some (ConfigManager.SNum (7 # 2)))
    = ConfigManager.SNum p /\ p == 1.
Proof. eexists. split; reflexivity. Qed.

Example processAction_clamps_low :
  exists p,
    ConfigManager.processProbability (Some (ConfigManager.SNum (- (3 # 4))))
    = ConfigManager.SNum p /\ p == 0.
Proof. eexists. split; reflexivity. Qed.

(** ** Element resolver *)

Section ResolverFacts.
Context {W : Type} `{Platform W}.

Lemma orNext_hit (strategy next : M W (option Node)) (s s' : State W) (e : Node) :
  strategy s = (s', Ok (Some e)) ->
  ElementFinder.orNext strategy next s = (s', Ok (Some e)).
Proof. intros Hs. unfold ElementFinder.orNext. now rewrite Hs. Qed.

Lemma orNext_miss (strategy next : M W (option Node)) (s s' : State W)
    (r : Result (option Node)) :
  strategy s = (s', r) ->
  (forall e, r <> Ok (Some e)) ->
  ElementFinder.orNext strategy next s = next s'.
Proof.
  intros Hs Hmiss. unfold ElementFinder.orNext. rewrite Hs.
  destruct r as [[e |] | err]; try reflexivity.
  now destruct (Hmiss e).
Qed.

Lemma first_hit_wins (pre : list (M W (option Node))) (st : M W (option Node))
    (post : list (M W (option Node))) (s s1 s2 : State W) (e : Node) :
  Stated.misses pre s s1 ->
  st s1 = (s2, Ok (Some e)) ->
  fold_right ElementFinder.orNext (ret None) (pre ++ st :: post) s
  = (s2, Ok (Some e)).
Proof.
  intros Hpre Hst. induction Hpre as [s | st' rest s s' s'' r Hrun Hmiss _ IH]; simpl.
  - now apply orNext_hit.
  - rewrite (orNext_miss st' _ s s' r Hrun Hmiss). now apply IH.
Qed.

End ResolverFacts.

(** C6.  The resolution pipeline holds the strategies in the order direct
    match, comma-separated fallback list, text-content match, attribute
    match, geometric match; the first strategy that yields an element
    ends it with that element; so a selector that the direct structural
    query matches resolves to the element of the direct query even though
    the text-content strategy matches it too. *)
Theorem direct_match_wins_over_text {W : Type} `{Platform W}
    (selector : string) (s s1 s2 : State W) (e e' : Node) :
  ElementFinder.findByDirectSelector selector s = (s1, Ok (Some e)) ->
  ElementFinder.findByTextContent selector s = (s2, Ok (Some e')) ->
  ElementFinder.strategies selector
  = [ ElementFinder.findByDirectSelector selector;
      ElementFinder.findByFallbackSelectors selector;
      ElementFinder.findByTextContent selector;
      ElementFinder.findByAttributes selector;
      ElementFinder.findByPosition selector ]
  /\ (forall pre st post t t1 t2 n,
         ElementFinder.strategies selector = pre ++ st :: post ->
         Stated.misses pre t t1 ->
         st t1 = (t2, Ok (Some n)) ->
         ElementFinder.findElementBySelector selector t = (t2, Ok (Some n)))
  /\ ElementFinder.findElementBySelector selector s = (s1, Ok (Some e)).
Proof.
  intros Hdirect _. split; [reflexivity | split].
  - intros pre st post t t1 t2 n Hsplit Hmiss Hhit.
    unfold ElementFinder.findElementBySelector. rewrite Hsplit.
    now apply first_hit_wins with (s1 := t1).
  - unfold ElementFinder.findElementBySelector, ElementFinder.strategies. simpl.
    now apply orNext_hit.
Qed.

Lemma direct_match_wins_over_text_witness :
  ElementFinder.findElementBySelector Scripted.loginSelector
    (Scripted.running Scripted.noGoals None Scripted.loginPage)
  = (Scripted.running Scripted.noGoals None Scripted.loginPage,
     Ok (Some (DomElement Scripted.svgText))).
Proof.
  refine (proj2 (proj2 (direct_match_wins_over_text Scripted.loginSelector
            (Scripted.running Scripted.noGoals None Scripted.loginPage)
            (Scripted.running Scripted.noGoals None Scripted.loginPage)
            (Scripted.running Scripted.noGoals None Scripted.loginPage)
            (DomElement Scripted.svgText) (DomElement Scripted.loginButton) _ _))).
  - vm_compute. reflexivity.
  - vm_compute. reflexivity.
Defined.

Lemma split_includes (sep : ascii) (s a b : string) (r : list string) :
  JS.split sep s = a :: b :: r ->
  JS.includes s (String sep EmptyString) = true.
Proof.
  revert a b r. induction s as [| c s' IH]; intros a b r Hsplit.
  - discriminate.
  - simpl in Hsplit. simpl.
    destruct (Ascii.eqb c sep) eqn:Hc.
    + apply Ascii.eqb_eq in Hc. subst c. rewrite Ascii.eqb_refl.
      now destruct s'.
    + destruct (JS.split sep s') as [| h t] eqn:Hs'; [discriminate |].
      injection Hsplit as _ Ht. subst t.
      rewrite (IH h b r eq_refl). apply orb_true_r.
Qed.

Lemma selectorAliases_none (selector base modifier : string) (rest : list string) :
  JS.split ":" selector = base :: modifier :: rest ->
  base <> EmptyString ->
  ElementFinder.selectorAliases selector = None.
Proof.
  intros Hsplit Hbase. unfold ElementFinder.selectorAliases.
  repeat match goal with
  | |- context [String.eqb selector ?k] =>
      destruct (String.eqb_spec selector k) as [-> |];
      [vm_compute in Hsplit; try discriminate;
       injection Hsplit as <- _; now destruct Hbase |]
  end.
  reflexivity.
Qed.

(** C9, amended.  For a selector whose first two colon-separated parts are
    [base] and [modifier], where the modifier is none of random, visible,
    inviewport, first, last and does not pass the code's test for the nth
    pattern (starting with [nth(] and holding [nth(digits)]), and where
    the base selector matches at least one element, resolution returns
    the first element that matches the base selector, without an error. *)
Theorem unknown_modifier_resolves_to_first {W : Type} `{Platform W}
    (selector base modifier : string) (rest : list string)
    (globalSelectors : option SelectorSet) (s : State W)
    (e : Element) (more : list Element) :
  JS.split ":" selector = base :: modifier :: rest ->
  Stated.isKeyword modifier = false ->
  Stated.nthPattern modifier = None ->
  base <> EmptyString ->
  JS.startsWith selector "@" = false ->
  querySelectorAll (document (world s)) base = Some (e :: more) ->
  ElementFinder.findElement selector globalSelectors false s
  = (ElementFinder.setLastFound (DomElement e) s, Ok (DomElement e)).
Proof.
  intros Hsplit Hkey Hnth Hbase Hat Hquery.
  assert (Hdirect :
    ElementFinder.findByDirectSelector selector s = (s, Ok (Some (DomElement e)))).
  { unfold ElementFinder.findByDirectSelector.
    rewrite (selectorAliases_none selector base modifier rest Hsplit Hbase).
    rewrite (split_includes ":" selector base modifier rest Hsplit).
    unfold ElementFinder.handleSpecialSelectors. rewrite Hsplit.
    unfold bind, queryAll. rewrite Hquery.
    unfold Stated.isKeyword in Hkey.
    repeat (apply orb_false_iff in Hkey as [Hkey ?]).
    unfold Stated.nthPattern in Hnth.
    repeat match goal with
    | Hk : String.eqb modifier _ = false |- _ => rewrite Hk; clear Hk
    end.
    rewrite Hnth. reflexivity. }
  unfold ElementFinder.findElement, ElementFinder.processSelector.
  rewrite Hat. unfold bind at 1. unfold ret at 1.
  unfold bind at 1. unfold ret at 1.
  unfold bind at 1.
  unfold ElementFinder.findElementBySelector, ElementFinder.strategies. simpl fold_right.
  rewrite (orNext_hit _ _ s s (DomElement e) Hdirect).
  reflexivity.
Qed.

Lemma unknown_modifier_resolves_to_first_witness :
  ElementFinder.findElement "li:hover" None false
    (Scripted.running Scripted.noGoals None Scripted.listPage)
  = (ElementFinder.setLastFound (DomElement Scripted.listItem)
       (Scripted.running Scripted.noGoals None Scripted.listPage),
     Ok (DomElement Scripted.listItem)).
Proof.
  refine (unknown_modifier_resolves_to_first "li:hover" "li" "hover" [] None
            (Scripted.running Scripted.noGoals None Scripted.listPage)
            Scripted.listItem [] _ _ _ _ _ _).
  - reflexivity.
  - reflexivity.
  - reflexivity.
  - discriminate.
  - reflexivity.
  - reflexivity.
Defined.

(** C9 as stated fails.  The selector [li:nth(2)x] has the base [li] and
    the modifier [nth(2)x], which is none of the five words and is not
    [nth(n)]; the page has one list item.  The code takes the modifier for
    the nth pattern, looks up the second item, finds none, and the
    resolution ends with "Element not found" instead of the first item. *)
Lemma unknown_modifier_after_nth_fails :
  let s := Scripted.running Scripted.noGoals None Scripted.listPage in
  JS.split ":" "li:nth(2)x" = ["li"; "nth(2)x"]
  /\ Stated.listedModifier "nth(2)x" = false
  /\ querySelectorAll (document (world s)) "li" = Some [Scripted.listItem]
  /\ ElementFinder.findElement "li:nth(2)x" None false s
     = (s, Throw (mkError (Some "Element not found: li:nth(2)x")))
  /\ ElementFinder.findElement "li:nth(2)x" None false s
     <> (ElementFinder.setLastFound (DomElement Scripted.listItem) s,
         Ok (DomElement Scripted.listItem)).
Proof.
  vm_compute. repeat split; try reflexivity. discriminate.
Qed.

(** ** Conditions of an action *)

Section ConditionFacts.
Context {W : Type} `{Platform W}.

Lemma passes_total (k : Stated.Check) (s : State W) :
  exists s' b, Stated.passes k s = (s', Ok b).
Proof.
  destruct k; simpl; unfold bind, tryCatch, ret,
    ContentScript.getTimeOnCurrentPage, ContentScript.getMetric;
    try (eexists; eexists; reflexivity).
  - destruct (ContentScript.findElement selector s) as [s1 [n | e]];
      eexists; eexists; reflexivity.
  - destruct (ContentScript.findElement selector s) as [s1 [n | e]];
      eexists; eexists; reflexivity.
Qed.

Lemma allPass_total (checks : list Stated.Check) (s : State W) :
  exists s' b, Stated.allPass checks s = (s', Ok b).
Proof.
  revert s. induction checks as [| k rest IH]; intros s; simpl.
  - eexists; eexists; reflexivity.
  - unfold bind. destruct (passes_total k s) as (s1 & b & ->).
    destruct b; [apply IH | eexists; eexists; reflexivity].
Qed.

Lemma allPass_app (pre post : list Stated.Check) (s : State W) :
  Stated.allPass (pre ++ post) s
  = match Stated.allPass pre s with
    | (s1, Ok true) => Stated.allPass post s1
    | other => other
    end.
Proof.
  revert s. induction pre as [| k pre IH]; intros s; simpl.
  - reflexivity.
  - unfold bind. destruct (passes_total k s) as (s1 & b & ->).
    destruct b; [apply IH | reflexivity].
Qed.

Lemma allPass_first_failure (pre post : list Stated.Check) (k : Stated.Check)
    (s s1 s2 : State W) :
  Stated.allPass pre s = (s1, Ok true) ->
  Stated.passes k s1 = (s2, Ok false) ->
  Stated.allPass (pre ++ k :: post) s = (s2, Ok false).
Proof.
  intros Hpre Hk. rewrite allPass_app, Hpre. simpl. unfold bind. now rewrite Hk.
Qed.

Lemma allPass_false_inv (checks : list Stated.Check) (s s' : State W) :
  Stated.allPass checks s = (s', Ok false) ->
  exists pre k post s1,
    checks = pre ++ k :: post
    /\ Stated.allPass pre s = (s1, Ok true)
    /\ Stated.passes k s1 = (s', Ok false).
Proof.
  revert s. induction checks as [| k rest IH]; intros s Hall; simpl in Hall.
  - discriminate.
  - unfold bind in Hall. destruct (passes_total k s) as (s1 & b & Hk).
    rewrite Hk in Hall. destruct b.
    + destruct (IH s1 Hall) as (pre & k' & post & s2 & -> & Hpre & Hk').
      exists (k :: pre), k', post, s2. split; [reflexivity | split; [| exact Hk']].
      simpl. unfold bind. now rewrite Hk.
    + injection Hall as <-. exists [], k, rest, s.
      split; [reflexivity | split; [reflexivity | exact Hk]].
Qed.

Lemma checkGoalProgress_allPass (entries : list (string * float)) (s : State W) :
  ContentScript.checkGoalProgress entries s
  = Stated.allPass
      (map (fun kv : string * float => Stated.MetricReached kv.1 kv.2) entries) s.
Proof.
  revert s. induction entries as [| [metric threshold] rest IH]; intros s; simpl.
  - reflexivity.
  - unfold bind, ContentScript.getMetric, ret. simpl.
    destruct (PrimFloat.ltb _ threshold); simpl; [reflexivity | apply IH].
Qed.

(** The source of [checkActionConditions] against the ordered list. *)
Lemma checkActionConditions_allPass (c : Conditions) (s : State W) :
  ContentScript.checkActionConditions c s = Stated.allPass (Stated.checksInOrder c) s.
Proof.
  destruct c as [cmin cmax cex cnot cgoal].
  unfold ContentScript.checkActionConditions, Stated.checksInOrder,
    Stated.timeChecks, Stated.laterChecks. simpl.
  unfold tryCatch at 1.
  assert (Hgoal : forall s0,
    match
      match cgoal with
      | Some entries => ContentScript.checkGoalProgress entries
      | None => ret true
      end s0
    with
    | (s', Ok a) => (s', Ok a)
    | (s', Throw e) => ret false s'
    end
    = Stated.allPass
        match cgoal with
        | Some entries =>
            map (fun kv : string * float => Stated.MetricReached kv.1 kv.2) entries
        | None => []
        end s0).
  { intros s0. destruct cgoal as [entries |]; [| reflexivity].
    rewrite checkGoalProgress_allPass.
    destruct (allPass_total
                (map (fun kv : string * float => Stated.MetricReached kv.1 kv.2) entries)
                s0) as (s' & b & ->). reflexivity. }
  destruct cmin as [min |]; [destruct (JS.truthy min) |];
  destruct cmax as [max |]; try destruct (JS.truthy max);
  destruct cex as [ex |]; try destruct (JS.truthyStr ex);
  destruct cnot as [nx |]; try destruct (JS.truthyStr nx);
  simpl; unfold bind, ret, tryCatch, ContentScript.getTimeOnCurrentPage; simpl;
  repeat match goal with
  | |- context [PrimFloat.ltb ?a ?b] => destruct (PrimFloat.ltb a b); simpl
  | |- context [ContentScript.findElement ?sel ?st] =>
      destruct (ContentScript.findElement sel st) as [? [? | ?]]; simpl
  end;
  try reflexivity; try apply Hgoal.
Qed.

End ConditionFacts.

(** C4.  The conditions of an action are evaluated in the order
    time-on-page bounds, required element, element that must be absent,
    goal-progress thresholds: [checkActionConditions] is the evaluation of
    that ordered list.  The evaluation always answers; the first failing
    check ends it with [false] in the state that check left, whatever the
    later checks are; and the answer is [false] only when some check of
    the list fails after all the earlier ones have passed, so the action
    is eligible iff no check fails. *)
Theorem conditions_evaluated_in_order {W : Type} `{Platform W}
    (c : Conditions) (s : State W) :
  ContentScript.checkActionConditions c s = Stated.allPass (Stated.checksInOrder c) s
  /\ (exists s' b, ContentScript.checkActionConditions c s = (s', Ok b))
  /\ (forall pre k post s1 s2,
         Stated.checksInOrder c = pre ++ k :: post ->
         Stated.allPass pre s = (s1, Ok true) ->
         Stated.passes k s1 = (s2, Ok false) ->
         ContentScript.checkActionConditions c s = (s2, Ok false))
  /\ (forall s',
         ContentScript.checkActionConditions c s = (s', Ok false) ->
         exists pre k post s1,
           Stated.checksInOrder c = pre ++ k :: post
           /\ Stated.allPass pre s = (s1, Ok true)
           /\ Stated.passes k s1 = (s', Ok false)).
Proof.
  split; [apply checkActionConditions_allPass | split; [| split]].
  - rewrite checkActionConditions_allPass. apply allPass_total.
  - intros pre k post s1 s2 Hsplit Hpre Hk.
    rewrite checkActionConditions_allPass, Hsplit.
    now apply allPass_first_failure with (s1 := s1).
  - intros s' Hfalse. rewrite checkActionConditions_allPass in Hfalse.
    now apply allPass_false_inv.
Qed.

Lemma conditions_evaluated_in_order_witness :
  ContentScript.checkActionConditions
    (mkConditions (Some 5%float) None (Some "li") None None) Scripted.threeSecondsIn
  = (Scripted.threeSecondsIn, Ok false).
Proof.
  refine (proj1 (proj2 (proj2 (conditions_evaluated_in_order
            (mkConditions (Some 5%float) None (Some "li") None None)
            Scripted.threeSecondsIn)))
          [] (Stated.AtLeastOnPage 5) [Stated.ElementPresent "li"]
          Scripted.threeSecondsIn Scripted.threeSecondsIn _ _ _).
  - reflexivity.
  - reflexivity.
  - vm_compute. reflexivity.
Defined.

Lemma allPass_timeChecks {W : Type} `{Platform W} (c : Conditions) (s : State W) :
  Stated.allPass (Stated.timeChecks c) s
  = (s, Ok (negb (Stated.outsideSeconds c (Stated.timeOnPage s)))).
Proof.
  destruct c as [cmin cmax cex cnot cgoal].
  unfold Stated.timeChecks, Stated.outsideSeconds, Stated.timeOnPage. simpl.
  destruct cmin as [min |]; [destruct (JS.truthy min) |];
  destruct cmax as [max |]; try destruct (JS.truthy max);
  simpl; unfold bind, ret, ContentScript.getTimeOnCurrentPage; simpl;
  repeat match goal with
  | |- context [PrimFloat.ltb ?a ?b] => destruct (PrimFloat.ltb a b); simpl
  end;
  reflexivity.
Qed.

(** C5, amended.  The values of [minTimeOnPage] and [maxTimeOnPage] are
    interpreted as seconds: the time-on-page check fails exactly when the
    tracked time on the current page, in milliseconds, is below a non-zero
    [minTimeOnPage] times 1000 or above a non-zero [maxTimeOnPage] times
    1000; otherwise the answer is that of the remaining conditions. *)
Theorem time_bounds_are_seconds {W : Type} `{Platform W}
    (c : Conditions) (s : State W) :
  ContentScript.checkActionConditions c s
  = if Stated.outsideSeconds c (Stated.timeOnPage s) then (s, Ok false)
    else ContentScript.checkActionConditions (Stated.withoutTimeBounds c) s.
Proof.
  rewrite !checkActionConditions_allPass.
  unfold Stated.checksInOrder at 1. rewrite allPass_app, allPass_timeChecks.
  destruct (Stated.outsideSeconds c (Stated.timeOnPage s)); reflexivity.
Qed.

(** C5 as stated fails.  With [minTimeOnPage = 5] and 3000 ms spent on the
    page, the time is not below 5 ms, yet the check fails: the code
    compares 3000 with 5 * 1000. *)
Lemma time_bounds_not_milliseconds :
  Stated.timeOnPage Scripted.threeSecondsIn = 3000%float
  /\ Stated.outsideMillis Scripted.afterFiveSeconds
       (Stated.timeOnPage Scripted.threeSecondsIn) = false
  /\ ContentScript.checkActionConditions Scripted.afterFiveSeconds Scripted.threeSecondsIn
     = (Scripted.threeSecondsIn, Ok false).
Proof.
  vm_compute. repeat split; reflexivity.
Qed.

(** ** What the engine leaves alone *)

(** The lemmas of this part hold for every robust property of the state:
    one that survives a change of the world, of the finder, of the flags,
    of the session, of the current page and its arrival time, a sent
    message and the clearing of the execution timer.  The accumulated
    metrics being a given map is robust, and so is the absence of pending
    timers. *)

Section Preservation.
Context {W : Type} `{Platform W} (P : State W -> Prop) `{!Invariant.Robust P}.

Lemma preserves_ret {A : Type} (a : A) : Invariant.preserves P (ret a).
Proof. intros s s' r HP [= <- _]. exact HP. Qed.

Lemma preserves_throw {A : Type} (e : Error) : Invariant.preserves P (throw (A := A) e).
Proof. intros s s' r HP [= <- _]. exact HP. Qed.

Lemma preserves_get : Invariant.preserves P get.
Proof. intros s s' r HP [= <- _]. exact HP. Qed.

Lemma preserves_modify (f : State W -> State W) :
  (forall s, P s -> P (f s)) -> Invariant.preserves P (modify f).
Proof. intros Hf s s' r HP [= <- _]. now apply Hf. Qed.

Lemma preserves_bind {A B : Type} (m : M W A) (k : A -> M W B) :
  Invariant.preserves P m -> (forall a, Invariant.preserves P (k a)) ->
  Invariant.preserves P (bind m k).
Proof.
  intros Hm Hk s s' r HP Hrun. unfold bind in Hrun.
  destruct (m s) as [s1 [a | e]] eqn:Hms.
  - exact (Hk a s1 s' r (Hm s s1 (Ok a) HP Hms) Hrun).
  - injection Hrun as <- _. exact (Hm s s1 (Throw e) HP Hms).
Qed.

Lemma preserves_tryCatch {A : Type} (m : M W A) (h : Error -> M W A) :
  Invariant.preserves P m -> (forall e, Invariant.preserves P (h e)) ->
  Invariant.preserves P (tryCatch m h).
Proof.
  intros Hm Hh s s' r HP Hrun. unfold tryCatch in Hrun.
  destruct (m s) as [s1 [a | e]] eqn:Hms.
  - injection Hrun as <- _. exact (Hm s s1 (Ok a) HP Hms).
  - exact (Hh e s1 s' r (Hm s s1 (Throw e) HP Hms) Hrun).
Qed.

Lemma preserves_fst {A : Type} (m : M W A) (s : State W) :
  Invariant.preserves P m -> P s -> P (fst (m s)).
Proof.
  intros Hm HP. destruct (m s) as [s1 r] eqn:Hrun. exact (Hm s s1 r HP Hrun).
Qed.

Lemma preserves_random : Invariant.preserves P random.
Proof.
  intros s s' r HP. unfold random. destruct (nextRandom (world s)).
  intros [= <- _]. now apply Invariant.robust_world.
Qed.

Lemma preserves_queryAll (selector : string) : Invariant.preserves P (queryAll selector).
Proof.
  intros s s' r HP. unfold queryAll.
  destruct (querySelectorAll _ _); intros [= <- _]; exact HP.
Qed.

Lemma preserves_theWindow : Invariant.preserves P theWindow.
Proof. intros s s' r HP [= <- _]. exact HP. Qed.

Lemma preserves_sendMessage (m : Message) : Invariant.preserves P (sendMessage m).
Proof. apply preserves_modify. intros s. apply Invariant.robust_send. Qed.

Lemma preserves_selectCurrent : Invariant.preserves P ElementFinder.selectCurrent.
Proof. intros s s' r HP [= <- _]. exact HP. Qed.

Lemma preserves_isElementValid (n : Node) :
  Invariant.preserves P (ElementFinder.isElementValid n).
Proof.
  destruct n; simpl; [| apply preserves_throw].
  intros s s' r HP [= <- _]. exact HP.
Qed.

Lemma preserves_orNext (strategy next : M W (option Node)) :
  Invariant.preserves P strategy -> Invariant.preserves P next ->
  Invariant.preserves P (ElementFinder.orNext strategy next).
Proof.
  intros Hs Hn s s' r HP Hrun. unfold ElementFinder.orNext in Hrun.
  destruct (strategy s) as [s1 res] eqn:Hst.
  pose proof (Hs s s1 res HP Hst) as HP1.
  destruct res as [[e |] | err].
  - injection Hrun as <- _. exact HP1.
  - exact (Hn s1 s' r HP1 Hrun).
  - exact (Hn s1 s' r HP1 Hrun).
Qed.

Lemma preserves_detectCurrentPage : Invariant.preserves P ContentScript.detectCurrentPage.
Proof.
  intros s s' r HP. unfold ContentScript.detectCurrentPage.
  destruct (detectPage _ _) as [[pg |] |]; intros [= <- _].
  - apply (Invariant.robust_arrival (pageType pg) _ (setCurrentPage (Some pg) s)).
    now apply Invariant.robust_page.
  - now apply Invariant.robust_page.
  - exact HP.
Qed.

Lemma preserves_getTimeOnCurrentPage :
  Invariant.preserves P ContentScript.getTimeOnCurrentPage.
Proof. intros s s' r HP [= <- _]. exact HP. Qed.

Lemma preserves_getMetric (m : string) : Invariant.preserves P (ContentScript.getMetric m).
Proof. intros s s' r HP [= <- _]. exact HP. Qed.

End Preservation.

Create HintDb preserves.
#[local] Hint Resolve preserves_ret preserves_throw preserves_get preserves_random
  preserves_queryAll preserves_theWindow preserves_sendMessage
  preserves_selectCurrent preserves_isElementValid preserves_detectCurrentPage
  preserves_getTimeOnCurrentPage preserves_getMetric : preserves.

(** A state update of the engine keeps a robust property. *)
Ltac robust_update :=
  intros;
  unfold ElementFinder.cacheSet, ElementFinder.cacheDelete, ElementFinder.setLastFound;
  first
    [ apply Invariant.robust_finder | apply Invariant.robust_send
    | apply Invariant.robust_flags | apply Invariant.robust_session
    | apply Invariant.robust_clear | apply Invariant.robust_world
    | apply Invariant.robust_page ];
  assumption.

(** One step through the structure of a computation. *)
Ltac preserves_step :=
  match goal with
  | |- Invariant.preserves _ (bind _ _) => apply preserves_bind; [| intros ?]
  | |- Invariant.preserves _ (tryCatch _ _) => apply preserves_tryCatch; [| intros ?]
  | |- Invariant.preserves _ (modify _) => apply preserves_modify; robust_update
  | |- Invariant.preserves _ (match ?x with _ => _ end) => destruct x
  | |- Invariant.preserves _ (if ?b then _ else _) => destruct b
  | |- Invariant.preserves _ _ => solve [auto with preserves]
  end.

Ltac preserves_auto := repeat preserves_step.

Section PreservedByTheEngine.
Context {W : Type} `{Platform W} (P : State W -> Prop) `{!Invariant.Robust P}.

Lemma preserves_queryFirst (selector : string) :
  Invariant.preserves P (queryFirst selector).
Proof. unfold queryFirst. preserves_auto. Qed.

Lemma preserves_selectRandom (l : list Element) :
  Invariant.preserves P (ElementFinder.selectRandom l).
Proof. unfold ElementFinder.selectRandom. preserves_auto. Qed.

Hint Resolve preserves_queryFirst preserves_selectRandom : preserves.

Lemma preserves_callAlias (a : ElementFinder.Alias) :
  Invariant.preserves P (ElementFinder.callAlias a).
Proof. destruct a; simpl; preserves_auto. Qed.

Lemma preserves_handleSpecialSelectors (selector : string) :
  Invariant.preserves P (ElementFinder.handleSpecialSelectors selector).
Proof. unfold ElementFinder.handleSpecialSelectors. preserves_auto. Qed.

Hint Resolve preserves_callAlias preserves_handleSpecialSelectors : preserves.

Lemma preserves_findByDirectSelector (selector : string) :
  Invariant.preserves P (ElementFinder.findByDirectSelector selector).
Proof. unfold ElementFinder.findByDirectSelector. preserves_auto. Qed.

Lemma preserves_firstOfSelectors (l : list string) :
  Invariant.preserves P (ElementFinder.firstOfSelectors l).
Proof. induction l as [| x l IH]; simpl; preserves_auto. Qed.

Hint Resolve preserves_findByDirectSelector preserves_firstOfSelectors : preserves.

Lemma preserves_findByFallbackSelectors (selector : string) :
  Invariant.preserves P (ElementFinder.findByFallbackSelectors selector).
Proof. unfold ElementFinder.findByFallbackSelectors. preserves_auto. Qed.

Lemma preserves_findByTextContent (selector : string) :
  Invariant.preserves P (ElementFinder.findByTextContent selector).
Proof. unfold ElementFinder.findByTextContent. preserves_auto. Qed.

Lemma preserves_findByAttributes (selector : string) :
  Invariant.preserves P (ElementFinder.findByAttributes selector).
Proof. unfold ElementFinder.findByAttributes. preserves_auto. Qed.

Lemma preserves_findByPosition (selector : string) :
  Invariant.preserves P (ElementFinder.findByPosition selector).
Proof. unfold ElementFinder.findByPosition. preserves_auto. Qed.

Hint Resolve preserves_findByFallbackSelectors preserves_findByTextContent
  preserves_findByAttributes preserves_findByPosition : preserves.

Lemma preserves_findElementBySelector (selector : string) :
  Invariant.preserves P (ElementFinder.findElementBySelector selector).
Proof.
  unfold ElementFinder.findElementBySelector, ElementFinder.strategies. simpl.
  repeat (apply preserves_orNext; [auto with preserves |]). auto with preserves.
Qed.

Lemma preserves_processSelector (selector : string) (gs : option SelectorSet) :
  Invariant.preserves P (ElementFinder.processSelector selector gs).
Proof. unfold ElementFinder.processSelector. preserves_auto. Qed.

Hint Resolve preserves_findElementBySelector preserves_processSelector : preserves.

Lemma preserves_cachedElement (k : string) :
  Invariant.preserves P (ElementFinder.cachedElement k).
Proof. unfold ElementFinder.cachedElement. preserves_auto. Qed.

Hint Resolve preserves_cachedElement : preserves.

Lemma preserves_finder_findElement (selector : string) (gs : option SelectorSet)
    (useCache : bool) :
  Invariant.preserves P (ElementFinder.findElement selector gs useCache).
Proof. unfold ElementFinder.findElement. preserves_auto. Qed.

Hint Resolve preserves_finder_findElement : preserves.

Lemma preserves_logAction (t : string) : Invariant.preserves P (ContentScript.logAction t).
Proof. unfold ContentScript.logAction. auto with preserves. Qed.

Lemma preserves_logError (t : string) (e : Error) :
  Invariant.preserves P (ContentScript.logError t e).
Proof. unfold ContentScript.logError. auto with preserves. Qed.

Lemma preserves_takeScreenshot (f : option string) :
  Invariant.preserves P (ContentScript.takeScreenshot f).
Proof. unfold ContentScript.takeScreenshot. auto with preserves. Qed.

Hint Resolve preserves_logAction preserves_logError preserves_takeScreenshot : preserves.

Lemma preserves_stopAutomation : Invariant.preserves P ContentScript.stopAutomation.
Proof. unfold ContentScript.stopAutomation. preserves_auto. Qed.

Lemma preserves_pauseAutomation : Invariant.preserves P ContentScript.pauseAutomation.
Proof. unfold ContentScript.pauseAutomation. preserves_auto. Qed.

Lemma deliver_preserves (cmds : list Command) (s : State W) :
  P s -> P (ContentScript.deliver cmds s).
Proof.
  unfold ContentScript.deliver. revert s.
  induction cmds as [| c cmds IH]; intros s HP; cbn [fold_left]; [exact HP |].
  apply IH. destruct c; cbn [ContentScript.handleCommand]; apply preserves_fst;
    try assumption.
  - apply preserves_pauseAutomation.
  - apply preserves_stopAutomation.
Qed.

Lemma preserves_await (call : ExecutorCall) : Invariant.preserves P (ContentScript.await call).
Proof.
  intros s s' r HP. unfold ContentScript.await.
  destruct (raised _); intros [= <- _];
    apply deliver_preserves; now apply Invariant.robust_world.
Qed.

Lemma preserves_wait (ms : float) : Invariant.preserves P (ContentScript.wait ms).
Proof.
  intros s s' r HP. unfold ContentScript.wait.
  destruct (sleep ms (world s)). intros [= <- _].
  apply deliver_preserves. now apply Invariant.robust_world.
Qed.

Hint Resolve preserves_await preserves_wait preserves_stopAutomation
  preserves_pauseAutomation : preserves.

Lemma preserves_findElement (selector : string) :
  Invariant.preserves P (ContentScript.findElement selector).
Proof. unfold ContentScript.findElement. preserves_auto. Qed.

Hint Resolve preserves_findElement : preserves.

Lemma preserves_verifyElement (selector : string) (b : bool) :
  Invariant.preserves P (ContentScript.verifyElement selector b).
Proof. unfold ContentScript.verifyElement. preserves_auto. Qed.

Hint Resolve preserves_verifyElement : preserves.

Lemma preserves_executeMicroAction (m : MicroAction) :
  Invariant.preserves P (ContentScript.executeMicroAction m).
Proof. destruct m; simpl; preserves_auto. Qed.

Hint Resolve preserves_executeMicroAction : preserves.

Lemma preserves_executeActionSequence (l : list MicroAction) :
  Invariant.preserves P (ContentScript.executeActionSequence l).
Proof. induction l as [| m l IH]; simpl; preserves_auto. Qed.

Hint Resolve preserves_executeActionSequence : preserves.

Lemma preserves_checkGoalProgress (entries : list (string * float)) :
  Invariant.preserves P (ContentScript.checkGoalProgress entries).
Proof. induction entries as [| [m t] rest IH]; simpl; preserves_auto. Qed.

Hint Resolve preserves_checkGoalProgress : preserves.

Lemma preserves_checkActionConditions (c : Conditions) :
  Invariant.preserves P (ContentScript.checkActionConditions c).
Proof. unfold ContentScript.checkActionConditions. preserves_auto. Qed.

Lemma preserves_pollPage (n : nat) (start : float) (target : string) :
  Invariant.preserves P (ContentScript.pollPage n start target).
Proof. induction n as [| n IH]; simpl; preserves_auto. Qed.

Hint Resolve preserves_checkActionConditions preserves_pollPage : preserves.

Lemma preserves_handlePageTransition (target : string) :
  Invariant.preserves P (ContentScript.handlePageTransition target).
Proof. unfold ContentScript.handlePageTransition. preserves_auto. Qed.

Lemma preserves_validActionsOf (l : list Action) :
  Invariant.preserves P (ContentScript.validActionsOf l).
Proof. induction l as [| a l IH]; simpl; preserves_auto. Qed.

Hint Resolve preserves_handlePageTransition preserves_validActionsOf : preserves.

Lemma preserves_selectAction (l : list Action) :
  Invariant.preserves P (ContentScript.selectAction l).
Proof. unfold ContentScript.selectAction. preserves_auto. Qed.

Lemma preserves_completeSession : Invariant.preserves P ContentScript.completeSession.
Proof. unfold ContentScript.completeSession. preserves_auto. Qed.

Lemma preserves_timeoutSession : Invariant.preserves P ContentScript.timeoutSession.
Proof. unfold ContentScript.timeoutSession. preserves_auto. Qed.

Hint Resolve preserves_selectAction preserves_completeSession
  preserves_timeoutSession : preserves.

Lemma preserves_handleStuckScenario :
  Invariant.preserves P ContentScript.handleStuckScenario.
Proof. unfold ContentScript.handleStuckScenario. preserves_auto. Qed.

Hint Resolve preserves_handleStuckScenario : preserves.

Lemma preserves_handleNoActionsAvailable :
  Invariant.preserves P ContentScript.handleNoActionsAvailable.
Proof. unfold ContentScript.handleNoActionsAvailable. preserves_auto. Qed.

Lemma preserves_handlePageConfigError :
  Invariant.preserves P ContentScript.handlePageConfigError.
Proof. unfold ContentScript.handlePageConfigError. preserves_auto. Qed.

End PreservedByTheEngine.

#[local] Hint Resolve preserves_logAction preserves_logError
  preserves_checkActionConditions preserves_executeActionSequence
  preserves_handlePageTransition : preserves.

(** The two robust properties. *)

#[local] Instance metricsAre_robust {W : Type} `{Platform W} (mt : gmap string float) :
  Invariant.Robust (W := W) (Invariant.metricsAre mt).
Proof.
  split; intros; try assumption.
  unfold Invariant.metricsAre, ContentScript.clearExecutionTimer in *.
  now destruct (executionTimer s).
Qed.

#[local] Instance noTimers_robust {W : Type} `{Platform W} :
  Invariant.Robust (W := W) Invariant.noTimers.
Proof.
  split; intros; try assumption.
  unfold Invariant.noTimers, ContentScript.clearExecutionTimer in *.
  destruct (executionTimer s); [| assumption]. simpl.
  match goal with Hp : pendingTimers s = [] |- _ => now rewrite Hp end.
Qed.

Section Metrics.
Context {W : Type} `{Platform W}.

Lemma keeps_of_preserves {A : Type} (m : M W A) :
  (forall mt, Invariant.preserves (Invariant.metricsAre mt) m) -> Invariant.keeps m.
Proof.
  intros Hm s s' r Hrun.
  exact (Hm (metrics (tracker s)) s s' r eq_refl Hrun).
Qed.

Lemma keeps_checkActionConditions (c : Conditions) :
  Invariant.keeps (W := W) (ContentScript.checkActionConditions c).
Proof.
  apply keeps_of_preserves. intros mt.
  apply preserves_checkActionConditions. apply metricsAre_robust.
Qed.

Lemma keeps_executeActionSequence (l : list MicroAction) :
  Invariant.keeps (W := W) (ContentScript.executeActionSequence l).
Proof.
  apply keeps_of_preserves. intros mt.
  apply preserves_executeActionSequence. apply metricsAre_robust.
Qed.

Lemma keeps_pollPage (n : nat) (start : float) (target : string) :
  Invariant.keeps (W := W) (ContentScript.pollPage n start target).
Proof.
  apply keeps_of_preserves. intros mt.
  apply preserves_pollPage. apply metricsAre_robust.
Qed.

Lemma keeps_ret {A : Type} (a : A) : Invariant.keeps (W := W) (ret a).
Proof. intros s s' r [= <- _]. reflexivity. Qed.

End Metrics.

(** ** Pause and the timers of the run loop *)

Section PauseFacts.
Context {W : Type} `{Platform W}.

Lemma clearTimeout_not_pending (id : nat) (pend : list (nat * float)) :
  ~ In id (map fst (ContentScript.clearTimeout id pend)).
Proof.
  unfold ContentScript.clearTimeout. intros Hin.
  apply in_map_iff in Hin as ([id' d] & Heq & Hin). simpl in Heq. subst id'.
  apply filter_In in Hin as [_ Hkeep]. simpl in Hkeep.
  now rewrite Nat.eqb_refl in Hkeep.
Qed.

Lemma clearTimeout_only (id : nat) (pend : list (nat * float)) :
  (forall t, In t pend -> t.1 = id) ->
  ContentScript.clearTimeout id pend = [].
Proof.
  unfold ContentScript.clearTimeout. induction pend as [| t pend IH]; intros Hall.
  - reflexivity.
  - simpl. rewrite (Hall t (or_introl eq_refl)), Nat.eqb_refl. simpl.
    apply IH. intros t' Hin. apply Hall. now right.
Qed.

Lemma executeScenario_blocked (s : State W) :
  Invariant.blocked s = true -> ContentScript.executeScenario s = (s, Ok tt).
Proof.
  unfold Invariant.blocked. intros Hb. unfold ContentScript.executeScenario, bind, get.
  now rewrite Hb.
Qed.

Lemma scheduleNextExecution_blocked (cfg : option PageConfig) (s : State W) :
  Invariant.blocked s = true -> ContentScript.scheduleNextExecution cfg s = (s, Ok tt).
Proof.
  unfold Invariant.blocked. intros Hb. unfold ContentScript.scheduleNextExecution, bind, get.
  now rewrite Hb.
Qed.

End PauseFacts.


Section TimerFacts.
Context {W : Type} `{Platform W}.

Lemma noTimers_holds (s : State W) : Invariant.noTimers s -> Invariant.holdsItsTimers s.
Proof. unfold Invariant.noTimers, Invariant.holdsItsTimers. intros -> t []. Qed.

Lemma preserves_updateMetrics (deltas : list (string * float)) :
  Invariant.preserves (W := W) Invariant.noTimers (ContentScript.updateMetrics deltas).
Proof. intros s s' r HP [= <- _]. exact HP. Qed.

Hint Resolve preserves_updateMetrics : preserves.

Lemma preserves_executeSelectedAction (action : Action) :
  Invariant.preserves (W := W) Invariant.noTimers (ContentScript.executeSelectedAction action).
Proof.
  pose proof (@noTimers_robust W _) as Hrobust.
  unfold ContentScript.executeSelectedAction. preserves_auto.
Qed.

Lemma scheduleNextExecution_afterTick (cfg : option PageConfig) (s s' : State W)
    (r : Result unit) :
  Invariant.noTimers s ->
  ContentScript.scheduleNextExecution cfg s = (s', r) ->
  Invariant.afterTick r s'.
Proof.
  intros Hno. unfold ContentScript.scheduleNextExecution, bind, get.
  destruct (negb (isRunning s) || isPaused s).
  - intros [= <- <-]. now apply noTimers_holds.
  - destruct cfg as [cfg |].
    + unfold random. destruct (nextRandom (world s)) as [rnd w].
      unfold modify. intros [= <- <-]. simpl.
      unfold Invariant.holdsItsTimers, ContentScript.setExecutionTimer. simpl.
      unfold Invariant.noTimers in Hno. rewrite Hno. simpl.
      intros t [<- | []]. reflexivity.
    + intros [= <- <-]. exact Hno.
Qed.

Lemma executePageActions_afterTick (cfg : PageConfig) (s s' : State W)
    (r : Result unit) :
  Invariant.noTimers s ->
  ContentScript.executePageActions cfg s = (s', r) ->
  Invariant.afterTick r s'.
Proof.
  pose proof (@noTimers_robust W _) as Hrobust.
  intros Hno. unfold ContentScript.executePageActions. unfold bind at 1.
  destruct (match entryActions cfg with
            | Some sequence => ContentScript.executeActionSequence sequence
            | None => ret tt
            end s) as [s1 [[] | e]] eqn:Hentry.
  - assert (Hno1 : Invariant.noTimers s1).
    { destruct (entryActions cfg) as [sequence |].
      - exact (preserves_executeActionSequence Invariant.noTimers sequence s s1 _ Hno Hentry).
      - now injection Hentry as <-. }
    destruct (ContentScript.getAvailableActions cfg) as [| a l].
    + intros Hstuck.
      pose proof (preserves_handleNoActionsAvailable Invariant.noTimers s1 s' r Hno1 Hstuck)
        as Hno'.
      destruct r; [now apply noTimers_holds | exact Hno'].
    + unfold bind at 1.
      destruct (ContentScript.selectAction (a :: l) s1) as [s2 [selected | e]] eqn:Hsel.
      * pose proof (preserves_selectAction Invariant.noTimers (a :: l) s1 s2 _ Hno1 Hsel)
          as Hno2.
        unfold bind at 1.
        destruct (match selected with
                  | Some action => ContentScript.executeSelectedAction action
                  | None => ret tt
                  end s2) as [s3 [[] | e]] eqn:Hexec.
        -- assert (Hno3 : Invariant.noTimers s3).
           { destruct selected as [action |].
             - exact (preserves_executeSelectedAction action s2 s3 _ Hno2 Hexec).
             - now injection Hexec as <-. }
           now apply scheduleNextExecution_afterTick.
        -- intros [= <- <-]. simpl.
           destruct selected as [action |]; [| discriminate].
           exact (preserves_executeSelectedAction action s2 s3 _ Hno2 Hexec).
      * intros [= <- <-]. simpl.
        exact (preserves_selectAction Invariant.noTimers (a :: l) s1 s2 _ Hno1 Hsel).
  - intros [= <- <-]. simpl.
    destruct (entryActions cfg) as [sequence |]; [| discriminate].
    exact (preserves_executeActionSequence Invariant.noTimers sequence s s1 _ Hno Hentry).
Qed.

Lemma executeScenarioBody_afterTick (s s' : State W) (r : Result unit) :
  Invariant.noTimers s ->
  ContentScript.executeScenarioBody s = (s', r) ->
  Invariant.afterTick r s'.
Proof.
  pose proof (@noTimers_robust W _) as Hrobust.
  intros Hno. unfold ContentScript.executeScenarioBody, bind, get.
  assert (Hweak : forall m : M W unit,
             Invariant.preserves Invariant.noTimers m -> m s = (s', r) -> Invariant.afterTick r s').
  { intros m Hm Hrun. pose proof (Hm s s' r Hno Hrun) as Hno'.
    destruct r; [now apply noTimers_holds | exact Hno']. }
  destruct (ProgressTracker.areGoalsMet (tracker s)).
  - apply Hweak. now apply preserves_completeSession.
  - destruct (ProgressTracker.isSessionTimedOut _ _ _).
    + apply Hweak. now apply preserves_timeoutSession.
    + destruct (ContentScript.getPageConfiguration s) as [cfg |].
      * now apply executePageActions_afterTick.
      * apply Hweak. now apply preserves_handlePageConfigError.
Qed.

(** A tick that starts with no timer pending ends with at most the timer
    it has scheduled, and the session holds it. *)
Lemma executeScenario_holds_its_timers (s s' : State W) (r : Result unit) :
  Invariant.noTimers s ->
  ContentScript.executeScenario s = (s', r) ->
  Invariant.holdsItsTimers s'.
Proof.
  pose proof (@noTimers_robust W _) as Hrobust.
  intros Hno. unfold ContentScript.executeScenario, bind, get.
  destruct (negb (isRunning s) || isPaused s).
  - intros [= <- _]. now apply noTimers_holds.
  - unfold tryCatch.
    destruct (ContentScript.executeScenarioBody s) as [s1 [[] | e]] eqn:Hbody.
    + intros [= <- _]. exact (executeScenarioBody_afterTick s s1 _ Hno Hbody).
    + pose proof (executeScenarioBody_afterTick s s1 _ Hno Hbody) as Hno1.
      simpl in Hno1.
      unfold ContentScript.handleExecutionError. unfold bind at 1.
      unfold ContentScript.logError, sendMessage, modify.
      destruct (ContentScript.shouldAbortOnError e).
      * intros Hstop. apply noTimers_holds.
        refine (preserves_bind Invariant.noTimers ContentScript.stopAutomation
                  (fun _ => ret tt) _ _ _ s' r _ Hstop).
        -- now apply preserves_stopAutomation.
        -- intros _. apply preserves_ret.
        -- exact Hno1.
      * unfold bind, get. intros Hschedule.
        pose proof (scheduleNextExecution_afterTick _
                      (send (LogError "execution_error" (message e)) s1) s' r
                      Hno1 Hschedule) as Hafter.
        destruct r; [exact Hafter | now apply noTimers_holds].
Qed.

(** The timer the session holds is the only one pending across the ticks
    that its timers start, and a pause leaves none pending. *)
Lemma timerFires_holds_its_timers (id : nat) (s s' : State W) (r : Result unit) :
  Invariant.holdsItsTimers s ->
  ContentScript.timerFires id s = (s', r) ->
  Invariant.holdsItsTimers s'.
Proof.
  intros Hholds. unfold ContentScript.timerFires, bind, get.
  destruct (existsb _ (pendingTimers s)) eqn:Hpending.
  - unfold modify. apply executeScenario_holds_its_timers.
    unfold Invariant.noTimers. simpl.
    apply existsb_exists in Hpending as (t & Hin & Hid).
    apply Nat.eqb_eq in Hid.
    apply clearTimeout_only. intros t' Hin'.
    pose proof (Hholds t Hin) as Ht. pose proof (Hholds t' Hin') as Ht'.
    rewrite Ht in Ht'. injection Ht' as Heq. now rewrite <- Heq.
  - intros [= <- _]. exact Hholds.
Qed.




End TimerFacts.




Example pause_clears_pending_timer :
  pendingTimers
    (fst (ContentScript.pauseAutomation
            (mkState true false (Some "session-1") (Some Scripted.noGoals) None None
               (Some 1) (mkFinder ∅ None) Scripted.emptyTracker [(1, 3000%float)] 1 []
               (Scripted.mkWorld 0 [] [] [] None 0))))
  = [].
Proof. reflexivity. Qed.

(** ** Errors of a micro-action sequence *)

Section ErrorFacts.
Context {W : Type} `{Platform W}.

Lemma shouldAbortOnError_iff (e : Error) :
  ContentScript.shouldAbortOnError e = true
  <-> exists m fatal,
        message e = Some m
        /\ In fatal ContentScript.fatalErrors
        /\ JS.includes (lowerCase m) fatal = true.
Proof.
  unfold ContentScript.shouldAbortOnError. rewrite existsb_exists. split.
  - intros (fatal & Hin & Hinc). destruct (message e) as [m |]; [| discriminate].
    now exists m, fatal.
  - intros (m & fatal & Hm & Hin & Hinc). exists fatal. now rewrite Hm.
Qed.

Lemma executeActionSequence_step_error (microAction : MicroAction)
    (rest : list MicroAction) (s s1 : State W) (e : Error) :
  isRunning s = true -> isPaused s = false ->
  ContentScript.executeMicroAction microAction s = (s1, Throw e) ->
  ContentScript.executeActionSequence (microAction :: rest) s
  = if ContentScript.shouldAbortOnError e then (s1, Throw e)
    else ContentScript.executeActionSequence rest
           (send (LogError "micro_action_failed" (message e)) s1).
Proof.
  intros Hrun Hpause Hstep. simpl. unfold bind at 1. unfold get.
  rewrite Hrun, Hpause. simpl. unfold bind, tryCatch. rewrite Hstep.
  destruct (ContentScript.shouldAbortOnError e); reflexivity.
Qed.

Lemma executeActionSequence_throws_fatal (sequence : list MicroAction)
    (s s' : State W) (e : Error) :
  ContentScript.executeActionSequence sequence s = (s', Throw e) ->
  ContentScript.shouldAbortOnError e = true.
Proof.
  revert s. induction sequence as [| m rest IH]; intros s Hrun; simpl in Hrun.
  - discriminate.
  - unfold bind at 1 in Hrun. unfold get in Hrun.
    destruct (negb (isRunning s) || isPaused s); [discriminate |].
    unfold bind, tryCatch in Hrun.
    destruct (ContentScript.executeMicroAction m s) as [s1 [[] | err]].
    + now apply (IH s1).
    + destruct (ContentScript.shouldAbortOnError err) eqn:Hfatal.
      * injection Hrun as _ <-. exact Hfatal.
      * now apply (IH _ Hrun).
Qed.

Lemma executeScenario_caught (s s1 : State W) (e : Error) :
  isRunning s = true -> isPaused s = false ->
  ContentScript.executeScenarioBody s = (s1, Throw e) ->
  ContentScript.executeScenario s = ContentScript.handleExecutionError e s1.
Proof.
  intros Hrun Hpause Hbody. unfold ContentScript.executeScenario, bind, get.
  rewrite Hrun, Hpause. simpl. unfold tryCatch. now rewrite Hbody.
Qed.

End ErrorFacts.

(** A tick on the one-page scenario: the action runs, the visit is
    counted and the next tick is scheduled; the tick after that finds the
    goal met and ends the session. *)
Example one_tick_counts_the_visit :
  let s1 := fst (ContentScript.executeScenario
                   (Scripted.started Scripted.visit Scripted.quiet)) in
  metrics (tracker s1) !! "visits" = Some 1%float
  /\ executionTimer s1 = Some 1
  /\ isRunning (fst (ContentScript.timerFires 1 s1)) = false.
Proof. vm_compute. repeat split; reflexivity. Qed.

(** A fatal error of the first wait stops the session within the tick. *)
Example fatal_error_stops_the_session :
  let s1 := fst (ContentScript.executeScenario
                   (Scripted.started Scripted.visit Scripted.offline)) in
  isRunning s1 = false
  /\ currentSession s1 = None
  /\ metrics (tracker s1) !! "visits" = None
  /\ pendingTimers s1 = [].
Proof. vm_compute. repeat split; reflexivity. Qed.

(** ** Impact of an action *)

Section ImpactFacts.
Context {W : Type} `{Platform W}.

Lemma conditionsMet_total (action : Action) (s : State W) :
  exists s' b, Stated.conditionsMet action s = (s', Ok b).
Proof.
  unfold Stated.conditionsMet. destruct (conditions action) as [c |].
  - rewrite checkActionConditions_allPass. apply allPass_total.
  - eexists; eexists; reflexivity.
Qed.

Lemma keeps_conditionsMet (action : Action) :
  Invariant.keeps (W := W) (Stated.conditionsMet action).
Proof.
  unfold Stated.conditionsMet. destruct (conditions action).
  - apply keeps_checkActionConditions.
  - apply keeps_ret.
Qed.

Lemma keeps_microSequenceRun (action : Action) :
  Invariant.keeps (W := W) (Stated.microSequenceRun action).
Proof.
  unfold Stated.microSequenceRun.
  destruct (microSequence action) as [[| m l] |];
    try apply keeps_ret. apply keeps_executeActionSequence.
Qed.

Lemma microSequenceRun_throws_fatal (action : Action) (s s' : State W) (e : Error) :
  Stated.microSequenceRun action s = (s', Throw e) ->
  ContentScript.shouldAbortOnError e = true.
Proof.
  unfold Stated.microSequenceRun.
  destruct (microSequence action) as [[| m l] |]; try discriminate.
  apply executeActionSequence_throws_fatal.
Qed.

Lemma pollPage_returns (n : nat) (start : float) (target : string) (s : State W) :
  exists s', ContentScript.pollPage n start target s = (s', Ok tt).
Proof.
  revert s. induction n as [| n IH]; intros s; simpl.
  - eexists; reflexivity.
  - unfold bind at 1. unfold get.
    destruct (PrimFloat.ltb _ 10000); [| eexists; reflexivity].
    unfold bind at 1. unfold ContentScript.wait.
    destruct (sleep 500 (world s)) as [w cmds].
    unfold bind. unfold ContentScript.detectCurrentPage.
    destruct (detectPage _ _) as [[pg |] |]; try apply IH.
    destruct (String.eqb (pageType pg) target); [eexists; reflexivity | apply IH].
Qed.

Lemma bind_ok {A B : Type} (m : M W A) (k : A -> M W B) (s s1 : State W) (a : A) :
  m s = (s1, Ok a) -> bind m k s = k a s1.
Proof. intros Hm. unfold bind. now rewrite Hm. Qed.

Lemma bind_throw {A B : Type} (m : M W A) (k : A -> M W B) (s s1 : State W)
    (e : Error) :
  m s = (s1, Throw e) -> bind m k s = (s1, Throw e).
Proof. intros Hm. unfold bind. now rewrite Hm. Qed.

(** After the impact: the transition wait, when one is expected, and the
    completion message; it returns and leaves the metrics alone. *)
Lemma after_impact_returns (action : Action) (s : State W) :
  exists s',
    (let* s0 := get in
     let* _ :=
       match ContentScript.expectsTransition action s0 with
       | Some target => ContentScript.handlePageTransition target
       | None => ret tt
       end in
     ContentScript.logAction "action_completed")%js s = (s', Ok tt)
    /\ metrics (tracker s') = metrics (tracker s).
Proof.
  unfold bind at 1. unfold get.
  destruct (ContentScript.expectsTransition action s) as [target |].
  - unfold bind. unfold ContentScript.handlePageTransition at 1.
    unfold bind, get.
    destruct (pollPage_returns 20 (clock (world s)) target s) as [s1 Hpoll].
    rewrite Hpoll. eexists. split; [reflexivity |]. simpl.
    exact (keeps_pollPage 20 (clock (world s)) target s s1 (Ok tt) Hpoll).
  - eexists. split; reflexivity.
Qed.

End ImpactFacts.

(** ** From a failing micro-action to the end of the session *)

Section FatalPath.
Context {W : Type} `{Platform W}.

(** What the run of the micro-sequence throws, [executeSelectedAction]
    reports and throws on. *)
Lemma executeSelectedAction_throws (action : Action) (s s1 s2 : State W) (e : Error) :
  Stated.conditionsMet action (send (LogAction "action_started") s) = (s1, Ok true) ->
  Stated.microSequenceRun action s1 = (s2, Throw e) ->
  ContentScript.executeSelectedAction action s
  = (send (LogError "action_execution_failed" (message e)) s2, Throw e).
Proof.
  intros Hmet Hseq.
  assert (Hexec : ContentScript.executeSelectedAction action s
    = match
        (let* met := Stated.conditionsMet action in
         if negb met then ret tt else
         let* _ := Stated.microSequenceRun action in
         let* _ :=
           match impact action with
           | Some deltas => ContentScript.updateMetrics deltas
           | None => ret tt
           end in
         let* st := get in
         let* _ :=
           match ContentScript.expectsTransition action st with
           | Some target => ContentScript.handlePageTransition target
           | None => ret tt
           end in
         ContentScript.logAction "action_completed")%js
          (send (LogAction "action_started") s)
      with
      | (s', Ok a) => (s', Ok a)
      | (s', Throw e) =>
          (send (LogError "action_execution_failed" (message e)) s', Throw e)
      end) by reflexivity.
  rewrite Hexec.
  rewrite (bind_ok _ _ _ s1 true Hmet). cbn [negb].
  now rewrite (bind_throw _ _ s1 s2 e Hseq).
Qed.

Lemma selectAction_of_nothing (s : State W) :
  ContentScript.selectAction [] s = (s, Ok None).
Proof. reflexivity. Qed.

Lemma executePageActions_throws (pageConfig : PageConfig) (action : Action)
    (s s0 s1 s2 : State W) (e : Error) :
  Stated.entryRun pageConfig s = (s0, Ok tt) ->
  ContentScript.selectAction (ContentScript.getAvailableActions pageConfig) s0
  = (s1, Ok (Some action)) ->
  ContentScript.executeSelectedAction action s1 = (s2, Throw e) ->
  ContentScript.executePageActions pageConfig s = (s2, Throw e).
Proof.
  intros Hentry Hselect Hrun. unfold ContentScript.executePageActions.
  change (match entryActions pageConfig with
          | Some sequence => ContentScript.executeActionSequence sequence
          | None => ret tt
          end) with (Stated.entryRun pageConfig).
  rewrite (bind_ok _ _ s s0 tt Hentry).
  destruct (ContentScript.getAvailableActions pageConfig) as [| first rest] eqn:Havailable.
  - rewrite selectAction_of_nothing in Hselect. discriminate.
  - rewrite (bind_ok _ _ s0 s1 (Some action) Hselect).
    now rewrite (bind_throw _ _ s1 s2 e Hrun).
Qed.

Lemma executePageActions_entry_throws (pageConfig : PageConfig) (s s0 : State W)
    (e : Error) :
  Stated.entryRun pageConfig s = (s0, Throw e) ->
  ContentScript.executePageActions pageConfig s = (s0, Throw e).
Proof.
  intros Hentry. unfold ContentScript.executePageActions.
  change (match entryActions pageConfig with
          | Some sequence => ContentScript.executeActionSequence sequence
          | None => ret tt
          end) with (Stated.entryRun pageConfig).
  now rewrite (bind_throw _ _ s s0 e Hentry).
Qed.

Lemma entryRun_throws_fatal (pageConfig : PageConfig) (s s0 : State W) (e : Error) :
  Stated.entryRun pageConfig s = (s0, Throw e) ->
  ContentScript.shouldAbortOnError e = true.
Proof.
  unfold Stated.entryRun. destruct (entryActions pageConfig) as [sequence |];
    [apply executeActionSequence_throws_fatal | discriminate].
Qed.

(** A tick that gets as far as the actions of its page. *)
Lemma executeScenario_reaches_page (pageConfig : PageConfig) (s : State W) :
  Ticks.reachesPage s pageConfig ->
  ContentScript.executeScenario s
  = tryCatch (ContentScript.executePageActions pageConfig)
      ContentScript.handleExecutionError s.
Proof.
  intros (Hrun & Hpause & Hgoals & Htime & Hconfig).
  unfold ContentScript.executeScenario, bind, get. rewrite Hrun, Hpause. cbn [negb orb].
  unfold tryCatch, ContentScript.executeScenarioBody, bind, get.
  now rewrite Hgoals, Htime, Hconfig.
Qed.

(** What the handler of the run loop leaves of a fatal error. *)
Lemma handleExecutionError_fatal (e : Error) (s : State W) :
  ContentScript.shouldAbortOnError e = true ->
  Ticks.stoppedAfter e s (ContentScript.handleExecutionError e s).
Proof.
  intros Hfatal. unfold ContentScript.handleExecutionError. rewrite Hfatal.
  unfold Ticks.stoppedAfter, bind, ContentScript.logError, sendMessage, modify,
    ContentScript.stopAutomation, bind, modify, ret, ContentScript.logAction,
    sendMessage, modify.
  cbn [fst snd]. unfold ContentScript.clearExecutionTimer.
  cbn [executionTimer setSession setFlags send].
  destruct (executionTimer s) eqn:Htimer; cbn;
    repeat split; try reflexivity; try exact Htimer;
    try (now rewrite <- app_assoc); try apply incl_refl.
  unfold ContentScript.clearTimeout. intros t Hin.
  now apply filter_In in Hin as [Hin _].
Qed.

End FatalPath.

(** C7, amended.  An error is fatal iff its message, in lower case, contains
    one of [network_error], [page_crash], [extension_error]: the tokens are
    written with an underscore, and a message that speaks of a network
    error in words is not fatal.  When a micro-action of a sequence raises
    an error, a fatal one aborts the sequence and is thrown on, any other is
    logged and the sequence goes on with the next step; so a sequence only
    ever throws fatal errors.  A fatal error raised in the sequence of the
    action that a tick has selected, or in the entry actions of its page,
    is thrown on by [executeSelectedAction] and [executePageActions] and
    reaches the handler of [executeScenario], which stops the session: the
    flags, the session, the scenario and the timer are cleared, no impact
    is applied and no next tick is scheduled.  An error that reaches the
    handler and is not fatal is logged and the next tick is scheduled. *)
Theorem session_stops_iff_error_fatal {W : Type} `{Platform W} (e : Error) :
  (ContentScript.shouldAbortOnError e = true
   <-> exists m fatal,
         message e = Some m
         /\ In fatal ["network_error"; "page_crash"; "extension_error"]
         /\ JS.includes (lowerCase m) fatal = true)
  /\ (forall microAction rest (s s1 : State W),
         isRunning s = true -> isPaused s = false ->
         ContentScript.executeMicroAction microAction s = (s1, Throw e) ->
         ContentScript.executeActionSequence (microAction :: rest) s
         = if ContentScript.shouldAbortOnError e then (s1, Throw e)
           else ContentScript.executeActionSequence rest
                  (send (LogError "micro_action_failed" (message e)) s1))
  /\ (forall sequence (s s' : State W),
         ContentScript.executeActionSequence sequence s = (s', Throw e) ->
         ContentScript.shouldAbortOnError e = true)
  /\ (forall (pageConfig : PageConfig) (action : Action) (s s0 s1 s2 s3 : State W),
         Ticks.reachesPage s pageConfig ->
         Stated.entryRun pageConfig s = (s0, Ok tt) ->
         ContentScript.selectAction (ContentScript.getAvailableActions pageConfig) s0
         = (s1, Ok (Some action)) ->
         Stated.conditionsMet action (send (LogAction "action_started") s1)
         = (s2, Ok true) ->
         Stated.microSequenceRun action s2 = (s3, Throw e) ->
         ContentScript.shouldAbortOnError e = true
         /\ Ticks.stoppedAfter e
              (send (LogError "action_execution_failed" (message e)) s3)
              (ContentScript.executeScenario s))
  /\ (forall (pageConfig : PageConfig) (s s0 : State W),
         Ticks.reachesPage s pageConfig ->
         Stated.entryRun pageConfig s = (s0, Throw e) ->
         ContentScript.shouldAbortOnError e = true
         /\ Ticks.stoppedAfter e s0 (ContentScript.executeScenario s))
  /\ (forall s s1 : State W,
         isRunning s = true -> isPaused s = false ->
         ContentScript.executeScenarioBody s = (s1, Throw e) ->
         let logged := send (LogError "execution_error" (message e)) s1 in
         if ContentScript.shouldAbortOnError e then
           Ticks.stoppedAfter e s1 (ContentScript.executeScenario s)
         else
           ContentScript.executeScenario s
           = ContentScript.scheduleNextExecution
               (ContentScript.getPageConfiguration logged) logged
           /\ (isRunning s1 = true -> isPaused s1 = false ->
               forall cfg, ContentScript.getPageConfiguration s1 = Some cfg ->
               exists s2,
                 ContentScript.executeScenario s = (s2, Ok tt)
                 /\ isRunning s2 = true
                 /\ isPaused s2 = false
                 /\ currentSession s2 = currentSession s1
                 /\ tracker s2 = tracker s1
                 /\ executionTimer s2 = Some (S (timerSeq s1))
                 /\ In (S (timerSeq s1)) (map fst (pendingTimers s2)))).
Proof.
  split; [apply shouldAbortOnError_iff | split; [| split; [| split; [| split]]]].
  - intros microAction rest s s1. apply executeActionSequence_step_error.
  - intros sequence s s'. apply executeActionSequence_throws_fatal.
  - intros pageConfig action s s0 s1 s2 s3 Hreach Hentry Hselect Hmet Hseq.
    assert (Hfatal : ContentScript.shouldAbortOnError e = true)
      by exact (microSequenceRun_throws_fatal action s2 s3 e Hseq).
    split; [exact Hfatal |].
    rewrite (executeScenario_reaches_page pageConfig s Hreach). unfold tryCatch.
    rewrite (executePageActions_throws pageConfig action s s0 s1 _ e Hentry Hselect
               (executeSelectedAction_throws action s1 s2 s3 e Hmet Hseq)).
    now apply handleExecutionError_fatal.
  - intros pageConfig s s0 Hreach Hentry.
    assert (Hfatal : ContentScript.shouldAbortOnError e = true)
      by exact (entryRun_throws_fatal pageConfig s s0 e Hentry).
    split; [exact Hfatal |].
    rewrite (executeScenario_reaches_page pageConfig s Hreach). unfold tryCatch.
    rewrite (executePageActions_entry_throws pageConfig s s0 e Hentry).
    now apply handleExecutionError_fatal.
  - intros s s1 Hrun Hpause Hbody logged.
    rewrite (executeScenario_caught s s1 e Hrun Hpause Hbody).
    destruct (ContentScript.shouldAbortOnError e) eqn:Hfatal.
    + now apply handleExecutionError_fatal.
    + unfold ContentScript.handleExecutionError. rewrite Hfatal.
      assert (Hhandle :
        (let* _ := ContentScript.logError "execution_error" e in
         if false then let* _ := ContentScript.stopAutomation in ret tt
         else let* s0 := get in
              ContentScript.scheduleNextExecution
                (ContentScript.getPageConfiguration s0))%js s1
        = ContentScript.scheduleNextExecution
            (ContentScript.getPageConfiguration logged) logged) by reflexivity.
      rewrite Hhandle. split; [reflexivity |].
      intros Hrun1 Hpause1 cfg Hcfg.
      change (ContentScript.getPageConfiguration logged)
        with (ContentScript.getPageConfiguration s1).
      rewrite Hcfg.
      unfold ContentScript.scheduleNextExecution, bind, get.
      change (isRunning logged) with (isRunning s1).
      change (isPaused logged) with (isPaused s1).
      rewrite Hrun1, Hpause1. simpl.
      unfold random. destruct (nextRandom (world logged)) as [rnd w'].
      unfold modify. eexists. split; [reflexivity |]. simpl.
      repeat split; try assumption; try reflexivity.
      rewrite map_app. apply in_or_app. right. now left.
Qed.

(** The fatal path on the one-page scenario: the first wait of the selected
    action is rejected with a fatal error, and the tick ends the session. *)
Lemma session_stops_iff_error_fatal_witness :
  let s := Scripted.started Scripted.visit Scripted.offline in
  let e := mkError (Some "Network_Error: offline") in
  ContentScript.shouldAbortOnError (W := Scripted.World) e = true
  /\ Ticks.stoppedAfter e
       (send (LogError "action_execution_failed" (message e))
          (fst (Stated.microSequenceRun Scripted.visit
                  (send (LogAction "action_started")
                     (fst (ContentScript.selectAction [Scripted.visit] s))))))
       (ContentScript.executeScenario s).
Proof.
  pose (s := Scripted.started Scripted.visit Scripted.offline).
  pose (pageConfig :=
          mkPageConfig None None (Some (mkPageActions (Some [Scripted.visit]) None))).
  pose (s1 := fst (ContentScript.selectAction [Scripted.visit] s)).
  pose (s2 := send (LogAction "action_started") s1).
  pose (s3 := fst (Stated.microSequenceRun Scripted.visit s2)).
  refine (proj1 (proj2 (proj2 (proj2
            (session_stops_iff_error_fatal (mkError (Some "Network_Error: offline"))))))
          pageConfig Scripted.visit s s s1 s2 s3 _ _ _ _ _).
  - repeat split; vm_compute; reflexivity.
  - reflexivity.
  - vm_compute. reflexivity.
  - reflexivity.
  - vm_compute. reflexivity.
Defined.

(** C7 as stated fails: the fatal substrings are not the words of the
    claim.  The first wait of the selected action is rejected with a
    message that speaks of a network error; the error is not fatal, it is
    logged, the second wait is performed, the visit is counted, the session
    stays running and the next tick is scheduled. *)
Lemma network_error_in_words_is_not_fatal :
  ContentScript.shouldAbortOnError (W := Scripted.World)
    (mkError (Some "Network error: the page crash handler reported an extension error"))
  = false
  /\ (let s1 := fst (ContentScript.executeScenario
                       (Scripted.started Scripted.visit Scripted.offlineInWords)) in
      snd (ContentScript.executeScenario
             (Scripted.started Scripted.visit Scripted.offlineInWords)) = Ok tt
      /\ isRunning s1 = true
      /\ currentSession s1 = Some "session-1"
      /\ outbox s1
         = [LogAction "action_started";
            LogError "micro_action_failed"
              (Some "Network error: the page crash handler reported an extension error");
            LogAction "action_completed"]
      /\ metrics (tracker s1) !! "visits" = Some 1%float
      /\ executionTimer s1 = Some 1
      /\ map fst (pendingTimers s1) = [1]).
Proof. vm_compute. repeat split; reflexivity. Qed.


(** C1, amended.  [executeSelectedAction] applies the metric deltas of an
    action exactly when the action's conditions hold and the run of its
    micro-sequence returns.  The run throws only on a micro-action error
    that is classified fatal, and then no delta is applied and the error
    is thrown on; when the conditions fail nothing is executed and no
    delta is applied.  Nothing else in the execution of the action changes
    the metrics. *)
Theorem impact_applied_iff_sequence_returns {W : Type} `{Platform W}
    (action : Action) (s : State W) :
  match Stated.conditionsMet action (send (LogAction "action_started") s) with
  | (s1, Ok false) =>
      ContentScript.executeSelectedAction action s = (s1, Ok tt)
      /\ metrics (tracker s1) = metrics (tracker s)
  | (s1, Ok true) =>
      match Stated.microSequenceRun action s1 with
      | (s2, Throw e) =>
          ContentScript.shouldAbortOnError e = true
          /\ ContentScript.executeSelectedAction action s
             = (send (LogError "action_execution_failed" (message e)) s2, Throw e)
          /\ metrics (tracker s2) = metrics (tracker s)
      | (s2, Ok _) =>
          exists s3,
            ContentScript.executeSelectedAction action s = (s3, Ok tt)
            /\ metrics (tracker s3)
               = metrics (ProgressTracker.updateMetrics (Stated.impactOf action)
                            (tracker s))
      end
  | (_, Throw _) => False
  end.
Proof.
  set (s0 := send (LogAction "action_started") s).
  assert (Hexec : ContentScript.executeSelectedAction action s
    = match
        (let* met := Stated.conditionsMet action in
         if negb met then ret tt else
         let* _ := Stated.microSequenceRun action in
         let* _ :=
           match impact action with
           | Some deltas => ContentScript.updateMetrics deltas
           | None => ret tt
           end in
         let* st := get in
         let* _ :=
           match ContentScript.expectsTransition action st with
           | Some target => ContentScript.handlePageTransition target
           | None => ret tt
           end in
         ContentScript.logAction "action_completed")%js s0
      with
      | (s', Ok a) => (s', Ok a)
      | (s', Throw e) =>
          (send (LogError "action_execution_failed" (message e)) s', Throw e)
      end) by reflexivity.
  rewrite Hexec. clear Hexec.
  destruct (conditionsMet_total action s0) as (s1 & met & Hmet).
  rewrite (bind_ok _ _ s0 s1 met Hmet), Hmet.
  pose proof (keeps_conditionsMet action s0 s1 (Ok met) Hmet) as Hk1.
  change (metrics (tracker s0)) with (metrics (tracker s)) in Hk1.
  destruct met; cbn [negb].
  - destruct (Stated.microSequenceRun action s1) as [s2 [[] | e]] eqn:Hseq.
    + pose proof (keeps_microSequenceRun action s1 s2 (Ok tt) Hseq) as Hk2.
      rewrite (bind_ok _ _ s1 s2 tt Hseq).
      destruct (impact action) as [deltas |] eqn:Himpact.
      * rewrite (bind_ok _ _ s2
                   (setTracker (ProgressTracker.updateMetrics deltas (tracker s2)) s2)
                   tt eq_refl).
        destruct (after_impact_returns action
                    (setTracker (ProgressTracker.updateMetrics deltas (tracker s2)) s2))
          as (s3 & Hafter & Hk3).
        rewrite Hafter. exists s3. split; [reflexivity |].
        rewrite Hk3. unfold Stated.impactOf. rewrite Himpact. simpl.
        now rewrite Hk2, Hk1.
      * rewrite (bind_ok _ _ s2 s2 tt eq_refl).
        destruct (after_impact_returns action s2) as (s3 & Hafter & Hk3).
        rewrite Hafter. exists s3. split; [reflexivity |].
        rewrite Hk3. unfold Stated.impactOf. rewrite Himpact. simpl.
        now rewrite Hk2, Hk1.
    + rewrite (bind_throw _ _ s1 s2 e Hseq).
      split; [now apply (microSequenceRun_throws_fatal action s1 s2) |].
      split; [reflexivity |].
      rewrite (keeps_microSequenceRun action s1 s2 (Throw e) Hseq). exact Hk1.
  - split; [reflexivity | exact Hk1].
Qed.

(** C1 as stated fails.  The action waits twice and counts a visit.  In
    the first run the pause command arrives during the first wait: the
    check before the second step ends the sequence, the second wait is
    never performed (its scripted outcome is still in the world), and the
    visit is counted all the same.  In the second run the only step fails
    to find its element, the failure is logged, and the visit is counted. *)
Lemma impact_applied_after_interrupted_sequence :
  (let s' := fst (ContentScript.executeSelectedAction Scripted.visit
                    (Scripted.started Scripted.visit Scripted.pausedMidway)) in
   isPaused s' = true
   /\ Scripted.outcomes (world s') = [(None, [])]
   /\ metrics (tracker s') !! "visits" = Some 1%float)
  /\ (let s' := fst (ContentScript.executeSelectedAction Scripted.clickMissing
                       (Scripted.started Scripted.clickMissing Scripted.quiet)) in
      In (LogError "micro_action_failed" (Some "Element not found: #missing")) (outbox s')
      /\ metrics (tracker s') !! "visits" = Some 1%float).
Proof.
  vm_compute. repeat split; try reflexivity. right. left. reflexivity.
Qed.

(** A step that fails to find its element does not stop the session: the
    failure is logged, the tick goes on and schedules the next one. *)
Example missing_element_does_not_stop_the_session :
  let s1 := fst (ContentScript.executeScenario
                   (Scripted.started Scripted.clickMissing Scripted.quiet)) in
  isRunning s1 = true
  /\ executionTimer s1 = Some 1
  /\ map fst (pendingTimers s1) = [1]
  /\ In (LogError "micro_action_failed" (Some "Element not found: #missing")) (outbox s1).
Proof. vm_compute. repeat split; try reflexivity. right. left. reflexivity. Qed.

(* ===================================================================== *)
(** * Further properties of the sources *)
(* ===================================================================== *)

(** ** Verification steps *)

Section VerifyFacts.
Context {W : Type} `{Platform W}.

Lemma verifyElement_outcome (selector : string) (shouldExist : bool) (s : State W) :
  ContentScript.verifyElement selector shouldExist s
  = match ContentScript.findElement selector s with
    | (s1, Ok _) => (s1, Ok tt)
    | (s1, Throw _) =>
        if shouldExist
        then (s1, Throw (mkError (Some ("Element verification failed: " +:+ selector))))
        else (s1, Ok tt)
    end.
Proof.
  unfold ContentScript.verifyElement, tryCatch, bind.
  destruct (ContentScript.findElement selector s) as [s1 [n | e]];
    destruct shouldExist; reflexivity.
Qed.

End VerifyFacts.

(** X1.  A verification step passes whenever its element is found, also
    when the step says the element must not exist: the error raised for the
    found element is thrown inside the [try] block and the [catch] that
    follows takes it for the element being absent.  So a step with
    [exists: false] never fails, and a step that expects the element fails
    exactly when the element is not found. *)
Theorem verify_absent_never_fails {W : Type} `{Platform W}
    (target : string) (s : State W) :
  let expectPresent (expected : option bool) :=
    ContentScript.executeMicroAction (MVerify target expected) s
    = match ContentScript.findElement target s with
      | (s1, Ok _) => (s1, Ok tt)
      | (s1, Throw _) =>
          (s1, Throw (mkError (Some ("Element verification failed: " +:+ target))))
      end in
  ContentScript.executeMicroAction (MVerify target (Some false)) s
  = (fst (ContentScript.findElement target s), Ok tt)
  /\ expectPresent None
  /\ expectPresent (Some true).
Proof.
  cbn zeta. cbn [ContentScript.executeMicroAction default].
  rewrite !verifyElement_outcome.
  now destruct (ContentScript.findElement target s) as [s1 [n | e]].
Qed.

(** On a page whose only list item is there, the step that requires the
    item to be absent passes. *)
Example verify_absent_passes_on_present_element :
  snd (ContentScript.executeMicroAction (MVerify "li" (Some false))
         (Scripted.running Scripted.noGoals None Scripted.listPage))
  = Ok tt
  /\ snd (ContentScript.findElement "li"
            (Scripted.running Scripted.noGoals None Scripted.listPage))
     = Ok (DomElement Scripted.listItem).
Proof. vm_compute. split; reflexivity. Qed.

(** ** The end of a session, and ticks that find nothing to do *)

#[local] Instance nothingScheduled_robust {W : Type} `{Platform W} (s0 : State W) :
  Invariant.Robust (Ticks.nothingScheduled s0).
Proof.
  split; intros; try assumption.
  unfold Ticks.nothingScheduled, ContentScript.clearExecutionTimer in *.
  destruct (executionTimer s); [| assumption]. simpl.
  match goal with Hp : _ /\ _ |- _ => destruct Hp as [Hseq Hincl] end.
  split; [exact Hseq |].
  intros t Hin. apply Hincl. unfold ContentScript.clearTimeout in Hin.
  now apply filter_In in Hin as [Hin _].
Qed.

Section StopFacts.
Context {W : Type} `{Platform W}.

Lemma nothingScheduled_refl (s : State W) : Ticks.nothingScheduled s s.
Proof. split; [reflexivity | apply incl_refl]. Qed.

Lemma stopAutomation_result (s : State W) :
  ContentScript.stopAutomation s
  = (send (LogAction "session_ended")
       (ContentScript.clearExecutionTimer (setSession None None (setFlags false false s))),
     Ok true).
Proof. reflexivity. Qed.

Lemma stopAutomation_leaves_no_timer (s : State W) :
  Invariant.holdsItsTimers s ->
  Invariant.noTimers (fst (ContentScript.stopAutomation s)).
Proof.
  intros Hholds. rewrite stopAutomation_result.
  unfold Invariant.noTimers, ContentScript.clearExecutionTimer. simpl.
  destruct (executionTimer s) as [id |] eqn:Htimer; simpl.
  - apply clearTimeout_only. intros t Hin.
    specialize (Hholds t Hin). rewrite Htimer in Hholds. now injection Hholds as <-.
  - unfold Invariant.holdsItsTimers in Hholds.
    destruct (pendingTimers s) as [| t rest]; [reflexivity |].
    specialize (Hholds t (or_introl eq_refl)). rewrite Htimer in Hholds. discriminate.
Qed.

Lemma completeSession_returns (s : State W) :
  exists s', ContentScript.completeSession s = (s', Ok tt).
Proof. eexists. reflexivity. Qed.

Lemma timeoutSession_returns (s : State W) :
  exists s', ContentScript.timeoutSession s = (s', Ok tt).
Proof. eexists. reflexivity. Qed.

Lemma handleStuckScenario_returns (s : State W) :
  exists s', ContentScript.handleStuckScenario s = (s', Ok tt).
Proof.
  unfold ContentScript.handleStuckScenario, bind, get.
  destruct (1 <? historyLength (world s))%nat; [| apply completeSession_returns].
  unfold modify, ContentScript.wait. cbn [world setWorld].
  destruct (sleep 2000 (historyBack (world s))) as [w cmds].
  unfold ContentScript.detectCurrentPage.
  destruct (detectPage _ _) as [[pg |] |]; eexists; reflexivity.
Qed.

Lemma handlePageConfigError_returns (s : State W) :
  exists s', ContentScript.handlePageConfigError s = (s', Ok tt).
Proof.
  unfold ContentScript.handlePageConfigError, bind at 1.
  unfold ContentScript.logError, sendMessage, modify.
  apply handleStuckScenario_returns.
Qed.

Lemma handleNoActionsAvailable_returns (s : State W) :
  exists s', ContentScript.handleNoActionsAvailable s = (s', Ok tt).
Proof.
  unfold ContentScript.handleNoActionsAvailable, bind at 1.
  unfold ContentScript.logAction, sendMessage, modify.
  apply handleStuckScenario_returns.
Qed.

(** The body of a tick that finds no action to run: it schedules nothing,
    and an error it throws is fatal. *)
Lemma executeScenarioBody_without_actions (s s1 : State W) (r : Result unit) :
  Ticks.withoutActions s ->
  ContentScript.executeScenarioBody s = (s1, r) ->
  Ticks.nothingScheduled s s1
  /\ match r with
     | Ok _ => True
     | Throw e => ContentScript.shouldAbortOnError e = true
     end.
Proof.
  pose proof (nothingScheduled_robust s) as Hrobust.
  pose proof (nothingScheduled_refl s) as Hrefl.
  unfold Ticks.withoutActions, ContentScript.executeScenarioBody, bind, get.
  intros Hnone.
  assert (Hdone : forall m : M W unit,
             Invariant.preserves (Ticks.nothingScheduled s) m ->
             (forall st, exists st', m st = (st', Ok tt)) ->
             m s = (s1, r) ->
             Ticks.nothingScheduled s s1
             /\ match r with
                | Ok _ => True
                | Throw e => ContentScript.shouldAbortOnError e = true
                end).
  { intros m Hm Hret Hrun. split; [exact (Hm s s1 r Hrefl Hrun) |].
    destruct (Hret s) as [st' Hst']. rewrite Hst' in Hrun. now injection Hrun as _ <-. }
  destruct (ProgressTracker.areGoalsMet (tracker s)).
  { apply Hdone; [now apply preserves_completeSession | apply completeSession_returns]. }
  destruct (ProgressTracker.isSessionTimedOut _ _ _).
  { apply Hdone; [now apply preserves_timeoutSession | apply timeoutSession_returns]. }
  destruct (ContentScript.getPageConfiguration s) as [cfg |].
  - unfold ContentScript.executePageActions. rewrite Hnone. unfold bind.
    destruct (match entryActions cfg with
              | Some sequence => ContentScript.executeActionSequence sequence
              | None => ret tt
              end s) as [s2 [[] | e]] eqn:Hentry.
    + assert (H2 : Ticks.nothingScheduled s s2).
      { destruct (entryActions cfg) as [sequence |].
        - exact (preserves_executeActionSequence _ sequence s s2 _ Hrefl Hentry).
        - now injection Hentry as <-. }
      intros Hrun. split.
      * exact (preserves_handleNoActionsAvailable _ s2 s1 r H2 Hrun).
      * destruct (handleNoActionsAvailable_returns s2) as [st' Hst'].
        rewrite Hst' in Hrun. now injection Hrun as _ <-.
    + intros [= <- <-].
      destruct (entryActions cfg) as [sequence |]; [| discriminate]. split.
      * exact (preserves_executeActionSequence _ sequence s s2 _ Hrefl Hentry).
      * exact (executeActionSequence_throws_fatal sequence s s2 e Hentry).
  - apply Hdone; [now apply preserves_handlePageConfigError
                 | apply handlePageConfigError_returns].
Qed.

End StopFacts.

(** X2.  [stopAutomation] always answers success.  It clears both flags,
    the session and the scenario, cancels the timer the session holds (so
    that no tick is pending when the session held every pending timer) and
    sends one [session_ended] message; the tracker, the current page and
    the finder are left as they were.  After it the run loop is closed: a
    tick, a request to schedule one and a timer that still fires change
    nothing but the browser's list of timers. *)
Theorem stop_ends_the_session {W : Type} `{Platform W} (s : State W) :
  let s' := fst (ContentScript.stopAutomation s) in
  snd (ContentScript.stopAutomation s) = Ok true
  /\ isRunning s' = false
  /\ isPaused s' = false
  /\ currentSession s' = None
  /\ currentScenario s' = None
  /\ executionTimer s' = None
  /\ (forall id, executionTimer s = Some id -> ~ In id (map fst (pendingTimers s')))
  /\ (Invariant.holdsItsTimers s -> pendingTimers s' = [])
  /\ outbox s' = outbox s ++ [LogAction "session_ended"]
  /\ tracker s' = tracker s
  /\ currentPage s' = currentPage s
  /\ finder s' = finder s
  /\ ContentScript.executeScenario s' = (s', Ok tt)
  /\ (forall cfg, ContentScript.scheduleNextExecution cfg s' = (s', Ok tt))
  /\ (forall id,
        snd (ContentScript.timerFires id s') = Ok tt
        /\ outbox (fst (ContentScript.timerFires id s')) = outbox s'
        /\ isRunning (fst (ContentScript.timerFires id s')) = false).
Proof.
  cbn zeta.
  pose proof (stopAutomation_leaves_no_timer s) as Hnone.
  unfold Invariant.noTimers in Hnone. revert Hnone.
  rewrite stopAutomation_result. cbn [fst snd].
  unfold ContentScript.clearExecutionTimer. cbn [executionTimer setSession setFlags].
  assert (Hfires : forall (s' : State W) id,
             Invariant.blocked s' = true ->
             snd (ContentScript.timerFires id s') = Ok tt
             /\ outbox (fst (ContentScript.timerFires id s')) = outbox s'
             /\ isRunning (fst (ContentScript.timerFires id s')) = isRunning s').
  { intros s' id Hblocked. unfold ContentScript.timerFires, bind, get.
    destruct (existsb _ (pendingTimers s')); [| now repeat split].
    unfold modify. rewrite executeScenario_blocked by exact Hblocked.
    now repeat split. }
  destruct (executionTimer s) as [id |] eqn:Htimer; intros Hnone;
    match goal with
    | |- context [ContentScript.executeScenario ?st] =>
        assert (Hblocked : Invariant.blocked st = true) by reflexivity
    end;
    repeat match goal with |- _ /\ _ => split end;
    try reflexivity; try exact Hnone;
    try (now apply executeScenario_blocked);
    try (intros cfg; now apply scheduleNextExecution_blocked);
    try (intros id'; exact (Hfires _ id' Hblocked)).
  - intros id' [= <-]. apply clearTimeout_not_pending.
  - exact Htimer.
  - intros id' [=].
Qed.

Lemma stop_ends_the_session_witness :
  pendingTimers (fst (ContentScript.stopAutomation Scripted.pausedWithTimer)) = [].
Proof.
  refine (proj1 (proj2 (proj2 (proj2 (proj2 (proj2 (proj2 (proj2
            (stop_ends_the_session Scripted.pausedWithTimer)))))))) _).
  intros t [<- | []]. reflexivity.
Defined.

(** X3.  A tick that finds no configuration for the current page, or a
    configuration without an action of positive probability, never
    schedules the next tick, whichever way it ends: the goals met, the
    session timed out, the step back in the history, the end of the session
    or a fatal error of the entry actions.  The tick itself returns.  As
    nothing else starts a tick, a session whose tick takes the step back in
    the history stays running with no tick pending. *)
Theorem tick_without_actions_schedules_nothing {W : Type} `{Platform W}
    (s : State W) :
  Ticks.withoutActions s ->
  snd (ContentScript.executeScenario s) = Ok tt
  /\ Ticks.nothingScheduled s (fst (ContentScript.executeScenario s)).
Proof.
  intros Hnone.
  pose proof (nothingScheduled_robust s) as Hrobust.
  unfold ContentScript.executeScenario, bind, get.
  destruct (negb (isRunning s) || isPaused s).
  { split; [reflexivity | apply nothingScheduled_refl]. }
  unfold tryCatch.
  destruct (ContentScript.executeScenarioBody s) as [s1 [[] | e]] eqn:Hbody;
    destruct (executeScenarioBody_without_actions s s1 _ Hnone Hbody) as [H1 Hfatal].
  - split; [reflexivity | exact H1].
  - unfold ContentScript.handleExecutionError. rewrite Hfatal.
    unfold bind at 1. unfold ContentScript.logError, sendMessage, modify.
    unfold bind. rewrite stopAutomation_result. cbn [fst snd]. split; [reflexivity |].
    apply Invariant.robust_send, Invariant.robust_clear, Invariant.robust_session,
      Invariant.robust_flags, Invariant.robust_send. exact H1.
Qed.

(** A running session on a page that the scenario does not describe, with
    a history to go back to: after the tick the session is still running
    and nothing is pending. *)
Lemma tick_without_actions_schedules_nothing_witness :
  let s := Scripted.running Scripted.noGoals (Some (mkPage "elsewhere"))
             (Scripted.mkWorld 0 [] [] [] None 3) in
  snd (ContentScript.executeScenario s) = Ok tt
  /\ Ticks.nothingScheduled s (fst (ContentScript.executeScenario s)).
Proof.
  apply (tick_without_actions_schedules_nothing
           (Scripted.running Scripted.noGoals (Some (mkPage "elsewhere"))
              (Scripted.mkWorld 0 [] [] [] None 3))).
  reflexivity.
Defined.

Example stuck_session_stays_running :
  let s' := fst (ContentScript.executeScenario
                   (Scripted.running Scripted.noGoals (Some (mkPage "elsewhere"))
                      (Scripted.mkWorld 0 [] [] [] None 3))) in
  isRunning s' = true /\ isPaused s' = false
  /\ executionTimer s' = None /\ pendingTimers s' = []
  /\ Scripted.history (world s') = 2.
Proof. vm_compute. repeat split; reflexivity. Qed.

(** ** What the selector can return *)

Section SelectionFacts.
Context {W : Type} `{Platform W}.

Lemma validActionsOf_returns (availableActions : list Action) (s : State W) :
  exists s' validActions,
    ContentScript.validActionsOf availableActions s = (s', Ok validActions)
    /\ incl validActions availableActions.
Proof.
  revert s. induction availableActions as [| action rest IH]; intros s; simpl.
  - exists s, []. split; [reflexivity | apply incl_refl].
  - unfold bind at 1.
    assert (Hcheck : exists s1 ok,
              match conditions action with
              | Some c => ContentScript.checkActionConditions c
              | None => ret true
              end s = (s1, Ok ok)).
    { destruct (conditions action) as [c |].
      - rewrite checkActionConditions_allPass. apply allPass_total.
      - eexists; eexists; reflexivity. }
    destruct Hcheck as (s1 & ok & ->).
    destruct (IH s1) as (s2 & valid & Hvalid & Hincl).
    unfold bind. rewrite Hvalid. unfold ret.
    exists s2. eexists. split; [reflexivity |].
    destruct ok.
    + intros a [<- | Hin]; [now left | right; now apply Hincl].
    + intros a Hin. right. now apply Hincl.
Qed.

Lemma weightedWalk_In (validActions : list Action) (r : float) (a : Action) :
  ContentScript.weightedWalk r validActions = Some a -> In a validActions.
Proof.
  revert r. induction validActions as [| x l IH]; intros r; simpl; [discriminate |].
  destruct (PrimFloat.leb _ 0).
  - intros [= <-]. now left.
  - intros Hwalk. right. exact (IH _ Hwalk).
Qed.

Lemma weightedChoice_In (validActions : list Action) (rnd : float) (a : Action) :
  ContentScript.weightedChoice rnd validActions = Some a -> In a validActions.
Proof.
  unfold ContentScript.weightedChoice. destruct validActions as [| first rest];
    [discriminate |].
  destruct (ContentScript.weightedWalk _ _) as [chosen |] eqn:Hwalk.
  - intros [= <-]. exact (weightedWalk_In _ _ _ Hwalk).
  - intros [= <-]. now left.
Qed.

Lemma getAvailableActions_In (pageConfig : PageConfig) (a : Action) :
  In a (ContentScript.getAvailableActions pageConfig) ->
  PrimFloat.ltb 0 (probability a) = true
  /\ exists acts,
       actions pageConfig = Some acts
       /\ In a (default [] (nonNavigation acts) ++ default [] (navigation acts)).
Proof.
  unfold ContentScript.getAvailableActions.
  destruct (actions pageConfig) as [acts |]; [| intros []].
  intros Hin. apply filter_In in Hin as [Hin Hpos].
  split; [exact Hpos |]. now exists acts.
Qed.

End SelectionFacts.

(** X4.  The selection among the actions of a page never throws (an error
    while a condition is checked counts as the condition not being met),
    and an action it returns is one of the page's two lists and has a
    probability above zero: an action with the probability zero, a negative
    one or one that is not a number is never selected. *)
Theorem selected_action_is_available {W : Type} `{Platform W}
    (pageConfig : PageConfig) (s : State W) :
  match snd (ContentScript.selectAction
               (ContentScript.getAvailableActions pageConfig) s) with
  | Ok (Some a) =>
      PrimFloat.ltb 0 (probability a) = true
      /\ exists acts,
           actions pageConfig = Some acts
           /\ In a (default [] (nonNavigation acts) ++ default [] (navigation acts))
  | Ok None => True
  | Throw _ => False
  end.
Proof.
  destruct (validActionsOf_returns (ContentScript.getAvailableActions pageConfig) s)
    as (s1 & valid & Hvalid & Hincl).
  rewrite (selectAction_weightedChoice _ valid s s1 Hvalid).
  destruct valid as [| first rest]; [exact I |].
  destruct (nextRandom (world s1)) as [rnd w]. cbn [snd].
  destruct (ContentScript.weightedChoice rnd (first :: rest)) as [a |] eqn:Hchoice;
    [| exact I].
  apply getAvailableActions_In, Hincl. exact (weightedChoice_In _ _ _ Hchoice).
Qed.

(** ** The cache of the element finder *)

Section CacheFacts.
Context {W : Type} `{Platform W}.

(** The processed selector does not depend on the state. *)
Lemma processSelector_pure (selector : string) (gs : option SelectorSet) (s : State W) :
  ElementFinder.processSelector selector gs s
  = (s, snd (ElementFinder.processSelector selector gs s)).
Proof.
  unfold ElementFinder.processSelector.
  destruct (JS.startsWith selector "@"); [| reflexivity].
  destruct gs as [[[g |]] |]; cbn [global]; try reflexivity.
  destruct (g !! JS.substring1 selector) as [v |]; [| reflexivity].
  destruct (JS.truthyStr v); reflexivity.
Qed.

Lemma processSelector_any_state (selector : string) (gs : option SelectorSet)
    (s s2 : State W) :
  snd (ElementFinder.processSelector selector gs s2)
  = snd (ElementFinder.processSelector selector gs s).
Proof.
  unfold ElementFinder.processSelector.
  destruct (JS.startsWith selector "@"); [| reflexivity].
  destruct gs as [[[g |]] |]; cbn [global]; try reflexivity.
  destruct (g !! JS.substring1 selector) as [v |]; [| reflexivity].
  destruct (JS.truthyStr v); reflexivity.
Qed.

(** A cached element that is still in the document is the answer, and
    nothing changes. *)
Lemma findElement_cache_hit (selector key : string) (gs : option SelectorSet)
    (e : Element) (s : State W) :
  snd (ElementFinder.processSelector selector gs s) = Ok key ->
  selectorCache (finder s) !! key = Some (DomElement e) ->
  contains (document (world s)) e = true ->
  ElementFinder.findElement selector gs true s = (s, Ok (DomElement e)).
Proof.
  intros Hkey Hcached Hvalid. unfold ElementFinder.findElement. unfold bind at 1.
  rewrite processSelector_pure, Hkey. unfold bind at 1.
  unfold ElementFinder.cachedElement, bind at 1. unfold get. rewrite Hcached.
  unfold bind. cbn [ElementFinder.isElementValid]. now rewrite Hvalid.
Qed.

(** A successful lookup with the cache on leaves its answer in the cache,
    under the processed selector. *)
Lemma findElement_caches (selector : string) (gs : option SelectorSet)
    (n : Node) (s s1 : State W) :
  ElementFinder.findElement selector gs true s = (s1, Ok n) ->
  exists key,
    snd (ElementFinder.processSelector selector gs s) = Ok key
    /\ selectorCache (finder s1) !! key = Some n.
Proof.
  unfold ElementFinder.findElement. unfold bind at 1. rewrite processSelector_pure.
  destruct (snd (ElementFinder.processSelector selector gs s)) as [key | err];
    [| discriminate].
  intros Hrun. exists key. split; [reflexivity |]. revert Hrun.
  unfold bind at 1. unfold ElementFinder.cachedElement, bind at 1. unfold get.
  destruct (selectorCache (finder s) !! key) as [cached |] eqn:Hcached.
  - unfold bind at 1.
    destruct (ElementFinder.isElementValid cached s) as [s0 [valid | err]] eqn:Hvalid;
      [| discriminate].
    assert (Hs0 : s0 = s).
    { destruct cached; simpl in Hvalid; [now injection Hvalid as <- | discriminate]. }
    subst s0. destruct valid.
    + intros [= <- <-]. exact Hcached.
    + change ((let* _ := modify (ElementFinder.cacheDelete key) in ret None)%js s)
        with (ElementFinder.cacheDelete key s, Ok (@None Node)).
      cbv beta iota. unfold bind at 1.
      match goal with
      | |- context [ElementFinder.findElementBySelector key ?st] =>
          destruct (ElementFinder.findElementBySelector key st)
            as [s2 [[found |] | err]]
      end; try discriminate.
      unfold bind, modify, ret. cbv beta. intros [= <- <-]. simpl. apply lookup_insert_eq.
  - unfold ret. cbv beta iota. unfold bind at 1.
    destruct (ElementFinder.findElementBySelector key s) as [s2 [[found |] | err]];
      try discriminate.
    unfold bind, modify. cbv beta. intros [= <- <-]. simpl. apply lookup_insert_eq.
Qed.

End CacheFacts.

(** X5.  With the cache on, a selector that has been resolved to an
    element is resolved to the same element again for as long as the cache
    keeps the entry and the document contains the element: the second
    lookup runs no strategy, so it does not see what the selector would
    match by then, and it changes nothing, not even the element that the
    alias [current] stands for. *)
Theorem cached_element_is_found_again {W : Type} `{Platform W}
    (selector : string) (gs : option SelectorSet) (e : Element) (s s1 s2 : State W) :
  ElementFinder.findElement selector gs true s = (s1, Ok (DomElement e)) ->
  selectorCache (finder s2) = selectorCache (finder s1) ->
  contains (document (world s2)) e = true ->
  ElementFinder.findElement selector gs true s2 = (s2, Ok (DomElement e)).
Proof.
  intros Hfirst Hcache Hvalid.
  destruct (findElement_caches selector gs _ s s1 Hfirst) as (key & Hkey & Hcached).
  apply (findElement_cache_hit selector key).
  - now rewrite (processSelector_any_state selector gs s s2).
  - now rewrite Hcache.
  - exact Hvalid.
Qed.

(** The list page again, after its item has been found with the cache on:
    the page now matches another element first, and the lookup still
    answers the cached item. *)
Lemma cached_element_is_found_again_witness :
  let first := ElementFinder.findElement "li" None true
                 (Scripted.running Scripted.noGoals None Scripted.listPage) in
  let later :=
    setWorld (Scripted.mkWorld 0 [] [("li", [Scripted.plainElement 8 "new item";
                                             Scripted.listItem])] [] None 0)
      (fst first) in
  ElementFinder.findElement "li" None true later
  = (later, Ok (DomElement Scripted.listItem)).
Proof.
  apply (cached_element_is_found_again "li" None Scripted.listItem
           (Scripted.running Scripted.noGoals None Scripted.listPage)
           (fst (ElementFinder.findElement "li" None true
                   (Scripted.running Scripted.noGoals None Scripted.listPage)))).
  - vm_compute. reflexivity.
  - reflexivity.
  - reflexivity.
Defined.

(** X6.  With the cache on, the virtual back-navigation object is resolved
    once and cached, and every later lookup of [browser_back] throws: the
    validity test of the cached object hands it to [document.contains],
    which rejects what is not a node, and the entry stays in the cache. *)
Theorem cached_browser_back_throws {W : Type} `{Platform W}
    (gs : option SelectorSet) (s : State W) :
  match selectorCache (finder s) !! "browser_back" with
  | None =>
      ElementFinder.findElement "browser_back" gs true s
      = (ElementFinder.setLastFound BrowserBack
           (ElementFinder.cacheSet "browser_back" BrowserBack s),
         Ok BrowserBack)
  | Some BrowserBack =>
      ElementFinder.findElement "browser_back" gs true s
      = (s, Throw (mkError (Some "parameter 1 is not of type 'Node'")))
  | Some (DomElement _) => True
  end.
Proof.
  assert (Hfind : forall st : State W,
             ElementFinder.findElementBySelector "browser_back" st
             = (st, Ok (Some BrowserBack))) by reflexivity.
  unfold ElementFinder.findElement, ElementFinder.cachedElement.
  change (ElementFinder.processSelector "browser_back" gs)
    with (ret (W := W) "browser_back").
  unfold bind, get, ret, modify. cbv beta iota.
  destruct (selectorCache (finder s) !! "browser_back") as [[e |] |].
  - exact I.
  - reflexivity.
  - now rewrite Hfind.
Qed.

(** The two lookups one after the other, on a page with an empty cache. *)
Example browser_back_twice :
  let s := Scripted.running Scripted.noGoals None Scripted.listPage in
  let first := ElementFinder.findElement "browser_back" None true s in
  snd first = Ok BrowserBack
  /\ snd (ElementFinder.findElement "browser_back" None true (fst first))
     = Throw (mkError (Some "parameter 1 is not of type 'Node'"))
  /\ snd (ElementFinder.findElement "browser_back" None false (fst first))
     = Ok BrowserBack.
Proof. vm_compute. repeat split; reflexivity. Qed.

(** ** The list of the elements that match *)

Section QueryFacts.
Context {W : Type} `{Platform W}.

Lemma filter_sublist {A : Type} (p : A -> bool) (l : list A) :
  sublist (List.filter p l) l.
Proof.
  induction l as [| x l IH]; simpl.
  - constructor.
  - destruct (p x); now constructor.
Qed.

Lemma firstn_sublist {A : Type} (n : nat) (l : list A) : sublist (firstn n l) l.
Proof. apply sublist_take. Qed.

Lemma sliceTo_sublist {A : Type} (stop : Z) (l : list A) :
  sublist (ElementQueries.sliceTo stop l) l.
Proof.
  unfold ElementQueries.sliceTo. destruct (stop <? 0)%Z; apply firstn_sublist.
Qed.

Lemma sliceTo_length {A : Type} (stop : Z) (l : list A) :
  (0 < stop)%Z -> (Z.of_nat (length (ElementQueries.sliceTo stop l)) <= stop)%Z.
Proof.
  intros Hpos. unfold ElementQueries.sliceTo.
  destruct (Z.ltb_spec stop 0); [lia |].
  rewrite length_firstn. lia.
Qed.

Lemma applyFilters_sublist (w : Window) (options : ElementQueries.FindOptions)
    (elements : list Element) :
  sublist (ElementQueries.applyFilters w options elements) elements.
Proof.
  unfold ElementQueries.applyFilters.
  set (visible := if ElementQueries.visibleOnly options then _ else _).
  set (inViewport := if ElementQueries.inViewportOnly options then _ else _).
  assert (Hv : sublist visible elements).
  { subst visible. destruct (ElementQueries.visibleOnly options);
      [apply filter_sublist | reflexivity]. }
  assert (Hi : sublist inViewport elements).
  { subst inViewport. destruct (ElementQueries.inViewportOnly options);
      [| exact Hv]. etransitivity; [apply filter_sublist | exact Hv]. }
  destruct (ElementQueries.limit options) as [n |]; [| exact Hi].
  destruct (n =? 0)%Z; [exact Hi |].
  etransitivity; [apply sliceTo_sublist | exact Hi].
Qed.

Lemma sublist_Forall {A : Type} (P : A -> Prop) (l k : list A) :
  sublist l k -> Forall P k -> Forall P l.
Proof.
  induction 1 as [| x l k Hsub IH | x l k Hsub IH]; intros Hall.
  - constructor.
  - inversion Hall as [| ? ? Hx Hk]; subst. constructor; [exact Hx | now apply IH].
  - inversion Hall as [| ? ? Hx Hk]; subst. now apply IH.
Qed.

Lemma applyFilters_visible (w : Window) (options : ElementQueries.FindOptions)
    (elements : list Element) :
  ElementQueries.visibleOnly options = true ->
  Forall (fun e => ElementFinder.isElementVisible e = true)
    (ElementQueries.applyFilters w options elements).
Proof.
  intros Hvis. unfold ElementQueries.applyFilters. rewrite Hvis.
  set (visible := List.filter _ elements).
  assert (Hv : Forall (fun e => ElementFinder.isElementVisible e = true) visible).
  { apply List.Forall_forall. intros e Hin. now apply filter_In in Hin as [_ Hin]. }
  set (inViewport := if ElementQueries.inViewportOnly options then _ else _).
  assert (Hi : sublist inViewport visible).
  { subst inViewport. destruct (ElementQueries.inViewportOnly options);
      [apply filter_sublist | reflexivity]. }
  destruct (ElementQueries.limit options) as [n |];
    [| exact (sublist_Forall _ _ _ Hi Hv)].
  destruct (n =? 0)%Z; [exact (sublist_Forall _ _ _ Hi Hv) |].
  apply (sublist_Forall _ _ visible); [| exact Hv].
  etransitivity; [apply sliceTo_sublist | exact Hi].
Qed.

Lemma applyFilters_inViewport (w : Window) (options : ElementQueries.FindOptions)
    (elements : list Element) :
  ElementQueries.inViewportOnly options = true ->
  Forall (fun e => ElementFinder.isElementInViewport w e = true)
    (ElementQueries.applyFilters w options elements).
Proof.
  intros Hin. unfold ElementQueries.applyFilters. rewrite Hin.
  set (inViewport := List.filter _ _).
  assert (Hi : Forall (fun e => ElementFinder.isElementInViewport w e = true) inViewport).
  { apply List.Forall_forall. intros e He. now apply filter_In in He as [_ He]. }
  destruct (ElementQueries.limit options) as [n |]; [| exact Hi].
  destruct (n =? 0)%Z; [exact Hi |].
  exact (sublist_Forall _ _ _ (sliceTo_sublist n inViewport) Hi).
Qed.

Lemma applyFilters_length (w : Window) (options : ElementQueries.FindOptions)
    (elements : list Element) (n : Z) :
  ElementQueries.limit options = Some n -> (0 < n)%Z ->
  (Z.of_nat (length (ElementQueries.applyFilters w options elements)) <= n)%Z.
Proof.
  intros Hlimit Hpos. unfold ElementQueries.applyFilters. rewrite Hlimit.
  destruct (Z.eqb_spec n 0); [lia |]. now apply sliceTo_length.
Qed.

End QueryFacts.

(** X7.  [findElements] never throws and changes nothing: a reference to a
    global selector that does not exist and a selector the document rejects
    both give the empty list.  Otherwise the answer is taken from the
    elements the processed selector matches, in document order and without
    repetition of positions (a sublist); with [visibleOnly] every element
    of it is visible, with [inViewportOnly] every one is in the viewport,
    and a positive [limit] bounds its length. *)
Theorem findElements_answer {W : Type} `{Platform W}
    (selector : string) (gs : option SelectorSet)
    (options : ElementQueries.FindOptions) (s : State W) :
  exists found,
    ElementQueries.findElements selector gs options s = (s, Ok found)
    /\ match snd (ElementFinder.processSelector selector gs s) with
       | Ok processed =>
           match querySelectorAll (document (world s)) processed with
           | Some elements =>
               sublist found elements
               /\ (ElementQueries.visibleOnly options = true ->
                   Forall (fun e => ElementFinder.isElementVisible e = true) found)
               /\ (ElementQueries.inViewportOnly options = true ->
                   Forall (fun e =>
                             ElementFinder.isElementInViewport
                               (window (document (world s))) e = true) found)
               /\ (forall n, ElementQueries.limit options = Some n -> (0 < n)%Z ->
                   (Z.of_nat (length found) <= n)%Z)
           | None => found = []
           end
       | Throw _ => found = []
       end.
Proof.
  unfold ElementQueries.findElements, tryCatch. unfold bind at 1.
  rewrite processSelector_pure.
  destruct (snd (ElementFinder.processSelector selector gs s)) as [processed | err];
    cbn [snd]; [| now exists []].
  unfold bind at 1. unfold queryAll.
  destruct (querySelectorAll (document (world s)) processed) as [elements |];
    [| now exists []].
  unfold bind, theWindow, ret.
  eexists. split; [reflexivity |]. repeat split.
  - apply applyFilters_sublist.
  - apply applyFilters_visible.
  - apply applyFilters_inViewport.
  - intros n. apply applyFilters_length.
Qed.

(** Three list items, the second hidden; two visible ones are asked for. *)
Example findElements_visible_limit :
  let hidden :=
    mkElement 2 (Some "b") [] (mkRect 0 0 10 10) "none" "visible" "1" 10 10 in
  let page :=
    Scripted.mkWorld 0 []
      [("li", [Scripted.plainElement 1 "a"; hidden; Scripted.plainElement 3 "c";
               Scripted.plainElement 4 "d"])] [] None 0 in
  let s := Scripted.running Scripted.noGoals None page in
  snd (ElementQueries.findElements "li" None
         (ElementQueries.mkFindOptions true false (Some 2%Z)) s)
  = Ok [Scripted.plainElement 1 "a"; Scripted.plainElement 3 "c"]
  /\ snd (ElementQueries.findElements "li" None
            (ElementQueries.mkFindOptions false false (Some (-1)%Z)) s)
     = Ok [Scripted.plainElement 1 "a"; hidden; Scripted.plainElement 3 "c"]
  /\ snd (ElementQueries.findElements "@missing" None
            (ElementQueries.mkFindOptions false false None) s)
     = Ok [].
Proof. vm_compute. repeat split; reflexivity. Qed.

(** ** The storage manager *)

Section StorageFacts.
Import StorageManager.
Local Open Scope store_scope.

Lemma chromeCall_quiet (m : Store) :
  failures m = [] -> chromeCall m = (m, Ok tt).
Proof. intros Hq. unfold chromeCall. now rewrite Hq. Qed.

Lemma getSettings_quiet (m : Store) :
  failures m = [] ->
  getSettings m
  = (m, Ok (match wa_settings m with Some o => Stored o | None => Defaults end)).
Proof.
  intros Hq. unfold getSettings, tryCatch, bind. now rewrite chromeCall_quiet.
Qed.

Lemma settingsSeen_quiet (m : Store) :
  failures m = [] -> settingsSeen m = default (DEFAULT_SETTINGS m) (wa_settings m).
Proof.
  intros Hq. unfold settingsSeen. rewrite getSettings_quiet by exact Hq.
  now destruct (wa_settings m).
Qed.

(** With no settings stored, [getSettings] answers [DEFAULT_SETTINGS],
    whether its read succeeds or not. *)
Lemma getSettings_unset (m : Store) :
  wa_settings m = None ->
  snd (getSettings m) = Ok Defaults
  /\ wa_settings (fst (getSettings m)) = None
  /\ DEFAULT_SETTINGS (fst (getSettings m)) = DEFAULT_SETTINGS m
  /\ failures (fst (getSettings m)) = tail (failures m).
Proof.
  intros Hunset. unfold getSettings, tryCatch, bind, chromeCall.
  destruct (failures m) as [| [e |] rest] eqn:Hf; simpl; rewrite ?Hunset;
    now repeat split.
Qed.

Lemma settingsSeen_unset (m : Store) :
  wa_settings m = None -> settingsSeen m = DEFAULT_SETTINGS m.
Proof.
  intros Hunset. unfold settingsSeen.
  destruct (getSettings_unset m Hunset) as (Hr & _ & Hd & _).
  destruct (getSettings m) as [m' r]. simpl in *. subst r. exact Hd.
Qed.

Lemma getWebsiteConfigs_quiet (m : Store) :
  failures m = [] -> getWebsiteConfigs m = (m, Ok (default ∅ (wa_websites m))).
Proof.
  intros Hq. unfold getWebsiteConfigs, tryCatch, bind. now rewrite chromeCall_quiet.
Qed.

Lemma getSessions_quiet (m : Store) :
  failures m = [] -> getSessions m = (m, Ok (default ∅ (wa_sessions m))).
Proof.
  intros Hq. unfold getSessions, tryCatch, bind. now rewrite chromeCall_quiet.
Qed.

Lemma websitesSeen_quiet (m : Store) :
  failures m = [] -> websitesSeen m = default ∅ (wa_websites m).
Proof. intros Hq. unfold websitesSeen. now rewrite getWebsiteConfigs_quiet. Qed.

Lemma sessionsSeen_quiet (m : Store) :
  failures m = [] -> sessionsSeen m = default ∅ (wa_sessions m).
Proof. intros Hq. unfold sessionsSeen. now rewrite getSessions_quiet. Qed.

Lemma getWebsiteConfig_quiet (domain : string) (m : Store) :
  failures m = [] ->
  getWebsiteConfig domain m = (m, Ok (orNull (default ∅ (wa_websites m)) domain)).
Proof.
  intros Hq. unfold getWebsiteConfig, tryCatch, bind.
  now rewrite getWebsiteConfigs_quiet.
Qed.

Lemma assign_plain {A : Type} (key : string) (value : A) (o : gmap string A) :
  key <> "__proto__" -> assign key value o = <[key := value]> o.
Proof.
  intros Hkey. unfold assign.
  destruct (String.eqb_spec key "__proto__"); [contradiction | reflexivity].
Qed.

Lemma updateSetting_quiet (key : string) (value : Json) (m : Store) :
  failures m = [] -> key <> "__proto__" ->
  updateSetting key value m
  = (match wa_settings m with
     | Some o => setSettings (Some (<[key := value]> o)) m
     | None =>
         setSettings (Some (<[key := value]> (DEFAULT_SETTINGS m)))
           (setDefaults (<[key := value]> (DEFAULT_SETTINGS m)) m)
     end, Ok true).
Proof.
  intros Hq Hkey. unfold updateSetting, tryCatch. unfold bind at 1.
  rewrite getSettings_quiet by exact Hq.
  destruct (wa_settings m) as [o |]; unfold assignSetting, bind, modify, ret, chromeCall;
    simpl; rewrite Hq; simpl; now rewrite assign_plain.
Qed.

End StorageFacts.

(** X8.  When the storage calls succeed, a setting written by
    [updateSetting] is read back by [getSettings]: the object it answers
    afterwards is the one it answered before with the key set to the new
    value, and every other key as it was.  (The key [__proto__] is no
    setting: assigning to it creates no property.) *)
Theorem updated_setting_is_read_back (key : string) (value : ConfigManager.Json)
    (m : StorageManager.Store) :
  StorageManager.failures m = [] ->
  key <> "__proto__" ->
  let m1 := fst (StorageManager.updateSetting key value m) in
  snd (StorageManager.updateSetting key value m) = Ok true
  /\ StorageManager.settingsSeen m1 = <[key := value]> (StorageManager.settingsSeen m)
  /\ StorageManager.settingsSeen m1 !! key = Some value
  /\ (forall other, other <> key ->
        StorageManager.settingsSeen m1 !! other = StorageManager.settingsSeen m !! other).
Proof.
  intros Hq Hkey. cbn zeta. rewrite updateSetting_quiet by assumption. cbn [fst snd].
  assert (Hseen : StorageManager.settingsSeen
                    match StorageManager.wa_settings m with
                    | Some o => StorageManager.setSettings (Some (<[key := value]> o)) m
                    | None =>
                        StorageManager.setSettings
                          (Some (<[key := value]> (StorageManager.DEFAULT_SETTINGS m)))
                          (StorageManager.setDefaults
                             (<[key := value]> (StorageManager.DEFAULT_SETTINGS m)) m)
                    end
                  = <[key := value]> (StorageManager.settingsSeen m)).
  { rewrite (settingsSeen_quiet m Hq).
    destruct (StorageManager.wa_settings m) as [o |];
      now rewrite settingsSeen_quiet by exact Hq. }
  rewrite Hseen. repeat split.
  - apply lookup_insert_eq.
  - intros other Hother. now apply lookup_insert_ne.
Qed.

Lemma updated_setting_is_read_back_witness :
  StorageManager.settingsSeen
    (fst (StorageManager.updateSetting "theme" (ConfigManager.JStr "dark")
            (StorageManager.fresh [])))
  !! "theme" = Some (ConfigManager.JStr "dark").
Proof.
  refine (proj1 (proj2 (proj2
            (updated_setting_is_read_back "theme" (ConfigManager.JStr "dark")
               (StorageManager.fresh []) _ _)))).
  - reflexivity.
  - discriminate.
Defined.

Section SettingsFacts.
Import StorageManager.
Local Open Scope store_scope.

(** [updateSetting] on a store without settings: the assignment is made
    on [DEFAULT_SETTINGS] before the write is attempted. *)
Lemma updateSetting_unset (key : string) (value : Json) (m : Store) :
  wa_settings m = None -> key <> "__proto__" ->
  let m1 := fst (updateSetting key value m) in
  DEFAULT_SETTINGS m1 = <[key := value]> (DEFAULT_SETTINGS m)
  /\ (snd (updateSetting key value m) = Ok false -> wa_settings m1 = None)
  /\ (snd (updateSetting key value m) = Ok true ->
      wa_settings m1 = Some (<[key := value]> (DEFAULT_SETTINGS m))).
Proof.
  intros Hunset Hkey. cbn zeta.
  destruct (getSettings_unset m Hunset) as (Hr & Hs & Hd & _).
  destruct (getSettings m) as [m0 r] eqn:Hget. simpl in Hr, Hs, Hd. subst r.
  unfold updateSetting, tryCatch, bind. rewrite Hget.
  unfold assignSetting, bind, modify, ret, chromeCall. simpl.
  rewrite assign_plain by exact Hkey. rewrite Hd.
  destruct (failures m0) as [| [e |] rest]; simpl; repeat split;
    try discriminate; try (intros _; exact Hs).
Qed.

Lemma saveSettings_quiet (newSettings : Object) (m : Store) :
  failures m = [] ->
  saveSettings newSettings m
  = (setSettings (Some (newSettings ∪ settingsSeen m)) m, Ok true).
Proof.
  intros Hq. unfold saveSettings, tryCatch. unfold bind at 1.
  rewrite getSettings_quiet, settingsSeen_quiet by exact Hq.
  unfold bind, get, modify, ret. rewrite chromeCall_quiet by exact Hq.
  now destruct (wa_settings m).
Qed.

End SettingsFacts.

(** X9.  With no settings stored, [updateSetting] makes its assignment on
    the manager's own [DEFAULT_SETTINGS] object, which [getSettings] hands
    out, and it does so before it writes.  So an update whose write fails
    answers [false] and stores nothing, and is visible all the same: from
    then on [getSettings] answers the defaults with the key changed. *)
Theorem failed_update_changes_the_defaults (key : string) (value : ConfigManager.Json)
    (m : StorageManager.Store) :
  StorageManager.wa_settings m = None ->
  key <> "__proto__" ->
  snd (StorageManager.updateSetting key value m) = Ok false ->
  let m1 := fst (StorageManager.updateSetting key value m) in
  StorageManager.wa_settings m1 = None
  /\ StorageManager.DEFAULT_SETTINGS m1
     = <[key := value]> (StorageManager.DEFAULT_SETTINGS m)
  /\ StorageManager.settingsSeen m1 !! key = Some value.
Proof.
  intros Hunset Hkey Hfailed. cbn zeta.
  destruct (updateSetting_unset key value m Hunset Hkey) as (Hd & Hfalse & _).
  specialize (Hfalse Hfailed). split; [exact Hfalse |]. split; [exact Hd |].
  rewrite (settingsSeen_unset _ Hfalse), Hd. apply lookup_insert_eq.
Qed.

(** The read succeeds and the write is rejected. *)
Lemma failed_update_changes_the_defaults_witness :
  let m1 := fst (StorageManager.updateSetting "debugMode" (ConfigManager.JBool true)
                   (StorageManager.fresh [None; Some (mkError (Some "quota"))])) in
  StorageManager.wa_settings m1 = None
  /\ StorageManager.DEFAULT_SETTINGS m1
     = <["debugMode" := ConfigManager.JBool true]> StorageManager.defaultSettings
  /\ StorageManager.settingsSeen m1 !! "debugMode" = Some (ConfigManager.JBool true).
Proof.
  apply (failed_update_changes_the_defaults "debugMode" (ConfigManager.JBool true)
           (StorageManager.fresh [None; Some (mkError (Some "quota"))])).
  - reflexivity.
  - discriminate.
  - reflexivity.
Defined.

(** X10.  When the read of the settings is rejected, [getSettings] answers
    the defaults, and [updateSetting] goes on with them: if its write then
    succeeds, the stored settings are replaced by the defaults with the
    one key set, whatever was stored before. *)
Theorem update_after_failed_read_stores_defaults (key : string)
    (value : ConfigManager.Json) (e : Error) (m : StorageManager.Store) :
  StorageManager.failures m = [Some e] ->
  key <> "__proto__" ->
  let m1 := fst (StorageManager.updateSetting key value m) in
  snd (StorageManager.updateSetting key value m) = Ok true
  /\ StorageManager.wa_settings m1
     = Some (<[key := value]> (StorageManager.DEFAULT_SETTINGS m))
  /\ StorageManager.settingsSeen m1
     = <[key := value]> (StorageManager.DEFAULT_SETTINGS m).
Proof.
  intros Hf Hkey. cbn zeta.
  assert (Hrun : StorageManager.updateSetting key value m
                 = (StorageManager.setSettings
                      (Some (<[key := value]> (StorageManager.DEFAULT_SETTINGS m)))
                      (StorageManager.setDefaults
                         (<[key := value]> (StorageManager.DEFAULT_SETTINGS m))
                         (StorageManager.setFailures [] m)),
                    Ok true)).
  { unfold StorageManager.updateSetting, StorageManager.getSettings,
      StorageManager.tryCatch, StorageManager.bind, StorageManager.chromeCall.
    rewrite Hf. simpl. now rewrite assign_plain by exact Hkey. }
  rewrite Hrun. cbn [fst snd]. repeat split.
Qed.

Lemma update_after_failed_read_stores_defaults_witness :
  let m := StorageManager.setSettings
             (Some {[ "theme" := ConfigManager.JStr "dark";
                      "retryLimit" := ConfigManager.JNum 9 ]})
             (StorageManager.fresh [Some (mkError (Some "offline"))]) in
  StorageManager.settingsSeen
    (fst (StorageManager.updateSetting "slowMode" (ConfigManager.JBool true) m))
  = <["slowMode" := ConfigManager.JBool true]> StorageManager.defaultSettings.
Proof.
  refine (proj2 (proj2
            (update_after_failed_read_stores_defaults "slowMode"
               (ConfigManager.JBool true) (mkError (Some "offline"))
               (StorageManager.setSettings
                  (Some {[ "theme" := ConfigManager.JStr "dark";
                           "retryLimit" := ConfigManager.JNum 9 ]})
                  (StorageManager.fresh [Some (mkError (Some "offline"))])) _ _))).
  - reflexivity.
  - discriminate.
Defined.

(** X11.  When the storage calls succeed, [saveSettings] merges: the
    settings read afterwards hold every key of the new settings with its
    new value and every other key with the value it had; the manager's
    defaults are not touched. *)
Theorem saved_settings_are_merged (newSettings : gmap string ConfigManager.Json)
    (m : StorageManager.Store) :
  StorageManager.failures m = [] ->
  let m1 := fst (StorageManager.saveSettings newSettings m) in
  snd (StorageManager.saveSettings newSettings m) = Ok true
  /\ StorageManager.settingsSeen m1 = newSettings ∪ StorageManager.settingsSeen m
  /\ (forall key value, newSettings !! key = Some value ->
        StorageManager.settingsSeen m1 !! key = Some value)
  /\ (forall key, newSettings !! key = None ->
        StorageManager.settingsSeen m1 !! key = StorageManager.settingsSeen m !! key)
  /\ StorageManager.DEFAULT_SETTINGS m1 = StorageManager.DEFAULT_SETTINGS m.
Proof.
  intros Hq. cbn zeta. rewrite saveSettings_quiet by exact Hq. cbn [fst snd].
  assert (Hseen : StorageManager.settingsSeen
                    (StorageManager.setSettings
                       (Some (newSettings ∪ StorageManager.settingsSeen m)) m)
                  = newSettings ∪ StorageManager.settingsSeen m).
  { now rewrite settingsSeen_quiet by exact Hq. }
  rewrite Hseen. repeat split.
  - intros key value Hnew. now apply lookup_union_Some_l.
  - intros key Hnew. now apply lookup_union_r.
Qed.

Lemma saved_settings_are_merged_witness :
  let m1 := fst (StorageManager.saveSettings
                   {[ "theme" := ConfigManager.JStr "dark" ]} (StorageManager.fresh [])) in
  StorageManager.settingsSeen m1 !! "theme" = Some (ConfigManager.JStr "dark")
  /\ StorageManager.settingsSeen m1 !! "retryLimit" = Some (ConfigManager.JNum 3).
Proof.
  pose proof (saved_settings_are_merged {[ "theme" := ConfigManager.JStr "dark" ]}
                (StorageManager.fresh []) eq_refl) as (_ & _ & Hnew & Hold & _).
  split.
  - apply Hnew. reflexivity.
  - rewrite Hold by reflexivity. reflexivity.
Defined.

Section WebsiteFacts.
Import StorageManager.
Local Open Scope store_scope.

Lemma saveWebsiteConfig_quiet (domain : string) (config : Object) (m : Store) :
  failures m = [] ->
  saveWebsiteConfig domain config m
  = (setWebsites
       (Some (assign domain
                (<["version" := versionOf config]>
                   (<["lastUpdated" :=
                        ConfigManager.JStr (toISOString m (clockAt m (clockReads m)))]>
                      config))
                (default ∅ (wa_websites m))))
       (tick m),
     Ok true).
Proof.
  intros Hq. unfold saveWebsiteConfig, tryCatch. unfold bind at 1.
  rewrite getWebsiteConfigs_quiet by exact Hq.
  unfold dateISOString, dateNow, bind, get, modify, ret, chromeCall. simpl.
  now rewrite Hq.
Qed.

Lemma deleteWebsiteConfig_quiet (domain : string) (m : Store) :
  failures m = [] ->
  deleteWebsiteConfig domain m
  = (setWebsites (Some (delete domain (default ∅ (wa_websites m)))) m, Ok true).
Proof.
  intros Hq. unfold deleteWebsiteConfig, tryCatch. unfold bind at 1.
  rewrite getWebsiteConfigs_quiet by exact Hq.
  unfold bind, modify, ret. now rewrite chromeCall_quiet.
Qed.

Lemma orNull_insert_eq {A : Type} (o : gmap string A) (key : string) (a : A) :
  orNull (<[key := a]> o) key = Own a.
Proof. unfold orNull. now rewrite lookup_insert_eq. Qed.

Lemma orNull_insert_ne {A : Type} (o : gmap string A) (key other : string) (a : A) :
  other <> key -> orNull (<[key := a]> o) other = orNull o other.
Proof. intros Hne. unfold orNull. now rewrite lookup_insert_ne. Qed.

Lemma orNull_delete_ne {A : Type} (o : gmap string A) (key other : string) :
  other <> key -> orNull (delete key o) other = orNull o other.
Proof. intros Hne. unfold orNull. now rewrite lookup_delete_ne. Qed.

End WebsiteFacts.

(** X12.  When the storage calls succeed, a website configuration saved
    under a domain is what [getWebsiteConfig] answers for that domain
    afterwards: the saved object with [lastUpdated] set to the text of the
    time of the save and [version] kept when it is truthy and set to 1.0.0
    otherwise; the answer for every other domain is unchanged. *)
Theorem saved_website_config_is_read_back (domain : string)
    (config : gmap string ConfigManager.Json) (m : StorageManager.Store) :
  StorageManager.failures m = [] ->
  domain <> "__proto__" ->
  let m1 := fst (StorageManager.saveWebsiteConfig domain config m) in
  let now := StorageManager.clockAt m (StorageManager.clockReads m) in
  let entry :=
    <["version" := StorageManager.versionOf config]>
      (<["lastUpdated" := ConfigManager.JStr (StorageManager.toISOString m now)]> config) in
  snd (StorageManager.saveWebsiteConfig domain config m) = Ok true
  /\ snd (StorageManager.getWebsiteConfig domain m1) = Ok (StorageManager.Own entry)
  /\ (forall key, key <> "version" -> key <> "lastUpdated" ->
        entry !! key = config !! key)
  /\ (forall other, other <> domain ->
        snd (StorageManager.getWebsiteConfig other m1)
        = snd (StorageManager.getWebsiteConfig other m)).
Proof.
  intros Hq Hdomain. cbn zeta. rewrite saveWebsiteConfig_quiet by exact Hq.
  cbn [fst snd]. rewrite assign_plain by exact Hdomain.
  split; [reflexivity |]. split; [| split].
  - rewrite getWebsiteConfig_quiet by exact Hq. cbn [snd].
    simpl. now rewrite orNull_insert_eq.
  - intros key Hv Hl. now rewrite !lookup_insert_ne by congruence.
  - intros other Hother. rewrite !getWebsiteConfig_quiet by exact Hq. cbn [snd].
    simpl. now rewrite orNull_insert_ne.
Qed.

Lemma saved_website_config_is_read_back_witness :
  snd (StorageManager.getWebsiteConfig "example.com"
         (fst (StorageManager.saveWebsiteConfig "example.com"
                 {[ "name" := ConfigManager.JStr "Example" ]} (StorageManager.fresh []))))
  = Ok (StorageManager.Own
          (<["version" := ConfigManager.JStr "1.0.0"]>
             (<["lastUpdated" := ConfigManager.JStr "2025-01-01T00:00:00.000Z"]>
                {[ "name" := ConfigManager.JStr "Example" ]}))).
Proof.
  refine (proj1 (proj2
            (saved_website_config_is_read_back "example.com"
               {[ "name" := ConfigManager.JStr "Example" ]} (StorageManager.fresh []) _ _))).
  - reflexivity.
  - discriminate.
Defined.

(** X13.  When the storage calls succeed, [deleteWebsiteConfig] answers
    success whether or not the domain was stored, and afterwards the
    domain has no configuration of its own: [getWebsiteConfig] answers
    [null] for it, or the member of [Object.prototype] of that name when
    there is one.  The other domains are as they were. *)
Theorem deleted_website_config_is_gone (domain : string) (m : StorageManager.Store) :
  StorageManager.failures m = [] ->
  let m1 := fst (StorageManager.deleteWebsiteConfig domain m) in
  snd (StorageManager.deleteWebsiteConfig domain m) = Ok true
  /\ snd (StorageManager.getWebsiteConfig domain m1)
     = Ok (if existsb (String.eqb domain) StorageManager.objectPrototype
           then StorageManager.Inherited domain else StorageManager.Null)
  /\ (forall other, other <> domain ->
        snd (StorageManager.getWebsiteConfig other m1)
        = snd (StorageManager.getWebsiteConfig other m)).
Proof.
  intros Hq. cbn zeta. rewrite deleteWebsiteConfig_quiet by exact Hq. cbn [fst snd].
  split; [reflexivity |]. split.
  - rewrite getWebsiteConfig_quiet by exact Hq. cbn [snd]. simpl.
    unfold StorageManager.orNull. now rewrite lookup_delete_eq.
  - intros other Hother. rewrite !getWebsiteConfig_quiet by exact Hq. cbn [snd].
    simpl. now rewrite orNull_delete_ne.
Qed.

Lemma deleted_website_config_is_gone_witness :
  let m := fst (StorageManager.saveWebsiteConfig "example.com"
                  {[ "name" := ConfigManager.JStr "Example" ]} (StorageManager.fresh [])) in
  snd (StorageManager.getWebsiteConfig "example.com"
         (fst (StorageManager.deleteWebsiteConfig "example.com" m)))
  = Ok StorageManager.Null.
Proof.
  refine (proj1 (proj2
            (deleted_website_config_is_gone "example.com"
               (fst (StorageManager.saveWebsiteConfig "example.com"
                       {[ "name" := ConfigManager.JStr "Example" ]}
                       (StorageManager.fresh []))) _))).
  reflexivity.
Defined.

Section SessionFacts.
Import StorageManager.
Local Open Scope store_scope.

Lemma isOld_spec (now : Z) (session : Session) :
  isOld now session = true
  <-> exists t, lastUpdated session = Some t /\ (24 * 60 * 60 * 1000 < now - t)%Z.
Proof.
  unfold isOld, maxAge. destruct (lastUpdated session) as [t |]; split.
  - intros Hold. exists t. split; [reflexivity | now apply Z.ltb_lt].
  - intros (t' & [= <-] & Hlt). now apply Z.ltb_lt.
  - discriminate.
  - now intros (t' & [=] & _).
Qed.

Lemma cleanupOldSessions_quiet (m : Store) :
  failures m = [] ->
  let now := clockAt m (clockReads m) in
  let before := default ∅ (wa_sessions m) in
  let old := fun kv : string * Session => isOld now kv.2 = true in
  cleanupOldSessions m
  = (if (0 <? size (filter old before))%nat
     then setSessions (Some (filter (fun kv => ~ old kv) before)) (tick m)
     else tick m,
     Ok (size (filter old before))).
Proof.
  intros Hq. cbn zeta. unfold cleanupOldSessions, tryCatch. unfold bind at 1.
  rewrite getSessions_quiet by exact Hq.
  unfold bind at 1. unfold dateNow. unfold bind at 1.
  destruct (0 <? size _)%nat.
  - unfold bind, modify, ret, chromeCall. simpl. now rewrite Hq.
  - reflexivity.
Qed.

(** Nothing to clean: every session is kept by the filter. *)
Lemma nothing_old_all_kept (now : Z) (before : gmap string Session) :
  size (filter (fun kv : string * Session => isOld now kv.2 = true) before) = 0 ->
  filter (fun kv : string * Session => ~ (isOld now kv.2 = true)) before = before.
Proof.
  intros Hnone. apply map_size_empty_iff in Hnone.
  apply map_filter_id. intros id session Hin Hold.
  assert (Hlook : filter (fun kv : string * Session => isOld now kv.2 = true) before
                  !! id = Some session) by now apply map_lookup_filter_Some.
  rewrite Hnone in Hlook. now rewrite lookup_empty in Hlook.
Qed.

End SessionFacts.

(** X14.  When the storage calls succeed, [cleanupOldSessions] removes
    exactly the sessions whose [lastUpdated] lies more than 24 hours
    before the time it reads: a session is stored afterwards iff it was
    stored before and is not that old.  The number it answers is the number
    of sessions removed, and a session without [lastUpdated] is never
    removed. *)
Theorem old_sessions_are_cleaned (m : StorageManager.Store) :
  StorageManager.failures m = [] ->
  let now := StorageManager.clockAt m (StorageManager.clockReads m) in
  let before := StorageManager.sessionsSeen m in
  let after := StorageManager.sessionsSeen (fst (StorageManager.cleanupOldSessions m)) in
  exists cleaned,
    snd (StorageManager.cleanupOldSessions m) = Ok cleaned
    /\ (forall id session,
          after !! id = Some session
          <-> before !! id = Some session
              /\ (forall t, StorageManager.lastUpdated session = Some t ->
                              (now - t <= 24 * 60 * 60 * 1000)%Z))
    /\ cleaned + size after = size before
    /\ (forall id session,
          before !! id = Some session ->
          StorageManager.lastUpdated session = None ->
          after !! id = Some session).
Proof.
  intros Hq. cbn zeta.
  rewrite (sessionsSeen_quiet m Hq).
  set (now := StorageManager.clockAt m (StorageManager.clockReads m)).
  set (before := default ∅ (StorageManager.wa_sessions m)).
  set (old := fun kv : string * StorageManager.Session =>
                StorageManager.isOld now kv.2 = true).
  assert (Hafter : StorageManager.sessionsSeen
                     (fst (StorageManager.cleanupOldSessions m))
                   = filter (fun kv => ~ old kv) before).
  { rewrite (cleanupOldSessions_quiet m Hq). cbn [fst].
    fold now. fold before. fold old.
    destruct (0 <? size (filter old before))%nat eqn:Hcount.
    - now rewrite sessionsSeen_quiet by exact Hq.
    - rewrite sessionsSeen_quiet by exact Hq.
      apply Nat.ltb_ge in Hcount.
      symmetry. apply nothing_old_all_kept.
      apply Nat.le_0_r in Hcount. exact Hcount. }
  rewrite Hafter. rewrite (cleanupOldSessions_quiet m Hq). cbn [snd].
  fold now. fold before. fold old.
  exists (size (filter old before)). split; [reflexivity |].
  assert (Hkept : forall id session,
            filter (fun kv => ~ old kv) before !! id = Some session
            <-> before !! id = Some session
                /\ (forall t, StorageManager.lastUpdated session = Some t ->
                                (now - t <= 24 * 60 * 60 * 1000)%Z)).
  { intros id session. rewrite map_lookup_filter_Some. subst old. simpl.
    split; intros [Hin Hfresh]; (split; [exact Hin |]).
    - intros t Ht. destruct (Z.le_gt_cases (now - t) (24 * 60 * 60 * 1000)) as [Hle | Hgt];
        [exact Hle |].
      exfalso. apply Hfresh. apply isOld_spec. exists t. split; [exact Ht | lia].
    - intros Hold. apply isOld_spec in Hold as (t & Ht & Hlt).
      specialize (Hfresh t Ht). lia. }
  split; [exact Hkept |]. split.
  - rewrite <- (map_filter_union_complement old before) at 3.
    rewrite map_size_disj_union by apply map_disjoint_filter_complement.
    reflexivity.
  - intros id session Hin Hnone. apply Hkept. split; [exact Hin |].
    intros t Ht. rewrite Hnone in Ht. discriminate.
Qed.

(** Three sessions at the time 90 000 000: one updated at 1 000 (older
    than a day), one at 80 000 000, one that never was. *)
Lemma old_sessions_are_cleaned_witness :
  let m := StorageManager.mkStore None None
             (Some {[ "old" := StorageManager.mkSession ∅ (Some 1000%Z);
                      "new" := StorageManager.mkSession ∅ (Some 80000000%Z);
                      "bare" := StorageManager.mkSession ∅ None ]})
             None StorageManager.defaultSettings [] (fun _ => 90000000%Z) 0
             (fun _ => EmptyString) in
  exists cleaned,
    snd (StorageManager.cleanupOldSessions m) = Ok cleaned
    /\ cleaned
       + size (StorageManager.sessionsSeen (fst (StorageManager.cleanupOldSessions m)))
       = size (StorageManager.sessionsSeen m).
Proof.
  cbn zeta.
  destruct (old_sessions_are_cleaned
              (StorageManager.mkStore None None
                 (Some {[ "old" := StorageManager.mkSession ∅ (Some 1000%Z);
                          "new" := StorageManager.mkSession ∅ (Some 80000000%Z);
                          "bare" := StorageManager.mkSession ∅ None ]})
                 None StorageManager.defaultSettings [] (fun _ => 90000000%Z) 0
                 (fun _ => EmptyString)) eq_refl)
    as (cleaned & Hresult & _ & Hcount & _).
  exists cleaned. split; [exact Hresult | exact Hcount].
Defined.

Example cleanup_removes_the_old_session :
  let m := StorageManager.mkStore None None
             (Some {[ "old" := StorageManager.mkSession ∅ (Some 1000%Z);
                      "new" := StorageManager.mkSession ∅ (Some 80000000%Z);
                      "bare" := StorageManager.mkSession ∅ None ]})
             None StorageManager.defaultSettings [] (fun _ => 90000000%Z) 0
             (fun _ => EmptyString) in
  snd (StorageManager.cleanupOldSessions m) = Ok 1
  /\ StorageManager.sessionsSeen (fst (StorageManager.cleanupOldSessions m))
     = {[ "new" := StorageManager.mkSession ∅ (Some 80000000%Z);
          "bare" := StorageManager.mkSession ∅ None ]}.
Proof. vm_compute. split; reflexivity. Qed.

Section BackupFacts.
Import StorageManager.
Local Open Scope store_scope.

(** The filter of the export keeps a sublist of the entries, reads the
    clock and touches nothing else. *)
Lemma recentEntries_sublist (entries : list (string * Session)) (m : Store) :
  exists recent reads,
    recentEntries entries m
    = (mkStore (wa_settings m) (wa_websites m) (wa_sessions m) (wa_current_website m)
         (DEFAULT_SETTINGS m) (failures m) (clockAt m) reads (toISOString m),
       Ok recent)
    /\ sublist recent entries.
Proof.
  revert m. induction entries as [| [id session] rest IH]; intros m.
  - exists [], (clockReads m). split; [now destruct m | constructor].
  - cbn [recentEntries]. unfold bind at 1. unfold dateNow.
    destruct (IH (tick m)) as (recent & reads & Hrest & Hsub).
    unfold bind. rewrite Hrest. unfold ret.
    eexists. exists reads. split; [reflexivity |].
    destruct (match lastUpdated session with Some t => _ | None => false end);
      now constructor.
Qed.

Lemma sublist_entries_subseteq (recent : list (string * Session))
    (all : gmap string Session) :
  sublist recent (map_to_list all) ->
  (list_to_map recent : gmap string Session) ⊆ all.
Proof.
  intros Hsub. apply map_subseteq_spec. intros id session Hin.
  apply elem_of_list_to_map_2 in Hin.
  apply elem_of_map_to_list. exact (elem_of_sublist _ _ _ Hin Hsub).
Qed.

Lemma exportAllData_quiet (m : Store) :
  failures m = [] ->
  exists e reads,
    exportAllData m
    = (mkStore (wa_settings m) (wa_websites m) (wa_sessions m) (wa_current_website m)
         (DEFAULT_SETTINGS m) [] (clockAt m) reads (toISOString m),
       Ok e)
    /\ settings (exported e) = Some (settingsSeen m)
    /\ websites (exported e) = Some (websitesSeen m)
    /\ exists recent,
         sessions (exported e) = Some recent /\ recent ⊆ sessionsSeen m.
Proof.
  intros Hq. unfold exportAllData. unfold bind at 1.
  rewrite getSettings_quiet by exact Hq. unfold bind at 1.
  rewrite getWebsiteConfigs_quiet by exact Hq. unfold bind at 1.
  rewrite getSessions_quiet by exact Hq. unfold bind at 1.
  unfold dateISOString, dateNow. unfold bind at 1 2. unfold get, ret at 1.
  cbv beta iota. unfold bind at 1. unfold bind at 1.
  destruct (recentEntries_sublist (map_to_list (default ∅ (wa_sessions m))) (tick m))
    as (recent & reads & Hrecent & Hsub).
  rewrite Hrecent. unfold ret. cbn [wa_settings wa_websites wa_sessions
    wa_current_website DEFAULT_SETTINGS failures clockAt toISOString tick].
  rewrite Hq. eexists. exists reads. split; [reflexivity |]. cbn [exported settings
    websites sessions].
  rewrite settingsSeen_quiet, websitesSeen_quiet, sessionsSeen_quiet by exact Hq.
  split; [now destruct (wa_settings m) |]. split; [reflexivity |].
  eexists. split; [reflexivity |]. now apply sublist_entries_subseteq.
Qed.

Lemma importAllData_quiet (imported : Payload) (m : Store) :
  failures m = [] ->
  importAllData (Some (mkImportData (Some imported))) m
  = (let m1 := match settings imported with
               | Some s => setSettings (Some (s ∪ settingsSeen m)) m
               | None => m
               end in
     let m2 := match websites imported with
               | Some w => setWebsites (Some w) m1
               | None => m1
               end in
     match sessions imported with
     | Some ss => setSessions (Some (ss ∪ sessionsSeen m)) m2
     | None => m2
     end, Ok true).
Proof.
  intros Hq. unfold importAllData. cbn [data]. unfold bind at 1.
  assert (H1 : match settings imported with
               | Some s => let* _ := saveSettings s in ret tt
               | None => ret tt
               end m
               = (match settings imported with
                  | Some s => setSettings (Some (s ∪ settingsSeen m)) m
                  | None => m
                  end, Ok tt)).
  { destruct (settings imported) as [s |]; [| reflexivity].
    unfold bind. now rewrite saveSettings_quiet. }
  rewrite H1. clear H1.
  set (m1 := match settings imported with Some s => _ | None => m end).
  assert (Hq1 : failures m1 = []) by (subst m1; now destruct (settings imported)).
  assert (Hs1 : wa_sessions m1 = wa_sessions m)
    by (subst m1; now destruct (settings imported)).
  unfold bind at 1.
  assert (H2 : match websites imported with
               | Some w => let* _ := chromeCall in modify (setWebsites (Some w))
               | None => ret tt
               end m1
               = (match websites imported with
                  | Some w => setWebsites (Some w) m1
                  | None => m1
                  end, Ok tt)).
  { destruct (websites imported) as [w |]; [| reflexivity].
    unfold bind. now rewrite chromeCall_quiet. }
  rewrite H2. clear H2.
  set (m2 := match websites imported with Some w => _ | None => m1 end).
  assert (Hq2 : failures m2 = []) by (subst m2; now destruct (websites imported)).
  assert (Hs2 : wa_sessions m2 = wa_sessions m)
    by (subst m2; now destruct (websites imported)).
  unfold bind at 1. cbv zeta.
  destruct (sessions imported) as [ss |]; [| reflexivity].
  unfold bind at 1. rewrite getSessions_quiet by exact Hq2.
  unfold bind, modify, ret. rewrite chromeCall_quiet by exact Hq2.
  now rewrite Hs2, (sessionsSeen_quiet m Hq).
Qed.

End BackupFacts.

(** X15.  When the storage calls succeed, importing what has just been
    exported returns success and changes nothing that can be read: the
    settings, the website configurations and the sessions are as before
    (also the sessions that the export left out for being older than a
    week, since the import merges into the stored sessions). *)
Theorem import_of_export_changes_nothing (m : StorageManager.Store) :
  StorageManager.failures m = [] ->
  match StorageManager.exportAllData m with
  | (m1, Ok exportData) =>
      let m2 := fst (StorageManager.importAllData
                       (StorageManager.asImport exportData) m1) in
      snd (StorageManager.importAllData (StorageManager.asImport exportData) m1)
      = Ok true
      /\ StorageManager.settingsSeen m2 = StorageManager.settingsSeen m
      /\ StorageManager.websitesSeen m2 = StorageManager.websitesSeen m
      /\ StorageManager.sessionsSeen m2 = StorageManager.sessionsSeen m
  | (_, Throw _) => False
  end.
Proof.
  intros Hq.
  destruct (exportAllData_quiet m Hq)
    as (e & reads & -> & Hsettings & Hwebsites & recent & Hsessions & Hsub).
  cbn zeta. unfold StorageManager.asImport.
  set (m1 := StorageManager.mkStore _ _ _ _ _ _ _ _ _).
  assert (Hq1 : StorageManager.failures m1 = []) by reflexivity.
  assert (Hset1 : StorageManager.settingsSeen m1 = StorageManager.settingsSeen m).
  { now rewrite !settingsSeen_quiet. }
  assert (Hses1 : StorageManager.sessionsSeen m1 = StorageManager.sessionsSeen m).
  { now rewrite !sessionsSeen_quiet. }
  rewrite (importAllData_quiet (StorageManager.exported e) m1 Hq1).
  rewrite Hsettings, Hwebsites, Hsessions. cbn [fst snd].
  rewrite Hset1, Hses1.
  split; [reflexivity |].
  rewrite (settingsSeen_quiet m Hq), (websitesSeen_quiet m Hq),
    (sessionsSeen_quiet m Hq) in *.
  rewrite settingsSeen_quiet, websitesSeen_quiet, sessionsSeen_quiet by reflexivity.
  cbn [StorageManager.wa_settings StorageManager.wa_websites StorageManager.wa_sessions
       StorageManager.setSessions StorageManager.setWebsites StorageManager.setSettings
       StorageManager.DEFAULT_SETTINGS default].
  split; [apply map_union_idemp |]. split; [reflexivity |].
  now apply map_subseteq_union.
Qed.

Lemma import_of_export_changes_nothing_witness :
  match StorageManager.exportAllData (StorageManager.fresh []) with
  | (m1, Ok exportData) =>
      let m2 := fst (StorageManager.importAllData
                       (StorageManager.asImport exportData) m1) in
      snd (StorageManager.importAllData (StorageManager.asImport exportData) m1)
      = Ok true
      /\ StorageManager.settingsSeen m2
         = StorageManager.settingsSeen (StorageManager.fresh [])
      /\ StorageManager.websitesSeen m2
         = StorageManager.websitesSeen (StorageManager.fresh [])
      /\ StorageManager.sessionsSeen m2
         = StorageManager.sessionsSeen (StorageManager.fresh [])
  | (_, Throw _) => False
  end.
Proof.
  apply (import_of_export_changes_nothing (StorageManager.fresh [])). reflexivity.
Defined.

(** X16.  An import is not undone when it fails.  Data that is absent or
    has no [data] is refused before anything is written.  Otherwise the
    settings are merged and written first, and a rejected write of the
    website configurations then ends the import with the error: the
    settings stay imported, the website configurations and the sessions
    stay as they were. *)
Theorem failed_import_keeps_the_settings
    (importedSettings : gmap string ConfigManager.Json)
    (importedWebsites : gmap string (gmap string ConfigManager.Json))
    (importedSessions : option (gmap string StorageManager.Session))
    (e : Error) (m : StorageManager.Store) :
  StorageManager.failures m = [None; None; Some e] ->
  let imported :=
    Some (StorageManager.mkImportData
            (Some (StorageManager.mkPayload (Some importedSettings)
                     (Some importedWebsites) importedSessions))) in
  let m1 := fst (StorageManager.importAllData imported m) in
  snd (StorageManager.importAllData imported m) = Throw e
  /\ StorageManager.wa_settings m1
     = Some (importedSettings
             ∪ default (StorageManager.DEFAULT_SETTINGS m) (StorageManager.wa_settings m))
  /\ StorageManager.wa_websites m1 = StorageManager.wa_websites m
  /\ StorageManager.wa_sessions m1 = StorageManager.wa_sessions m
  /\ StorageManager.importAllData None m
     = (m, Throw (mkError (Some "Invalid import data format")))
  /\ StorageManager.importAllData (Some (StorageManager.mkImportData None)) m
     = (m, Throw (mkError (Some "Invalid import data format"))).
Proof.
  intros Hf. cbn zeta.
  unfold StorageManager.importAllData, StorageManager.saveSettings,
    StorageManager.getSettings, StorageManager.tryCatch, StorageManager.bind,
    StorageManager.chromeCall, StorageManager.get, StorageManager.modify,
    StorageManager.ret, StorageManager.throw.
  cbn [StorageManager.data StorageManager.settings StorageManager.websites
       StorageManager.sessions].
  rewrite Hf. simpl.
  destruct (StorageManager.wa_settings m); simpl; repeat split.
Qed.

Lemma failed_import_keeps_the_settings_witness :
  let m := StorageManager.fresh [None; None; Some (mkError (Some "quota"))] in
  let imported :=
    Some (StorageManager.mkImportData
            (Some (StorageManager.mkPayload
                     (Some {[ "theme" := ConfigManager.JStr "dark" ]})
                     (Some {[ "example.com" := ∅ ]}) None))) in
  snd (StorageManager.importAllData imported m) = Throw (mkError (Some "quota"))
  /\ StorageManager.wa_settings (fst (StorageManager.importAllData imported m))
     = Some ({[ "theme" := ConfigManager.JStr "dark" ]} ∪ StorageManager.defaultSettings)
  /\ StorageManager.wa_websites (fst (StorageManager.importAllData imported m)) = None.
Proof.
  cbn zeta.
  pose proof (failed_import_keeps_the_settings
                {[ "theme" := ConfigManager.JStr "dark" ]} {[ "example.com" := ∅ ]} None
                (mkError (Some "quota"))
                (StorageManager.fresh [None; None; Some (mkError (Some "quota"))])
                eq_refl) as (Hthrown & Hsettings & Hwebsites & _).
  split; [exact Hthrown |]. split; [exact Hsettings | exact Hwebsites].
Defined.

Section ClearFacts.
Import StorageManager.
Local Open Scope store_scope.

(** The test of [setDefaultSettings] is on an object, which is never
    falsy: the write is not reached. *)
Lemma setDefaultSettings_result (m : Store) :
  setDefaultSettings m = (fst (getSettings m), Ok tt).
Proof.
  unfold setDefaultSettings, tryCatch, bind.
  destruct (getSettings m) as [m' [settings | e]] eqn:Hget; [reflexivity |].
  exfalso. revert Hget. unfold getSettings, tryCatch, bind, chromeCall.
  destruct (failures m) as [| [err |] rest]; discriminate.
Qed.

Lemma getSettings_storage (m : Store) :
  let m' := fst (getSettings m) in
  wa_settings m' = wa_settings m
  /\ wa_websites m' = wa_websites m
  /\ wa_sessions m' = wa_sessions m
  /\ wa_current_website m' = wa_current_website m
  /\ DEFAULT_SETTINGS m' = DEFAULT_SETTINGS m.
Proof.
  cbn zeta. unfold getSettings, tryCatch, bind, chromeCall.
  destruct (failures m) as [| [err |] rest]; now repeat split.
Qed.

End ClearFacts.

(** X17.  [setDefaultSettings] never writes: it stores the defaults only
    when [getSettings] answers something falsy, and [getSettings] always
    answers an object.  So after a [clearAllData] whose calls succeed all
    four storage keys are unset, the settings among them, and what
    [getSettings] answers from then on is the manager's own defaults
    object as earlier calls have left it. *)
Theorem clear_does_not_restore_defaults (m : StorageManager.Store) :
  (let m' := fst (StorageManager.setDefaultSettings m) in
   snd (StorageManager.setDefaultSettings m) = Ok tt
   /\ StorageManager.wa_settings m' = StorageManager.wa_settings m
   /\ StorageManager.wa_websites m' = StorageManager.wa_websites m
   /\ StorageManager.wa_sessions m' = StorageManager.wa_sessions m
   /\ StorageManager.wa_current_website m' = StorageManager.wa_current_website m)
  /\ (StorageManager.failures m = [] ->
      let m1 := fst (StorageManager.clearAllData m) in
      snd (StorageManager.clearAllData m) = Ok true
      /\ StorageManager.wa_settings m1 = None
      /\ StorageManager.wa_websites m1 = None
      /\ StorageManager.wa_sessions m1 = None
      /\ StorageManager.wa_current_website m1 = None
      /\ StorageManager.settingsSeen m1 = StorageManager.DEFAULT_SETTINGS m).
Proof.
  split.
  - cbn zeta. rewrite setDefaultSettings_result. cbn [fst snd].
    destruct (getSettings_storage m) as (H1 & H2 & H3 & H4 & _). now repeat split.
  - intros Hq. cbn zeta.
    assert (Hrun : StorageManager.clearAllData m
                   = (StorageManager.setCurrent None
                        (StorageManager.setSettings None
                           (StorageManager.setSessions None
                              (StorageManager.setWebsites None m))), Ok true)).
    { unfold StorageManager.clearAllData, StorageManager.tryCatch.
      unfold StorageManager.bind at 1. rewrite chromeCall_quiet by exact Hq.
      unfold StorageManager.bind at 1. unfold StorageManager.modify at 1.
      unfold StorageManager.bind at 1. rewrite chromeCall_quiet by exact Hq.
      unfold StorageManager.bind at 1. unfold StorageManager.modify at 1.
      unfold StorageManager.bind at 1. rewrite chromeCall_quiet by exact Hq.
      unfold StorageManager.bind at 1. unfold StorageManager.modify at 1.
      unfold StorageManager.bind at 1. rewrite setDefaultSettings_result.
      rewrite getSettings_quiet by exact Hq. reflexivity. }
    rewrite Hrun. cbn [fst snd]. repeat split.
    now rewrite settingsSeen_quiet by exact Hq.
Qed.

(** A manager whose defaults have been changed by an update that was
    made on empty storage: after the data is cleared, the settings read
    still hold the change. *)
Lemma clear_does_not_restore_defaults_witness :
  let m := fst (StorageManager.updateSetting "debugMode" (ConfigManager.JBool true)
                  (StorageManager.fresh [])) in
  let m1 := fst (StorageManager.clearAllData m) in
  StorageManager.wa_settings m1 = None
  /\ StorageManager.settingsSeen m1
     = <["debugMode" := ConfigManager.JBool true]> StorageManager.defaultSettings.
Proof.
  cbn zeta.
  pose proof (proj2 (clear_does_not_restore_defaults
                (fst (StorageManager.updateSetting "debugMode" (ConfigManager.JBool true)
                        (StorageManager.fresh [])))) eq_refl)
    as (_ & Hunset & _ & _ & _ & Hseen).
  split; [exact Hunset | exact Hseen].
Defined.

(** ** Processing a configuration twice *)

Section ProcessingFacts.
Import ConfigManager.

Lemma clamped_stays (c : Q) :
  (0 <= c)%Q -> (c <= 1)%Q -> processProbability (Some (SNum c)) = SNum c.
Proof.
  intros Hlow Hhigh. unfold processProbability, Qltb.
  cbn [default from_option id toNumber numberLess].
  apply Qle_bool_iff in Hlow. apply Qle_bool_iff in Hhigh.
  unfold Qltb. now rewrite Hlow, Hhigh.
Qed.

(** A probability that has been processed is left as it is. *)
Lemma processProbability_idempotent (given : option Scalar) :
  processProbability (Some (processProbability given)) = processProbability given.
Proof.
  unfold processProbability at 2 3. cbv zeta.
  set (probability := default (SNum (1 # 2)) given).
  destruct (numberLess (toNumber probability) (Finite 0)
            || numberLess (Finite 1) (toNumber probability)) eqn:Houtside.
  - destruct (toNumber probability) as [| q | negative] eqn:Hn.
    + discriminate.
    + apply clamped_stays; apply clamp01_bounds.
    + destruct negative; reflexivity.
  - unfold processProbability. cbn [default from_option id]. now rewrite Houtside.
Qed.

Lemma processMicroAction_idempotent (microAction : MicroConfig) :
  processMicroAction (processMicroAction microAction) = processMicroAction microAction.
Proof.
  destruct microAction as [type duration speed pattern].
  unfold processMicroAction. simpl.
  destruct type as [t |]; simpl; [| reflexivity].
  destruct (String.eqb t "wait") eqn:Hwait, (String.eqb t "move") eqn:Hmove,
    (String.eqb t "scroll") eqn:Hscroll; simpl;
    destruct duration as [d |]; simpl; try destruct (truthyJson d) eqn:Hd; simpl;
    destruct speed as [sp |]; simpl; try destruct (JS.truthyStr sp) eqn:Hsp; simpl;
    destruct pattern as [pt |]; simpl; try destruct (JS.truthyStr pt) eqn:Hpt; simpl;
    rewrite ?Hd, ?Hsp, ?Hpt; reflexivity.
Qed.

Lemma processAction_idempotent (action : ActionConfig) :
  processAction (processAction action) = processAction action.
Proof.
  unfold processAction at 1 3. cbn [actionName cfgProbability cfgImpact cfgConditions
    micro_sequence processAction default].
  rewrite processProbability_idempotent.
  unfold id. f_equal. f_equal. rewrite map_map.
  apply map_ext. intros m. apply processMicroAction_idempotent.
Qed.

Lemma processed_actions_idempotent (l : option (list ActionConfig)) :
  option_map (map processAction) (option_map (map processAction) l)
  = option_map (map processAction) l.
Proof.
  destruct l as [l |]; [| reflexivity]. simpl. f_equal. rewrite map_map.
  apply map_ext. intros a. apply processAction_idempotent.
Qed.

Lemma processPageConfig_idempotent (pageConfig : PageConfigDoc) :
  processPageConfig (processPageConfig pageConfig) = processPageConfig pageConfig.
Proof.
  destruct pageConfig as [stay acts]. unfold processPageConfig. simpl.
  rewrite !processed_actions_idempotent.
  destruct stay as [d |]; [destruct (truthyJson d) eqn:Hd |];
    now rewrite ?Hd.
Qed.

Lemma processScenario_idempotent (scenario : ScenarioConfig) (id : string) :
  processScenario (processScenario scenario id) id = processScenario scenario id.
Proof.
  destruct scenario as [sid en goals pages rules]. unfold processScenario. simpl.
  assert (Hpages : processPageConfig <$> (processPageConfig <$> default ∅ pages)
                   = processPageConfig <$> default ∅ pages).
  { rewrite <- map_fmap_compose. apply map_fmap_ext.
    intros pageName pageConfig _. apply processPageConfig_idempotent. }
  rewrite Hpages.
  destruct goals as [g |]; [destruct (truthyJson g) eqn:Hg |];
    (destruct rules as [r |]; [destruct (truthyJson r) eqn:Hr |]);
    now rewrite ?Hg, ?Hr.
Qed.

End ProcessingFacts.

(** X18.  Processing is idempotent: a table of scenarios that has been
    processed is left as it is by a second processing, and so is every
    scenario under its id, every page configuration and every action.  The
    defaults are filled in once, and a probability that has been clamped
    stays where it is.  (A stored configuration is processed again each
    time it is loaded.) *)
Theorem processing_twice_changes_nothing
    (scenarios : gmap string ConfigManager.ScenarioConfig) :
  ConfigManager.processScenarios (ConfigManager.processScenarios scenarios)
  = ConfigManager.processScenarios scenarios
  /\ (forall scenario id,
        ConfigManager.processScenario (ConfigManager.processScenario scenario id) id
        = ConfigManager.processScenario scenario id)
  /\ (forall pageConfig,
        ConfigManager.processPageConfig (ConfigManager.processPageConfig pageConfig)
        = ConfigManager.processPageConfig pageConfig)
  /\ (forall action,
        ConfigManager.processAction (ConfigManager.processAction action)
        = ConfigManager.processAction action).
Proof.
  split; [| split; [| split]].
  - unfold ConfigManager.processScenarios. apply map_eq. intros id.
    rewrite !map_lookup_imap.
    destruct (scenarios !! id) as [scenario |]; [| reflexivity]. simpl.
    now rewrite processScenario_idempotent.
  - apply processScenario_idempotent.
  - apply processPageConfig_idempotent.
  - apply processAction_idempotent.
Qed.

(** ** Patterns *)

Section RegexFacts.
Import Regex.

Lemma nullable_matches (r : Re) : nullable r = true -> matches r EmptyString.
Proof.
  induction r as [| | p | r1 IH1 r2 IH2 | r1 IH1 r2 IH2 | r IH]; simpl; intros Hn;
    try discriminate.
  - constructor.
  - apply andb_prop in Hn as [H1 H2].
    exact (matches_seq r1 r2 EmptyString EmptyString (IH1 H1) (IH2 H2)).
  - apply orb_prop in Hn as [H1 | H2].
    + apply matches_or_l. now apply IH1.
    + apply matches_or_r. now apply IH2.
  - constructor.
Qed.

Lemma after_matches (c : ascii) (r : Re) (s : string) :
  matches (after c r) s -> matches r (String c s).
Proof.
  revert s. induction r as [| | p | r1 IH1 r2 IH2 | r1 IH1 r2 IH2 | r IH];
    simpl; intros s Hm.
  - inversion Hm.
  - inversion Hm.
  - destruct (p c) eqn:Hp; inversion Hm; subst. now constructor.
  - assert (Hfirst : matches (Seq (after c r1) r2) s -> matches (Seq r1 r2) (String c s)).
    { intros Hseq. inversion Hseq as [| | ? ? s1 s2 H1 H2 | | | |]; subst.
      exact (matches_seq r1 r2 (String c s1) s2 (IH1 _ H1) H2). }
    destruct (nullable r1) eqn:Hn; [| now apply Hfirst].
    inversion Hm as [| | | ? ? ? Hl | ? ? ? Hr | |]; subst; [now apply Hfirst |].
    exact (matches_seq r1 r2 EmptyString (String c s) (nullable_matches r1 Hn)
             (IH2 _ Hr)).
  - inversion Hm as [| | | ? ? ? Hl | ? ? ? Hr | |]; subst.
    + apply matches_or_l. now apply IH1.
    + apply matches_or_r. now apply IH2.
  - inversion Hm as [| | ? ? s1 s2 H1 H2 | | | |]; subst.
    exact (matches_star_more r (String c s1) s2 (IH _ H1) H2).
Qed.

(** A string that passes the test is a string of the pattern. *)
Lemma test_matches (r : Re) (s : string) : test r s = true -> matches r s.
Proof.
  revert r. induction s as [| c s IH]; simpl; intros r Ht.
  - now apply nullable_matches.
  - apply after_matches. now apply IH.
Qed.

Lemma allChars_app (p : ascii -> bool) (s1 s2 : string) :
  allChars p (s1 +:+ s2) = allChars p s1 && allChars p s2.
Proof.
  induction s1 as [| c s1 IH]; simpl; [reflexivity |].
  now rewrite IH, andb_assoc.
Qed.

Lemma length_app_string (s1 s2 : string) :
  String.length (s1 +:+ s2) = String.length s1 + String.length s2.
Proof. induction s1 as [| c s1 IH]; simpl; [reflexivity | now rewrite IH]. Qed.

Lemma matches_class_inv (p : ascii -> bool) (s : string) :
  matches (Class p) s -> allChars p s = true /\ String.length s = 1.
Proof.
  intros Hm. inversion Hm as [| ? c Hp | | | | |]; subst. simpl.
  now rewrite Hp.
Qed.

Lemma matches_optional_class (p : ascii -> bool) (s : string) :
  matches (optional (Class p)) s -> allChars p s = true /\ String.length s <= 1.
Proof.
  intros Hm. inversion Hm as [| | | ? ? ? Hl | ? ? ? Hr | |]; subst.
  - inversion Hl; subst. split; [reflexivity | simpl; lia].
  - destruct (matches_class_inv p s Hr) as [Hall Hlen]. split; [exact Hall | lia].
Qed.

Lemma matches_upTo_class (p : ascii -> bool) (n : nat) (s : string) :
  matches (upTo n (Class p)) s -> allChars p s = true /\ String.length s <= n.
Proof.
  revert s. induction n as [| n IH]; simpl; intros s Hm.
  - inversion Hm; subst. split; [reflexivity | simpl; lia].
  - inversion Hm as [| | | ? ? ? Hl | ? ? ? Hr | |]; subst.
    + inversion Hl; subst. split; [reflexivity | simpl; lia].
    + inversion Hr as [| | ? ? s1 s2 H1 H2 | | | |]; subst.
      destruct (matches_class_inv p s1 H1) as [Hall1 Hlen1].
      destruct (IH s2 H2) as [Hall2 Hlen2].
      rewrite allChars_app, length_app_string, Hall1, Hall2. split; [reflexivity | lia].
Qed.

Lemma matches_star_class (p : ascii -> bool) (s : string) :
  matches (Star (Class p)) s -> allChars p s = true.
Proof.
  intros Hm. remember (Star (Class p)) as r eqn:Hr.
  induction Hm as [| | | | | r0 | r0 s1 s2 H1 _ H2 IH2]; try discriminate.
  - reflexivity.
  - injection Hr as ->.
    destruct (matches_class_inv p s1 H1) as [Hall1 _].
    now rewrite allChars_app, Hall1, IH2.
Qed.

Lemma matches_twoOrMore_class (p : ascii -> bool) (s : string) :
  matches (twoOrMore (Class p)) s -> allChars p s = true /\ 2 <= String.length s.
Proof.
  unfold twoOrMore. intros Hm.
  inversion Hm as [| | ? ? s1 s23 H1 H23 | | | |]; subst.
  inversion H23 as [| | ? ? s2 s3 H2 H3 | | | |]; subst.
  destruct (matches_class_inv p s1 H1) as [Hall1 Hlen1].
  destruct (matches_class_inv p s2 H2) as [Hall2 Hlen2].
  pose proof (matches_star_class p s3 H3) as Hall3.
  rewrite !allChars_app, !length_app_string, Hall1, Hall2, Hall3.
  split; [reflexivity | lia].
Qed.

Lemma allChars_weaken (p q : ascii -> bool) (s : string) :
  (forall c, p c = true -> q c = true) -> allChars p s = true -> allChars q s = true.
Proof.
  intros Hpq. induction s as [| c s IH]; simpl; [reflexivity |].
  intros Hall. apply andb_prop in Hall as [Hc Hs].
  now rewrite (Hpq c Hc), IH.
Qed.

Lemma append_assoc_string (s1 s2 s3 : string) :
  (s1 +:+ s2) +:+ s3 = s1 +:+ (s2 +:+ s3).
Proof.
  induction s1 as [| c s1 IH]; [reflexivity |].
  change (String c ((s1 +:+ s2) +:+ s3) = String c (s1 +:+ (s2 +:+ s3))).
  now f_equal.
Qed.

(** The strings that the pattern of a domain accepts. *)
Lemma domainRegex_shape (domain : string) :
  test ConfigValidation.domainRegex domain = true ->
  exists label tld,
    domain = label +:+ "." +:+ tld
    /\ allChars isAlnumOrHyphen label = true
    /\ 1 <= String.length label <= 63
    /\ allChars isLetter tld = true
    /\ 2 <= String.length tld.
Proof.
  intros Ht. apply test_matches in Ht. unfold ConfigValidation.domainRegex in Ht.
  inversion Ht as [| | ? ? s1 rest1 H1 Hrest1 | | | |]; subst.
  inversion Hrest1 as [| | ? ? s2 rest2 H2 Hrest2 | | | |]; subst.
  inversion Hrest2 as [| | ? ? s3 rest3 H3 Hrest3 | | | |]; subst.
  inversion Hrest3 as [| | ? ? s4 s5 H4 H5 | | | |]; subst.
  destruct (matches_class_inv _ _ H1) as [Hall1 Hlen1].
  destruct (matches_upTo_class isAlnumOrHyphen 61 s2 H2) as [Hall2 Hlen2].
  destruct (matches_optional_class _ _ H3) as [Hall3 Hlen3].
  inversion H4 as [| ? c Hdot | | | | |]; subst.
  destruct (matches_twoOrMore_class _ _ H5) as [Hall5 Hlen5].
  unfold isDot in Hdot. apply Ascii.eqb_eq in Hdot. subst c.
  assert (Hweak : forall c, isAlnum c = true -> isAlnumOrHyphen c = true).
  { intros c Hc. unfold isAlnumOrHyphen. now rewrite Hc. }
  exists (s1 +:+ s2 +:+ s3), s5. split; [| split; [| split; [| split]]].
  - now rewrite !append_assoc_string.
  - rewrite !allChars_app, Hall2, (allChars_weaken _ _ _ Hweak Hall1),
      (allChars_weaken _ _ _ Hweak Hall3). reflexivity.
  - rewrite !length_app_string. lia.
  - exact Hall5.
  - exact Hlen5.
Qed.

End RegexFacts.

(** ** Validation of a configuration *)

Section ValidationFacts.
Import ConfigManager ConfigValidation.

Lemma flat_map_nil {A B : Type} (f : A -> list B) (l : list A) :
  flat_map f l = [] -> Forall (fun x => f x = []) l.
Proof.
  induction l as [| x l IH]; simpl; intros Hnil; [constructor |].
  apply app_nil in Hnil as [Hx Hl]. constructor; [exact Hx | now apply IH].
Qed.

Lemma flat_map_indexed_nil {A B : Type} (f : nat -> A -> list B) (P : A -> Prop)
    (l : list A) (start : nat) :
  (forall i x, f i x = [] -> P x) ->
  flat_map (fun ix : nat * A => f ix.1 ix.2) (indexed start l) = [] ->
  Forall P l.
Proof.
  intros Hf. revert start. induction l as [| x l IH]; simpl; intros start Hnil;
    [constructor |].
  apply app_nil in Hnil as [Hx Hl]. constructor; [exact (Hf _ _ Hx) | exact (IH _ Hl)].
Qed.

Lemma validateAction_accepts (action : ActionConfig)
    (scenarioId pageName actionType : string) (index : nat) :
  validateAction action scenarioId pageName actionType index = [] ->
  acceptedAction action.
Proof.
  unfold validateAction, acceptedAction. intros Hnil.
  apply app_nil in Hnil as [Hname Hrest]. apply app_nil in Hrest as [Hprob Hmicro].
  split; [| split].
  - destruct (truthyOpt (actionName action)); [reflexivity | discriminate].
  - unfold processAction, processProbability. cbn [cfgProbability].
    destruct (cfgProbability action) as [[| b | p | text n] |];
      try discriminate; [| reflexivity].
    cbv [default from_option id toNumber numberLess].
    now destruct (Qltb p 0 || Qltb 1 p).
  - destruct (micro_sequence action) as [sequence |]; [| constructor].
    cbn [default].
    apply (flat_map_indexed_nil
             (fun i micro =>
                if negb (truthyOpt (microType micro))
                then [("Scenario " +:+ scenarioId +:+ ", Page " +:+ pageName +:+ ", "
                       +:+ actionType +:+ "[" +:+ indexText index +:+ "]")
                      +:+ ", micro[" +:+ indexText i +:+ "]: Missing type"]
                else [])
             _ sequence 0); [| exact Hmicro].
    intros i micro Hm. cbv beta in Hm.
    destruct (truthyOpt (microType micro)); [reflexivity | discriminate].
Qed.

Lemma validateActions_accepts (actions : option (list ActionConfig))
    (scenarioId pageName actionType : string) :
  validateActions actions scenarioId pageName actionType = [] ->
  Forall acceptedAction (default [] actions).
Proof.
  unfold validateActions. destruct actions as [l |]; [| constructor].
  intros Hnil. cbn [default].
  apply (flat_map_indexed_nil
           (fun i action => validateAction action scenarioId pageName actionType i)
           _ l 0); [| exact Hnil].
  intros i action. apply validateAction_accepts.
Qed.

Lemma validatePageConfig_accepts (pageConfig : PageConfigDoc)
    (scenarioId pageName : string) :
  validatePageConfig pageConfig scenarioId pageName = [] ->
  Forall acceptedAction (actionsOfPage pageConfig).
Proof.
  unfold validatePageConfig, actionsOfPage.
  destruct (cfgActions pageConfig) as [actions |]; [| constructor].
  intros Hnil. apply app_nil in Hnil as [Hfirst Hsecond].
  apply Forall_app. split; eapply validateActions_accepts; eassumption.
Qed.

Lemma validateGoals_accepts (goals : GoalsDoc) (scenarioId : string) :
  validateGoals goals scenarioId = [] -> acceptedGoals goals.
Proof.
  unfold validateGoals, acceptedGoals.
  destruct (session_duration goals) as [duration |]; [| trivial].
  intros Hnil. apply app_nil in Hnil as [Hformat Horder].
  destruct (durationMin duration) as [min |]; [| discriminate].
  destruct (durationMax duration) as [max |];
    [| cbn in Hformat; now destruct (falsy min)].
  cbn [falsyKey] in Hformat.
  destruct (falsy min) eqn:Hmin; [discriminate |].
  destruct (falsy max) eqn:Hmax; [discriminate |].
  destruct (truthyOpt (durationUnit duration)) eqn:Hunit; [| discriminate].
  destruct (greaterOrEqual (Some min) (Some max)) eqn:Hge; [discriminate |].
  exists min, max.
  split; [reflexivity |]. split; [reflexivity |]. split; [exact Hmin |].
  split; [exact Hmax |]. split; [reflexivity |]. split; [exact Hge |].
  intros qmin qmax -> ->. cbn in Hmin, Hmax, Hge.
  split; [now apply Qeq_bool_neq | split; [now apply Qeq_bool_neq |]].
  apply negb_false_iff in Hge. unfold Qltb in Hge. apply negb_true_iff in Hge.
  apply Qnot_le_lt. intros Hcontra. apply Qle_bool_iff in Hcontra. congruence.
Qed.

Lemma validateScenario_accepts (scenario : ScenarioDoc) (scenarioId : string) :
  validateScenario scenario scenarioId = [] -> acceptedScenario scenario.
Proof.
  unfold validateScenario, acceptedScenario. intros Hnil.
  apply app_nil in Hnil as [Hname Hrest]. apply app_nil in Hrest as [Hpages Hgoals].
  split; [| split].
  - destruct (truthyOpt (scenarioName scenario)); [reflexivity | discriminate].
  - destruct (scenarioPages scenario) as [pages |]; [| discriminate].
    exists pages. split; [reflexivity |].
    apply flat_map_nil in Hpages.
    eapply Forall_impl; [exact Hpages |].
    intros [pageName pageConfig] Hpage. exact (validatePageConfig_accepts _ _ _ Hpage).
  - destruct (scenarioGoals scenario) as [goals |]; [| trivial].
    exact (validateGoals_accepts _ _ Hgoals).
Qed.

Lemma validateConfig_errors (config : ConfigDoc) :
  isValid (validateConfig config) = true -> errors (validateConfig config) = [].
Proof.
  unfold validateConfig. cbn [isValid errors].
  now destruct (_ ++ _).
Qed.

(** What a configuration without errors consists of. *)
Lemma validateConfig_accepts (config : ConfigDoc) :
  isValid (validateConfig config) = true ->
  exists w domain entries,
    website config = Some w
    /\ truthyOpt (websiteName w) = true
    /\ websiteDomain w = Some domain
    /\ Regex.test domainRegex domain = true
    /\ truthyOpt (websiteType w) = true
    /\ scenarios config = Some entries
    /\ entries <> []
    /\ Forall (fun entry : string * ScenarioDoc => acceptedScenario entry.2) entries.
Proof.
  intros Hvalid. apply validateConfig_errors in Hvalid.
  unfold validateConfig in Hvalid. cbn [errors] in Hvalid.
  apply app_nil in Hvalid as [Hwebsite Hrest].
  apply app_nil in Hrest as [Hdomain Hrest].
  apply app_nil in Hrest as [_ Hscenarios].
  destruct (website config) as [w |]; [| discriminate].
  apply app_nil in Hwebsite as [Hname Hrest]. apply app_nil in Hrest as [Hhas Htype].
  destruct (websiteDomain w) as [domain |] eqn:Hd; [| discriminate].
  cbn [truthyOpt] in Hhas.
  destruct (scenarios config) as [entries |]; [| discriminate].
  apply app_nil in Hscenarios as [Hcount Heach].
  exists w, domain, entries.
  split; [reflexivity |]. split.
  { destruct (truthyOpt (websiteName w)); [reflexivity | discriminate]. }
  split; [exact Hd |]. split.
  { destruct (JS.truthyStr domain); [| discriminate].
    now destruct (Regex.test domainRegex domain). }
  split.
  { destruct (truthyOpt (websiteType w)); [reflexivity | discriminate]. }
  split; [reflexivity |]. split.
  { intros ->. discriminate. }
  apply flat_map_nil in Heach. eapply Forall_impl; [exact Heach |].
  intros [scenarioId scenario] Hs. exact (validateScenario_accepts _ _ Hs).
Qed.

(** X19.  Validation and processing agree on the actions.  Every action of a
    configuration that [validateConfig] accepts, in either list of any page
    of any scenario, has a name, has a type on each of its micro actions,
    and keeps its probability under [processAction]: the processed
    probability is the given one, or 0.5 when none is given, and is never
    the result of clamping.  (A probability that is given and is not a
    number is an error of the validation.) *)
Theorem valid_config_actions_are_kept (config : ConfigDoc) :
  isValid (validateConfig config) = true ->
  Forall
    (fun action =>
       truthyOpt (actionName action) = true
       /\ cfgProbability (processAction action)
          = Some (default (SNum (1 # 2)) (cfgProbability action))
       /\ Forall (fun micro => truthyOpt (microType micro) = true)
            (default [] (micro_sequence action)))
    (actionsOf config).
Proof.
  intros Hvalid.
  destruct (validateConfig_accepts config Hvalid)
    as (w & domain & entries & _ & _ & _ & _ & _ & Hentries & _ & Heach).
  unfold actionsOf. rewrite Hentries. cbn [default].
  apply Forall_flat_map. eapply Forall_impl; [exact Heach |].
  intros [scenarioId scenario] (_ & (pages & Hpages & Hall) & _).
  cbn [snd] in *. rewrite Hpages. cbn [default].
  apply Forall_flat_map. exact Hall.
Qed.

Lemma valid_config_actions_are_kept_witness :
  isValid (validateConfig (exampleConfig "example.com" (Some (SNum (1 # 4))))) = true
  /\ Forall
       (fun action =>
          truthyOpt (actionName action) = true
          /\ cfgProbability (processAction action)
             = Some (default (SNum (1 # 2)) (cfgProbability action))
          /\ Forall (fun micro => truthyOpt (microType micro) = true)
               (default [] (micro_sequence action)))
       (actionsOf (exampleConfig "example.com" (Some (SNum (1 # 4))))).
Proof.
  split; [vm_compute; reflexivity |].
  apply (valid_config_actions_are_kept (exampleConfig "example.com" (Some (SNum (1 # 4))))).
  vm_compute. reflexivity.
Defined.

(** An action with a probability above 1 is an error of the validation,
    where the processing would have clamped it. *)
Example out_of_range_probability_is_rejected :
  errors (validateConfig (exampleConfig "example.com" (Some (SNum (3 # 2)))))
  = ["Scenario browse, Page home, non_navigation[0]: Invalid probability"].
Proof. vm_compute. reflexivity. Qed.

(** X20.  The domain of a configuration that [validateConfig] accepts is one
    label, a dot and a top-level name: the label has between 1 and 63
    letters, digits or hyphens, the top-level name two or more letters.
    The domain therefore holds exactly one dot. *)
Theorem valid_config_domain_has_one_dot (config : ConfigDoc) :
  isValid (validateConfig config) = true ->
  exists w label tld,
    website config = Some w
    /\ websiteDomain w = Some (label +:+ "." +:+ tld)
    /\ Regex.allChars Regex.isAlnumOrHyphen label = true
    /\ 1 <= String.length label <= 63
    /\ Regex.allChars Regex.isLetter tld = true
    /\ 2 <= String.length tld.
Proof.
  intros Hvalid.
  destruct (validateConfig_accepts config Hvalid)
    as (w & domain & entries & Hw & _ & Hd & Htest & _).
  destruct (domainRegex_shape domain Htest) as (label & tld & -> & Hshape).
  now exists w, label, tld.
Qed.

Lemma valid_config_domain_has_one_dot_witness :
  isValid (validateConfig (exampleConfig "example.com" None)) = true
  /\ exists w label tld,
       website (exampleConfig "example.com" None) = Some w
       /\ websiteDomain w = Some (label +:+ "." +:+ tld)
       /\ Regex.allChars Regex.isAlnumOrHyphen label = true
       /\ 1 <= String.length label <= 63
       /\ Regex.allChars Regex.isLetter tld = true
       /\ 2 <= String.length tld.
Proof.
  split; [vm_compute; reflexivity |].
  apply (valid_config_domain_has_one_dot (exampleConfig "example.com" None)).
  vm_compute. reflexivity.
Defined.

(** A domain of three labels is not accepted. *)
Example domain_of_three_labels_is_rejected :
  errors (validateConfig (exampleConfig "amazon.co.uk" None)) = ["Invalid domain format"]
  /\ errors (validateConfig (exampleConfig "www.example.com" None))
     = ["Invalid domain format"].
Proof. split; vm_compute; reflexivity. Qed.

(** X21.  A configuration that [validateConfig] accepts has a scenario, and
    each of its scenarios has a name and pages.  The session duration of a
    scenario has both bounds and a unit, all of them truthy, and its
    minimum does not compare as greater than or equal to its maximum; when
    both bounds are numbers, neither is zero and the minimum is below the
    maximum.  The validation does not ask the bounds to be numbers, and two
    strings are compared as strings. *)
Theorem valid_config_durations_are_ordered (config : ConfigDoc) :
  isValid (validateConfig config) = true ->
  exists entries,
    scenarios config = Some entries
    /\ entries <> []
    /\ Forall
         (fun entry : string * ScenarioDoc =>
            truthyOpt (scenarioName entry.2) = true
            /\ is_Some (scenarioPages entry.2)
            /\ forall goals duration,
                 scenarioGoals entry.2 = Some goals ->
                 session_duration goals = Some duration ->
                 exists min max,
                   durationMin duration = Some min
                   /\ durationMax duration = Some max
                   /\ falsy min = false
                   /\ falsy max = false
                   /\ truthyOpt (durationUnit duration) = true
                   /\ greaterOrEqual (Some min) (Some max) = false
                   /\ (forall qmin qmax,
                         min = SNum qmin -> max = SNum qmax ->
                         ~ (qmin == 0)%Q /\ ~ (qmax == 0)%Q /\ (qmin < qmax)%Q))
         entries.
Proof.
  intros Hvalid.
  destruct (validateConfig_accepts config Hvalid)
    as (w & domain & entries & _ & _ & _ & _ & _ & Hentries & Hne & Heach).
  exists entries. split; [exact Hentries | split; [exact Hne |]].
  eapply Forall_impl; [exact Heach |].
  intros [scenarioId scenario] (Hname & (pages & Hpages & _) & Hgoals).
  cbn [snd] in *. split; [exact Hname | split; [now rewrite Hpages |]].
  intros goals duration Hg Hd. rewrite Hg in Hgoals.
  unfold acceptedGoals in Hgoals. now rewrite Hd in Hgoals.
Qed.

Lemma valid_config_durations_are_ordered_witness :
  isValid (validateConfig (timedConfig (Some (SNum 5)) (Some (SNum 10)))) = true
  /\ exists entries,
       scenarios (timedConfig (Some (SNum 5)) (Some (SNum 10))) = Some entries
       /\ entries <> []
       /\ Forall
            (fun entry : string * ScenarioDoc =>
               truthyOpt (scenarioName entry.2) = true
               /\ is_Some (scenarioPages entry.2)
               /\ forall goals duration,
                    scenarioGoals entry.2 = Some goals ->
                    session_duration goals = Some duration ->
                    exists min max,
                      durationMin duration = Some min
                      /\ durationMax duration = Some max
                      /\ falsy min = false
                      /\ falsy max = false
                      /\ truthyOpt (durationUnit duration) = true
                      /\ greaterOrEqual (Some min) (Some max) = false
                      /\ (forall qmin qmax,
                            min = SNum qmin -> max = SNum qmax ->
                            ~ (qmin == 0)%Q /\ ~ (qmax == 0)%Q /\ (qmin < qmax)%Q))
            entries.
Proof.
  split; [vm_compute; reflexivity |].
  apply (valid_config_durations_are_ordered (timedConfig (Some (SNum 5)) (Some (SNum 10)))).
  vm_compute. reflexivity.
Defined.

(** A session duration that starts at 0 is reported as badly formed; one
    without a maximum is reported once, the comparison with the absent
    bound being false; bounds in the wrong order are reported.  Bounds that
    are strings are compared as strings: from 10 to 9 is accepted, from 9
    to 10 is not.  A string and a number are compared as numbers. *)
Example duration_from_zero_is_rejected :
  errors (validateConfig (timedConfig (Some (SNum 0)) (Some (SNum 10))))
  = ["Scenario browse: Invalid session_duration format"]
  /\ errors (validateConfig (timedConfig (Some (SNum 5)) None))
     = ["Scenario browse: Invalid session_duration format"]
  /\ errors (validateConfig (timedConfig (Some (SNum 10)) (Some (SNum 5))))
     = ["Scenario browse: session_duration min must be less than max"]
  /\ errors (validateConfig
                (timedConfig (Some (SStr "10" (Finite 10))) (Some (SStr "9" (Finite 9)))))
     = []
  /\ errors (validateConfig
                (timedConfig (Some (SStr "9" (Finite 9))) (Some (SStr "10" (Finite 10)))))
     = ["Scenario browse: session_duration min must be less than max"]
  /\ errors (validateConfig
                (timedConfig (Some (SStr "10" (Finite 10))) (Some (SNum 9))))
     = ["Scenario browse: session_duration min must be less than max"].
Proof. repeat split; vm_compute; reflexivity. Qed.

End ValidationFacts.

(** ** The domain of a host name *)

Section DetectorFacts.
Import WebsiteDetector.

Lemma stripPrefix_app (p s rest : string) :
  JS.stripPrefix p s = Some rest -> s = p +:+ rest.
Proof.
  revert s. induction p as [| a p IH]; intros s; simpl.
  - now intros [= ->].
  - destruct s as [| b s]; [discriminate |].
    destruct (Ascii.eqb a b) eqn:Hab; [| discriminate].
    apply Ascii.eqb_eq in Hab. subst b. intros Hrest.
    change (String a s = String a (p +:+ rest)). f_equal. now apply IH.
Qed.

Lemma split_not_nil (sep : ascii) (s : string) : JS.split sep s <> [].
Proof.
  destruct s as [| c s]; simpl; [discriminate |].
  destruct (Ascii.eqb c sep); [discriminate |].
  now destruct (JS.split sep s).
Qed.

Lemma join_split (s : string) : join "." (JS.split "." s) = s.
Proof.
  induction s as [| c s IH]; [reflexivity |].
  pose proof (split_not_nil "." s) as Hne.
  cbn [JS.split]. destruct (JS.split "." s) as [| h t] eqn:Hsplit; [contradiction |].
  destruct (Ascii.eqb c ".") eqn:Hc.
  - apply Ascii.eqb_eq in Hc. subst c.
    change (join "." (EmptyString :: h :: t)) with ("." +:+ join "." (h :: t)).
    now rewrite IH.
  - destruct t as [| h' t].
    + cbn [join] in *. now rewrite IH.
    + change (join "." (String c h :: h' :: t))
        with (String c (h +:+ "." +:+ join "." (h' :: t))).
      f_equal. exact IH.
Qed.

Lemma split_dotFree (s : string) : Forall dotFree (JS.split "." s).
Proof.
  induction s as [| c s IH]; [now repeat constructor |].
  pose proof (split_not_nil "." s) as Hne.
  cbn [JS.split]. destruct (JS.split "." s) as [| h t]; [contradiction |].
  apply Forall_cons in IH as [Hh Ht].
  destruct (Ascii.eqb c ".") eqn:Hc.
  - constructor; [reflexivity | now constructor].
  - constructor; [| exact Ht]. unfold dotFree in *. cbn [Regex.allChars].
    now rewrite Hc, Hh.
Qed.

Lemma split_of_dotFree (part : string) : dotFree part -> JS.split "." part = [part].
Proof.
  unfold dotFree. induction part as [| c part IH]; [reflexivity |].
  cbn [Regex.allChars JS.split]. intros Hall. apply andb_prop in Hall as [Hc Hrest].
  apply negb_true_iff in Hc. rewrite Hc, (IH Hrest). reflexivity.
Qed.

Lemma split_dotFree_dot (part rest : string) :
  dotFree part -> JS.split "." (part +:+ "." +:+ rest) = part :: JS.split "." rest.
Proof.
  unfold dotFree. induction part as [| c part IH]; [reflexivity |].
  cbn [Regex.allChars]. intros Hall. apply andb_prop in Hall as [Hc Hrest].
  apply negb_true_iff in Hc.
  change (String c part +:+ "." +:+ rest) with (String c (part +:+ "." +:+ rest)).
  cbn [JS.split]. rewrite Hc, (IH Hrest). reflexivity.
Qed.

Lemma split_join (parts : list string) :
  parts <> [] -> Forall dotFree parts -> JS.split "." (join "." parts) = parts.
Proof.
  induction parts as [| part rest IH]; [contradiction |].
  intros _ Hall. apply Forall_cons in Hall as [Hpart Hrest].
  destruct rest as [| next rest]; [now apply split_of_dotFree |].
  change (join "." (part :: next :: rest))
    with (part +:+ "." +:+ join "." (next :: rest)).
  rewrite (split_dotFree_dot _ _ Hpart), IH; [reflexivity | discriminate | exact Hrest].
Qed.

Lemma join_app_suffix (before parts : list string) :
  parts <> [] -> exists prefix, join "." (before ++ parts) = prefix +:+ join "." parts.
Proof.
  intros Hne. induction before as [| part before [prefix IH]].
  - now exists EmptyString.
  - exists (part +:+ "." +:+ prefix).
    destruct (before ++ parts) as [| next rest] eqn:Happ.
    { apply app_nil in Happ as [_ ->]. contradiction. }
    change (join "." ((part :: before) ++ parts)) with (join "." (part :: before ++ parts)).
    rewrite Happ.
    change (join "." (part :: next :: rest))
      with (part +:+ "." +:+ join "." (next :: rest)).
    rewrite IH, !append_assoc_string. reflexivity.
Qed.

Lemma sliceLast_suffix {A : Type} (n : nat) (parts : list A) :
  parts = firstn (length parts - n) parts ++ sliceLast n parts.
Proof. unfold sliceLast. now rewrite firstn_skipn. Qed.

Lemma sliceLast_length {A : Type} (n : nat) (parts : list A) :
  length (sliceLast n parts) = Nat.min n (length parts).
Proof. unfold sliceLast. rewrite length_skipn. lia. Qed.

Lemma sliceLast_Forall {A : Type} (P : A -> Prop) (n : nat) (parts : list A) :
  Forall P parts -> Forall P (sliceLast n parts).
Proof.
  intros Hall. rewrite (sliceLast_suffix n parts) in Hall.
  now apply Forall_app in Hall as [_ Hlast].
Qed.

(** The labels that [extractDomain] keeps: the name without [www.] when it
    has at most two labels, the last two or three of its labels otherwise. *)
Lemma extractDomain_keeps (hostname : string) :
  exists kept,
    extractDomain hostname = join "." kept
    /\ kept <> []
    /\ (exists dropped, labels (withoutWww hostname) = dropped ++ kept)
    /\ Nat.min 2 (length (labels (withoutWww hostname))) <= length kept <= 3.
Proof.
  unfold extractDomain, labels. cbv zeta.
  set (domain := withoutWww hostname). set (parts := JS.split "." domain).
  assert (Hne : parts <> []) by apply split_not_nil.
  assert (Hlast : forall n, 2 <= n <= 3 -> 2 < length parts ->
            exists kept, join "." (sliceLast n parts) = join "." kept
              /\ kept <> []
              /\ (exists dropped, parts = dropped ++ kept)
              /\ Nat.min 2 (length parts) <= length kept <= 3).
  { intros n Hn Hlen. exists (sliceLast n parts). split; [reflexivity |].
    pose proof (sliceLast_length n parts) as Hl. split; [| split].
    - intros Hnil. rewrite Hnil in Hl. simpl in Hl. lia.
    - exists (firstn (length parts - n) parts). apply sliceLast_suffix.
    - lia. }
  destruct (length parts <=? 2)%nat eqn:Hshort.
  - apply Nat.leb_le in Hshort. exists parts. split; [| split; [| split]].
    + symmetry. apply join_split.
    + exact Hne.
    + now exists [].
    + lia.
  - apply Nat.leb_gt in Hshort.
    destruct (includesString commonTLDs _); [apply Hlast; lia |].
    destruct (if (3 <=? length parts)%nat then _ else false); apply Hlast; lia.
Qed.

(** X22.  [extractDomain] cuts a host name at a dot: after a leading [www.]
    is removed, the result consists of the last labels of the name, all of
    them when there are at most two, two or three of them otherwise, and so
    is a suffix of the host name. *)
Theorem extracted_domain_is_the_last_labels (hostname : string) :
  (exists dropped,
     labels (withoutWww hostname) = dropped ++ labels (extractDomain hostname))
  /\ Nat.min 2 (length (labels (withoutWww hostname)))
     <= length (labels (extractDomain hostname)) <= 3
  /\ exists prefix, hostname = prefix +:+ extractDomain hostname.
Proof.
  destruct (extractDomain_keeps hostname)
    as (kept & Hjoin & Hne & [dropped Hdropped] & Hbounds).
  assert (Hfree : Forall dotFree kept).
  { pose proof (split_dotFree (withoutWww hostname)) as Hall.
    unfold labels in Hdropped. rewrite Hdropped in Hall.
    now apply Forall_app in Hall as [_ Hkept]. }
  assert (Hlabels : labels (extractDomain hostname) = kept).
  { unfold labels. rewrite Hjoin. now apply split_join. }
  rewrite Hlabels. split; [now exists dropped | split; [exact Hbounds |]].
  assert (Hwhole : exists prefix, withoutWww hostname = prefix +:+ extractDomain hostname).
  { rewrite <- (join_split (withoutWww hostname)). unfold labels in Hdropped.
    rewrite Hdropped, Hjoin. now apply join_app_suffix. }
  destruct Hwhole as [prefix Hprefix]. unfold withoutWww in Hprefix.
  destruct (JS.stripPrefix "www." hostname) as [rest |] eqn:Hstrip.
  - apply stripPrefix_app in Hstrip. cbn [default from_option id] in Hprefix.
    exists ("www." +:+ prefix).
    change (default hostname (Some rest)) with rest in Hprefix.
    rewrite append_assoc_string, <- Hprefix. exact Hstrip.
  - now exists prefix.
Qed.

(** Host names and their domains; the domain of a domain can be shorter. *)
Example extractDomain_examples :
  extractDomain "www.shop.example.com" = "example.com"
  /\ extractDomain "news.bbc.co.uk" = "bbc.co.uk"
  /\ extractDomain "a.b.example.de" = "example.de"
  /\ extractDomain "localhost" = "localhost"
  /\ extractDomain "x.www.de" = "www.de"
  /\ extractDomain (extractDomain "x.www.de") = "de".
Proof. repeat split; vm_compute; reflexivity. Qed.

End DetectorFacts.

(** ** The two validations and the domain of a host *)

Section CrossValidationFacts.
Import ConfigManager ConfigValidation WebsiteDetector.

Lemma allowed_in_label_is_no_dot (c : ascii) :
  Regex.isAlnumOrHyphen c = true -> negb (Ascii.eqb c ".") = true.
Proof.
  intros Hc. destruct (Ascii.eqb c ".") eqn:Hdot; [| reflexivity].
  apply Ascii.eqb_eq in Hdot. subst c. discriminate.
Qed.

Lemma letter_is_no_dot (c : ascii) :
  Regex.isLetter c = true -> negb (Ascii.eqb c ".") = true.
Proof.
  intros Hc. destruct (Ascii.eqb c ".") eqn:Hdot; [| reflexivity].
  apply Ascii.eqb_eq in Hdot. subst c. discriminate.
Qed.

Lemma validateConfig_selectors (config : ConfigDoc) :
  isValid (validateConfig config) = true ->
  exists sel, selectors config = Some sel /\ hasPages sel = true.
Proof.
  intros Hvalid. apply validateConfig_errors in Hvalid.
  unfold validateConfig in Hvalid. cbn [errors] in Hvalid.
  apply app_nil in Hvalid as [_ Hrest].
  apply app_nil in Hrest as [_ Hrest].
  apply app_nil in Hrest as [Hsel _].
  destruct (selectors config) as [sel |]; [| discriminate].
  exists sel. split; [reflexivity |]. now destruct (hasPages sel).
Qed.

(** X23.  The domain under which [ConfigManager] accepts a configuration
    has exactly two labels.  A host whose extracted domain has three
    labels, as under a country domain such as [co.uk], is therefore never
    the domain of an accepted configuration. *)
Theorem valid_config_domain_has_two_labels (config : ConfigDoc) :
  isValid (validateConfig config) = true ->
  exists w domain,
    website config = Some w
    /\ websiteDomain w = Some domain
    /\ length (labels domain) = 2
    /\ forall hostname,
         length (labels (extractDomain hostname)) = 3 ->
         extractDomain hostname <> domain.
Proof.
  intros Hvalid.
  destruct (validateConfig_accepts config Hvalid)
    as (w & domain & entries & Hw & _ & Hd & Htest & _).
  destruct (domainRegex_shape domain Htest)
    as (label & tld & -> & Hlabel & _ & Htld & _).
  assert (Hcount : length (labels (label +:+ "." +:+ tld)) = 2).
  { unfold labels. rewrite split_dotFree_dot, split_of_dotFree; [reflexivity | |].
    - exact (allChars_weaken _ _ tld letter_is_no_dot Htld).
    - exact (allChars_weaken _ _ label allowed_in_label_is_no_dot Hlabel). }
  exists w, (label +:+ "." +:+ tld).
  split; [exact Hw | split; [exact Hd | split; [exact Hcount |]]].
  intros hostname Hthree Heq. rewrite Heq in Hthree. lia.
Qed.

Lemma valid_config_domain_has_two_labels_witness :
  isValid (validateConfig (exampleConfig "bbc.com" None)) = true
  /\ exists w domain,
       website (exampleConfig "bbc.com" None) = Some w
       /\ websiteDomain w = Some domain
       /\ length (labels domain) = 2
       /\ forall hostname,
            length (labels (extractDomain hostname)) = 3 ->
            extractDomain hostname <> domain.
Proof.
  split; [vm_compute; reflexivity |].
  apply (valid_config_domain_has_two_labels (exampleConfig "bbc.com" None)).
  vm_compute. reflexivity.
Defined.

(** The domain of a host under [co.uk] has three labels. *)
Example country_domain_has_three_labels :
  length (labels (extractDomain "news.bbc.co.uk")) = 3.
Proof. vm_compute. reflexivity. Qed.

(** X24.  The validation of [ConfigManager] is at least as strict as the one
    of [WebsiteDetector]: a configuration that [validateConfig] accepts is
    accepted by [validateWebsiteConfig]. *)
Theorem valid_config_is_valid_for_the_detector (config : ConfigDoc) :
  isValid (validateConfig config) = true ->
  isValid (validateWebsiteConfig config) = true.
Proof.
  intros Hvalid.
  destruct (validateConfig_selectors config Hvalid) as (sel & Hsel & Hpages).
  destruct (validateConfig_accepts config Hvalid)
    as (w & domain & entries & Hw & Hname & Hd & Htest & Htype & Hentries & Hne & Heach).
  assert (Hdomain : truthyOpt (websiteDomain w) = true).
  { rewrite Hd. cbn [truthyOpt]. destruct domain; [discriminate | reflexivity]. }
  assert (Hscenarios :
    flat_map
      (fun entry : string * ScenarioDoc =>
         (if negb (truthyOpt (scenarioName entry.2))
          then ["Scenario " +:+ entry.1 +:+ " missing name"] else [])
         ++ match scenarioPages entry.2 with
            | None => ["Scenario " +:+ entry.1 +:+ " missing pages"]
            | Some _ => []
            end)
      entries = []).
  { clear Hentries Hne. induction Heach as [| [scenarioId scenario] rest Hs _ IH];
      [reflexivity |].
    destruct Hs as (Hn & (pages & Hp & _) & _). cbn [snd fst] in *.
    cbn [flat_map fst snd]. rewrite Hn, Hp, IH. reflexivity. }
  unfold validateWebsiteConfig. cbn [isValid].
  rewrite Hw, Hsel, Hentries, Hname, Hdomain, Htype, Hpages, Hscenarios.
  destruct entries; [contradiction | reflexivity].
Qed.

Lemma valid_config_is_valid_for_the_detector_witness :
  isValid (validateConfig (exampleConfig "example.com" None)) = true
  /\ isValid (validateWebsiteConfig (exampleConfig "example.com" None)) = true.
Proof.
  split; [vm_compute; reflexivity |].
  apply (valid_config_is_valid_for_the_detector (exampleConfig "example.com" None)).
  vm_compute. reflexivity.
Defined.

(** The converse fails: the detector's validation does not look at the
    form of the domain, the probabilities or the goals. *)
Example detector_accepts_what_the_manager_rejects :
  isValid (validateWebsiteConfig (exampleConfig "amazon.co.uk" (Some (SNum (3 # 2))))) = true
  /\ isValid (validateConfig (exampleConfig "amazon.co.uk" (Some (SNum (3 # 2))))) = false.
Proof. split; vm_compute; reflexivity. Qed.

End CrossValidationFacts.

(** ** Typing *)

Section TypingFacts.
Import Typing.



Lemma typeCharacter_textContent (c : ascii) (element : Field) :
  value element = None ->
  value (typeCharacter c element) = None
  /\ textContent (typeCharacter c element)
     = textContent element +:+ String c EmptyString.
Proof.
  intros Hv. unfold typeCharacter, dispatchEvent, appendChar. cbn [value textContent].
  rewrite Hv. now cbn [value textContent].
Qed.


(** A simulated typo in an element without a value: the wrong character
    stays. *)
Lemma simulateTypo_textContent (c : ascii) (element : Field) :
  value element = None ->
  value (simulateTypo c element) = None
  /\ textContent (simulateTypo c element)
     = textContent element +:+ String (typoChar c) (String c EmptyString).
Proof.
  intros Hv. unfold simulateTypo.
  destruct (typeCharacter_textContent (typoChar c) element Hv) as [Hwrong Htext].
  set (wrong := typeCharacter (typoChar c) element) in *.
  assert (Hback : value (pressKey "Backspace" wrong) = None
                  /\ textContent (pressKey "Backspace" wrong) = textContent wrong).
  { unfold pressKey, dispatchEvent. cbn [value textContent]. rewrite Hwrong.
    now cbn [value textContent]. }
  destruct Hback as [Hback Hsame].
  destruct (typeCharacter_textContent c _ Hback) as [Hright Hkeep].
  rewrite Hright, Hkeep, Hsame, Htext, append_assoc_string. now split.
Qed.




(** A typo at the second character of [cat], typed into a field that holds
    [ab]; a typo drawn at the first character is not simulated. *)
Example typo_doubles_the_character :
  value (typeLoop (fun i => (i =? 1)%nat) 0 "cat" (mkField (Some "ab") EmptyString []))
  = Some "abcaat"
  /\ value (typeLoop (fun i => (i =? 0)%nat) 0 "cat"
              (mkField (Some "ab") EmptyString []))
     = Some "abcat".
Proof. split; vm_compute; reflexivity. Qed.

Lemma typeLoop_textContent (typoDrawn : nat -> bool) (text : string) :
  forall (i : nat) (element : Field),
    value element = None ->
    exists typed,
      textContent (typeLoop typoDrawn i text element) = textContent element +:+ typed
      /\ String.length typed = String.length text + 2 * typos typoDrawn i text
      /\ (typos typoDrawn i text = 0 -> typed = text)
      /\ value (typeLoop typoDrawn i text element) = None.
Proof.
  induction text as [| c text IH]; intros i element Hv.
  - exists EmptyString. cbn [typeLoop typos String.length].
    assert (Hnil : forall s, s +:+ EmptyString = s).
    { clear. intros s. induction s as [| a s IHs]; [reflexivity |].
      change (String a s +:+ EmptyString) with (String a (s +:+ EmptyString)).
      now rewrite IHs. }
    now rewrite Hnil.
  - cbn [typeLoop typos]. cbv zeta.
    destruct (typeCharacter_textContent c element Hv) as [Hone Htext].
    destruct (typoDrawn i && (0 <? i)%nat).
    + destruct (simulateTypo_textContent c _ Hone) as [Htwo Htext'].
      destruct (IH (S i) _ Htwo) as (typed & Hcontent & Hlength & _ & Hvalue).
      exists (String c (String (typoChar c) (String c typed))).
      split; [| split; [| split]].
      * rewrite Hcontent, Htext', Htext, !append_assoc_string. reflexivity.
      * cbn [String.length]. lia.
      * intros Hnone. cbn in Hnone. lia.
      * exact Hvalue.
    + destruct (IH (S i) _ Hone) as (typed & Hcontent & Hlength & Hexact & Hvalue).
      exists (String c typed). split; [| split; [| split]].
      * rewrite Hcontent, Htext, !append_assoc_string. reflexivity.
      * cbn [String.length]. lia.
      * intros Hnone. cbn in Hnone. now rewrite (Hexact Hnone).
      * exact Hvalue.
Qed.

(** X26.  Typing into an element without a value, whose text content is
    written instead: the Backspace of a simulated typo removes nothing
    there, so each simulated typo leaves two more characters, the wrong one
    and the repeated one.  What is appended to the text content is the text
    exactly when no typo was simulated. *)
Theorem typo_stays_in_the_text_content (typoDrawn : nat -> bool) (text : string)
    (element : Field) :
  value element = None ->
  exists typed,
    textContent (typeLoop typoDrawn 0 text element) = textContent element +:+ typed
    /\ String.length typed = String.length text + 2 * typos typoDrawn 0 text
    /\ (typed = text <-> typos typoDrawn 0 text = 0).
Proof.
  intros Hv.
  destruct (typeLoop_textContent typoDrawn text 0 element Hv)
    as (typed & Hcontent & Hlength & Hexact & _).
  exists typed. split; [exact Hcontent | split; [exact Hlength |]].
  split; [| exact Hexact].
  intros ->. lia.
Qed.

Lemma typo_stays_in_the_text_content_witness :
  value (mkField None "ab" []) = None
  /\ exists typed,
       textContent (typeLoop (fun i => (i =? 1)%nat) 0 "cat" (mkField None "ab" []))
       = "ab" +:+ typed
       /\ String.length typed
          = String.length "cat" + 2 * typos (fun i => (i =? 1)%nat) 0 "cat"
       /\ (typed = "cat" <-> typos (fun i => (i =? 1)%nat) 0 "cat" = 0).
Proof.
  split; [reflexivity |].
  apply (typo_stays_in_the_text_content (fun i => (i =? 1)%nat) "cat"
           (mkField None "ab" [])).
  reflexivity.
Defined.

Example typo_stays_in_a_text_node :
  textContent (typeLoop (fun i => (i =? 1)%nat) 0 "cat" (mkField None "ab" []))
  = "abcasat".
Proof. vm_compute. reflexivity. Qed.

End TypingFacts.
